(** * crowdfund-server: donation pipeline and token-launch orchestrator

    A shallow embedding of the server's handlers (routes/funds.ts,
    routes/users.ts), of the ledger helpers (utils/solana.ts), of the
    launch orchestrator (utils/pumpfun.ts), of the connection to the
    database (index.ts) and of the Fund and User models, with the
    properties the specification states about them and further
    properties of the code.

    JavaScript numbers are IEEE 754 binary64 values, so they are modelled
    by Rocq's primitive floats: every arithmetic step below rounds as the
    running server does.  Calls that leave the process (ledger RPC, HTTP,
    key handling, the clock) are answered by an oracle; the MongoDB
    collections are finite maps carried in the state. *)

From Stdlib Require Import ZArith Ascii String List Floats Lia.
From stdpp Require Import gmap strings pretty.

Set Warnings "-inexact-float,-register-all".

Local Open Scope string_scope.
Local Open Scope float_scope.

(** ** JavaScript numbers *)

Module Num.

Definition LAMPORTS_PER_SOL : float := 1000000000.

(** [x >= y] and [x > y]; like [<] and [<=] they are false as soon as
    an operand is NaN. *)
Definition geb (x y : float) : bool := PrimFloat.leb y x.
Definition gtb (x y : float) : bool := PrimFloat.ltb y x.

(** A number is falsy when it is 0, -0 or NaN. *)
Definition truthy (x : float) : bool := negb (PrimFloat.is_zero x || PrimFloat.is_nan x).

(** [x === y] on numbers. *)
Definition strict_eq (x y : float) : bool := PrimFloat.eqb x y.

(** [Math.max(a, b)]: NaN if an operand is NaN, +0 above -0. *)
Definition Math_max (a b : float) : float :=
  if PrimFloat.is_nan a || PrimFloat.is_nan b then nan
  else if PrimFloat.ltb a b then b
  else if PrimFloat.ltb b a then a
  else if PrimFloat.is_zero a && PrimFloat.get_sign a then b else a.

(** [Math.min(a, b)]: NaN if an operand is NaN, -0 below +0. *)
Definition Math_min (a b : float) : float :=
  if PrimFloat.is_nan a || PrimFloat.is_nan b then nan
  else if PrimFloat.ltb a b then a
  else if PrimFloat.ltb b a then b
  else if PrimFloat.is_zero a && PrimFloat.get_sign a then a else b.

(** The float of a natural number below 2^53 (exact). *)
Definition of_Z (z : Z) : float := PrimFloat.of_uint63 (Uint63.of_Z z).

(** [Math.floor(x)]: a finite [x = (-1)^s * m * 2^e] with [e < 0] is cut
    at the binary point; every other value is already integral (or is
    a zero, an infinity or NaN) and is returned as it is. *)
Definition Math_floor (x : float) : float :=
  match Prim2SF x with
  | S754_finite s m e =>
      if (0 <=? e)%Z then x
      else
        let d := (2 ^ (- e))%Z in
        let q := (Z.pos m / d)%Z in
        if s then
          PrimFloat.opp (of_Z (if (Z.pos m mod d =? 0)%Z then q else q + 1)%Z)
        else of_Z q
  | _ => x
  end.

(** [Math.ceil(x)] *)
Definition Math_ceil (x : float) : float := PrimFloat.opp (Math_floor (PrimFloat.opp x)).

End Num.

(** ** Strings *)

(** [hay.includes(needle)]. *)
Definition includes (needle hay : string) : bool :=
  match String.index 0 needle hay with
  | Some _ => true
  | None => false
  end.

(** [!s] for a value that is a string or undefined: the empty string is
    falsy as well. *)
Definition truthy_str (o : option string) : bool :=
  match o with
  | Some s => negb (String.eqb s "")
  | None => false
  end.

(** ** Exceptions and results *)

(** A thrown value: an [Error] object with its [name] and [message], or
    anything else. *)
Inductive exn : Type :=
| JsError (name message : string)
| JsThrown (v : string).

Definition Error (message : string) : exn := JsError "Error" message.

(** [error.message?.includes(s)] *)
Definition message_includes (s : string) (e : exn) : bool :=
  match e with
  | JsError _ m => includes s m
  | JsThrown _ => false
  end.

(** [error.name === n] *)
Definition name_is (n : string) (e : exn) : bool :=
  match e with
  | JsError nm _ => String.eqb nm n
  | JsThrown _ => false
  end.

Inductive result (A : Type) : Type :=
| Ok (a : A)
| Throw (e : exn).
Arguments Ok {A} a.
Arguments Throw {A} e.

(** ** The persisted records *)

(** A date is its number of milliseconds since the epoch. *)
Definition Date : Type := Z.

Inductive FundStatus : Type := active | completed.

Definition FundStatus_eqb (a b : FundStatus) : bool :=
  match a, b with
  | active, active | completed, completed => true
  | _, _ => false
  end.

(** models/Fund.ts, [FundSchema]: one field per schema path, in the
    schema's order, then the two paths of [timestamps: true].  A String
    path that is absent or null is [None].  The schema declares no
    [launchStatus] path. *)
Record Fund : Type := {
  _id : string;
  userId : string;
  name : string;
  image : option string;
  fundWalletAddress : string;
  fundPrivateKey : string;
  tokenName : string;
  tokenSymbol : string;
  tokenDescription : string;
  targetPercentage : float;
  targetSolAmount : float;
  currentDonatedSol : float;
  initialFeePaid : float;
  targetWallet : string;
  tokenTwitter : option string;
  tokenTelegram : option string;
  tokenWebsite : option string;
  status : FundStatus;
  launchFee : float;
  tokenAddress : option string;
  pumpPortalApiKey : option string;
  pumpPortalWalletPublicKey : option string;
  pumpPortalPrivateKey : option string;
  pumpPortalTransferCompleted : bool;
  completedAt : option Date;
  launchError : option string;
  tokenCa : option string;
  solscanUrl : option string;
  metadataUri : option string;
  createdAt : Date;
  updatedAt : Date
}.

(** models/User.ts *)
Record Donation : Type := {
  fundId : string;
  amount : float;
  donatedAt : Date
}.

Record User : Type := {
  user_id : string;
  walletAddress : string;
  user_name : option string;
  email : option string;
  donations : list Donation;
  totalDonatedSol : float
}.

(** *** Documents

    A Mongoose document holds the values of its schema paths and tracks
    the paths assigned since it was loaded; [save] sends those
    assignments, and nothing else, to the collection.  A property that is
    not a schema path ([launchStatus] on a Fund) lives on the JavaScript
    object only: it is neither saved nor loaded nor serialised.

    An assignment is tracked even when it repeats the value the path
    already has.  Mongoose would not send it; what is stored is then
    the same but for [updatedAt], which a [save] here moves forward. *)
Inductive FundSet : Type :=
| Set_currentDonatedSol (x : float)
| Set_status (s : FundStatus)
| Set_completedAt (d : Date)
| Set_tokenAddress (a : option string)
| Set_pumpPortalApiKey (k : option string)
| Set_pumpPortalWalletPublicKey (k : option string)
| Set_pumpPortalPrivateKey (k : option string)
| Set_pumpPortalTransferCompleted (b : bool)
| Set_launchError (e : option string)
| Set_solscanUrl (u : option string)
| Set_metadataUri (u : option string)
| Set_updatedAt (d : Date).

Definition apply_set (p : FundSet) (f : Fund) : Fund :=
  let '(Build_Fund i u n im wa pk tn ts td tp tg cd fee tw ttw tte twe st lf ta ak awk apk tc ca le tca su mu cr up) := f in
  match p with
  | Set_currentDonatedSol x =>
      Build_Fund i u n im wa pk tn ts td tp tg x fee tw ttw tte twe st lf ta ak awk apk tc ca le tca su mu cr up
  | Set_status s =>
      Build_Fund i u n im wa pk tn ts td tp tg cd fee tw ttw tte twe s lf ta ak awk apk tc ca le tca su mu cr up
  | Set_completedAt d =>
      Build_Fund i u n im wa pk tn ts td tp tg cd fee tw ttw tte twe st lf ta ak awk apk tc (Some d) le tca su mu cr up
  | Set_tokenAddress a =>
      Build_Fund i u n im wa pk tn ts td tp tg cd fee tw ttw tte twe st lf a ak awk apk tc ca le tca su mu cr up
  | Set_pumpPortalApiKey k =>
      Build_Fund i u n im wa pk tn ts td tp tg cd fee tw ttw tte twe st lf ta k awk apk tc ca le tca su mu cr up
  | Set_pumpPortalWalletPublicKey k =>
      Build_Fund i u n im wa pk tn ts td tp tg cd fee tw ttw tte twe st lf ta ak k apk tc ca le tca su mu cr up
  | Set_pumpPortalPrivateKey k =>
      Build_Fund i u n im wa pk tn ts td tp tg cd fee tw ttw tte twe st lf ta ak awk k tc ca le tca su mu cr up
  | Set_pumpPortalTransferCompleted b =>
      Build_Fund i u n im wa pk tn ts td tp tg cd fee tw ttw tte twe st lf ta ak awk apk b ca le tca su mu cr up
  | Set_launchError e =>
      Build_Fund i u n im wa pk tn ts td tp tg cd fee tw ttw tte twe st lf ta ak awk apk tc ca e tca su mu cr up
  | Set_solscanUrl x =>
      Build_Fund i u n im wa pk tn ts td tp tg cd fee tw ttw tte twe st lf ta ak awk apk tc ca le tca x mu cr up
  | Set_metadataUri x =>
      Build_Fund i u n im wa pk tn ts td tp tg cd fee tw ttw tte twe st lf ta ak awk apk tc ca le tca su x cr up
  | Set_updatedAt d =>
      Build_Fund i u n im wa pk tn ts td tp tg cd fee tw ttw tte twe st lf ta ak awk apk tc ca le tca su mu cr d
  end.

Definition apply_sets (ps : list FundSet) (f : Fund) : Fund :=
  fold_left (fun g p => apply_set p g) ps f.

Record FundDoc : Type := {
  fields : Fund;
  modified : list FundSet;
  launchStatus : option string
}.

(** [doc.path = value] for a schema path. *)
Definition assign (p : FundSet) (d : FundDoc) : FundDoc :=
  {| fields := apply_set p (fields d);
     modified := modified d ++ [p];
     launchStatus := launchStatus d |}.

(** [doc.launchStatus = value]: a plain property of the object. *)
Definition assign_launchStatus (v : option string) (d : FundDoc) : FundDoc :=
  {| fields := fields d; modified := modified d; launchStatus := v |}.

(** The document [findById] builds from a stored record. *)
Definition hydrate (f : Fund) : FundDoc :=
  {| fields := f; modified := []; launchStatus := None |}.

(** ** The outside world *)

(** A keypair, both halves in base58. *)
Record Keypair : Type := {
  publicKey : string;
  secretKey : string
}.

(** An instruction of a parsed transaction: either it carries no [parsed]
    member, or it has a program name, a type and the [info] of a
    transfer. *)
Record ParsedInstruction : Type := {
  program : string;
  parsed_type : string;
  source : string;
  destination : string;
  lamports : float
}.

Inductive Instruction : Type :=
| PartiallyDecoded
| Parsed (p : ParsedInstruction).

Record ParsedTx : Type := {
  slot : float;
  instructions : list Instruction
}.

(** The instructions [transferSol] puts in a transaction. *)
Inductive TxInstruction : Type :=
| SetComputeUnitPrice (microLamports : float)
| SystemTransfer (fromPubkey toPubkey : string) (lamports : float).

Record Transaction : Type := {
  tx_instructions : list TxInstruction;
  recentBlockhash : string;
  feePayer : string
}.

Record Blockhash : Type := {
  blockhash : string;
  lastValidBlockHeight : float
}.

(** [getTokenAccountBalance(..).value]: [amount] with the number it
    denotes, and [uiAmount]. *)
Record TokenAmount : Type := {
  ta_amount : string;
  ta_amount_number : float;
  uiAmount : option float
}.

(** [getParsedAccountInfo(..).value]: null, unparsed data, or parsed data
    with the number of its [supply] when it has one. *)
Inductive AccountInfo : Type :=
| NoAccount
| RawData
| ParsedData (supply : option float).

(** What [fetch] resolves to: the status, the [Retry-After] header, the
    text of the body and the body read as JSON of the endpoint's shape. *)
Record Response (B : Type) : Type := {
  http_status : nat;
  retry_after : option string;
  text : string;
  http_json : result B
}.
Arguments http_status {B} _.
Arguments retry_after {B} _.
Arguments text {B} _.
Arguments http_json {B} _.

Definition response_ok {B} (r : Response B) : bool :=
  (200 <=? http_status r)%nat && (http_status r <=? 299)%nat.

Record WalletData : Type := {
  wd_apiKey : string;
  wd_walletPublicKey : string;
  wd_privateKey : string
}.

Record MetadataResponse : Type := {
  md_metadataUri : string;
  md_name : string;
  md_symbol : string
}.

Record TradeResponse : Type := {
  tr_signature : string;
  tr_mint : option string
}.

Record CreatePayload : Type := {
  cp_name : string;
  cp_symbol : string;
  cp_uri : string;
  cp_mint : string;
  cp_amount : float
}.

(** The query of the fund list: [Fund.find(query).sort(..).skip(..).limit(..)]. *)
Record FundQuery : Type := {
  q_status : string;
  q_search : option string;
  q_skip : float;
  q_limit : float
}.

(** Every call that leaves the process, with the type of its answer. *)
Inductive ext : Type -> Type :=
(* Connection of @solana/web3.js *)
| GetBalance (pk : string) : ext float
| GetLatestBlockhash : ext Blockhash
| GetFeeForMessage (recent : string) : ext (option float)
| GetParsedTransaction (sig : string) : ext (option ParsedTx)
| ConfirmTransaction (sig : string) : ext (option string)
| SendTransaction (tx : Transaction) (signers : list string) : ext string
| GetTokenAccountBalance (account : string) : ext (option TokenAmount)
| GetParsedAccountInfo (pk : string) : ext AccountInfo
(* @solana/spl-token *)
| GetOrCreateAssociatedTokenAccount (payer mint owner : string) : ext string
| SplTransfer (payer src dst owner : string) (amount : float) : ext string
(* keys *)
| NewPublicKey (s : string) : ext string
| KeypairFromSecretKey (secret : string) : ext Keypair
(* HTTP *)
| FetchCreateWallet : ext (Response WalletData)
| FetchImage (url : string) : ext (Response unit)
| FetchIpfs (token_name symbol description twitter telegram website : string) :
    ext (Response MetadataResponse)
| FetchTrade (apiKey : string) (payload : CreatePayload) : ext (Response TradeResponse)
(* MongoDB: the queries whose evaluation is the server's *)
| FundFind (q : FundQuery) : ext (list Fund)
| FundCount (q : FundQuery) : ext float.

(** What the process draws without a call that can fail: the time, a
    fresh document id, a fresh keypair. *)
Inductive builtin : Type -> Type :=
| Now : builtin Date
| NewObjectId : builtin string
| KeypairGenerate : builtin Keypair.

Inductive event : Type :=
| Called {A : Type} (c : ext A)
| Drawn {A : Type} (b : builtin A).

(** The oracle answers the [n]-th step of a run: a call returns or
    throws, a draw has a value.  It also tells which texts Mongoose
    casts to an ObjectId, the type of a document's [_id]. *)
Record oracle : Type := {
  answer : forall A : Type, nat -> ext A -> result A;
  value : forall A : Type, nat -> builtin A -> A;
  casts : string -> bool
}.

(** The state a handler runs in: the two collections and the calls made
    so far. *)
Record World : Type := {
  funds : gmap string Fund;
  users : list User;
  trace : list event
}.

Definition with_funds (fs : gmap string Fund) (w : World) : World :=
  {| funds := fs; users := users w; trace := trace w |}.
Definition with_users (us : list User) (w : World) : World :=
  {| funds := funds w; users := us; trace := trace w |}.
Definition with_trace (t : list event) (w : World) : World :=
  {| funds := funds w; users := users w; trace := t |}.

(** ** JSON values *)

Inductive jsval : Type :=
| JNull
| JBool (b : bool)
| JNum (x : float)
| JStr (s : string)
| JDate (d : Date)
| JArr (l : list jsval)
| JObj (o : gmap string jsval).

(** A JavaScript object: a finite map from property names. *)
Abbreviation jsobj := (gmap string jsval).

(** The members of an object literal; an undefined member is left out. *)
Definition object (members : list (string * option jsval)) : jsobj :=
  list_to_map (omap (fun m => match snd m with
                              | Some v => Some (fst m, v)
                              | None => None
                              end) members).

Definition FundStatus_string (s : FundStatus) : string :=
  match s with
  | active => "active"
  | completed => "completed"
  end.

(** [fund.toJSON()]: the schema paths that hold a value, and the
    version key [__v], which is 0 for a document without arrays.
    [userId] is given as the caller has it, an id or a populated
    object. *)
Definition toJSON_with (userId_json : jsval) (f : Fund) : jsobj :=
  object [
    ("_id", Some (JStr (_id f)));
    ("userId", Some userId_json);
    ("name", Some (JStr (name f)));
    ("image", JStr <$> image f);
    ("fundWalletAddress", Some (JStr (fundWalletAddress f)));
    ("fundPrivateKey", Some (JStr (fundPrivateKey f)));
    ("tokenName", Some (JStr (tokenName f)));
    ("tokenSymbol", Some (JStr (tokenSymbol f)));
    ("tokenDescription", Some (JStr (tokenDescription f)));
    ("targetPercentage", Some (JNum (targetPercentage f)));
    ("targetSolAmount", Some (JNum (targetSolAmount f)));
    ("currentDonatedSol", Some (JNum (currentDonatedSol f)));
    ("initialFeePaid", Some (JNum (initialFeePaid f)));
    ("targetWallet", Some (JStr (targetWallet f)));
    ("tokenTwitter", JStr <$> tokenTwitter f);
    ("tokenTelegram", JStr <$> tokenTelegram f);
    ("tokenWebsite", JStr <$> tokenWebsite f);
    ("status", Some (JStr (FundStatus_string (status f))));
    ("launchFee", Some (JNum (launchFee f)));
    ("tokenAddress", JStr <$> tokenAddress f);
    ("pumpPortalApiKey", JStr <$> pumpPortalApiKey f);
    ("pumpPortalWalletPublicKey", JStr <$> pumpPortalWalletPublicKey f);
    ("pumpPortalPrivateKey", JStr <$> pumpPortalPrivateKey f);
    ("pumpPortalTransferCompleted", Some (JBool (pumpPortalTransferCompleted f)));
    ("completedAt", JDate <$> completedAt f);
    ("launchError", JStr <$> launchError f);
    ("tokenCa", JStr <$> tokenCa f);
    ("solscanUrl", JStr <$> solscanUrl f);
    ("metadataUri", JStr <$> metadataUri f);
    ("createdAt", Some (JDate (createdAt f)));
    ("updatedAt", Some (JDate (updatedAt f)));
    ("__v", Some (JNum 0))
  ].

Definition toJSON (f : Fund) : jsobj := toJSON_with (JStr (userId f)) f.

(** ** config.ts *)

Record Config : Type := {
  CROWD_FUND_CREATION_FEE : float;
  MIN_DONATION : float;
  MAX_DONATION : float;
  WEBSITE_WALLET : string;
  SOLANA_NETWORK : string;
  CLOUDINARY_CLOUD_NAME : string
}.

(** ** The monad of handlers: state and exceptions *)

Definition M (A : Type) : Type := World -> result A * World.

Definition ret {A} (a : A) : M A := fun w => (Ok a, w).

Definition throw {A} (e : exn) : M A := fun w => (Throw e, w).

Definition bind {A B} (m : M A) (k : A -> M B) : M B :=
  fun w =>
    match m w with
    | (Ok a, w') => k a w'
    | (Throw e, w') => (Throw e, w')
    end.

(** [try { m } catch (e) { h e }] *)
Definition try_catch {A} (m : M A) (h : exn -> M A) : M A :=
  fun w =>
    match m w with
    | (Ok a, w') => (Ok a, w')
    | (Throw e, w') => h e w'
    end.

Definition get : M World := fun w => (Ok w, w).

Definition modify (f : World -> World) : M unit := fun w => (Ok tt, f w).

Notation "x <- m ;; k" := (bind m (fun x => k))
  (at level 100, m at next level, right associativity).
Notation "m ;;; k" := (bind m (fun _ => k))
  (at level 100, right associativity).

(** ** utils/solana.ts

    The waits between attempts ([setTimeout]) and the rate limiter around
    the connection change when a call is made, not what it answers; they
    are left out. *)

Section Server.

(** The oracle, and [Number.prototype.toString] (used in messages
    only). *)
Variable env : oracle.
Variable toString : float -> string.
Variable config : Config.

(** An awaited call: the oracle answers it and the call is recorded. *)
Definition call {A} (c : ext A) : M A :=
  fun w => (answer env A (length (trace w)) c, with_trace (trace w ++ [Called c]) w).

(** [new Date()], a fresh ObjectId, [Keypair.generate()]. *)
Definition draw {A} (b : builtin A) : M A :=
  fun w => (Ok (value env A (length (trace w)) b), with_trace (trace w ++ [Drawn b]) w).

(** [withRetry(fn, maxRetries = 5)]: [left] is [maxRetries - attempt]. *)
Fixpoint withRetry_from {A} (fn : M A) (left : nat) : M A :=
  try_catch fn (fun error =>
    match left with
    | S left' =>
        if message_includes "429 Too Many Requests" error
        then withRetry_from fn left'
        else throw error
    | 0%nat => throw error
    end).

Definition withRetry {A} (fn : M A) : M A := withRetry_from fn 5.

(** [lastValidBlockHeight || ...]: undefined and 0 are falsy. *)
Definition truthy_height (h : option float) : bool :=
  match h with
  | Some x => Num.truthy x
  | None => false
  end.

(** One attempt of [confirmTransaction]'s loop: the body of its [try]. *)
Definition confirm_attempt (txSignature : string) (lastValid : option float) : M unit :=
  result <- withRetry (
    _ <- call GetLatestBlockhash ;;
    _ <- (if truthy_height lastValid then ret tt
          else (_ <- call GetLatestBlockhash ;; ret tt)) ;;
    call (ConfirmTransaction txSignature)) ;;
  match result with
  | Some err => throw (Error ("Transaction failed: " ++ err))
  | None => ret tt
  end.

(** [confirmTransaction]: [left] is [maxRetries - attempt], with
    [maxRetries = 3]. *)
Fixpoint confirmTransaction_from (txSignature : string) (lastValid : option float)
    (left : nat) : M unit :=
  match left with
  | 0%nat => throw (Error ("Failed to confirm transaction " ++ txSignature ++ " after 3 retries"))
  | S left' =>
      try_catch (confirm_attempt txSignature lastValid) (fun error =>
        (* attempt++ ; attempt < maxRetries *)
        if name_is "TransactionExpiredTimeoutError" error && negb (Nat.eqb left' 0)
        then confirmTransaction_from txSignature lastValid left'
        else throw error)
  end.

Definition confirmTransaction (txSignature : string) (lastValid : option float) : M unit :=
  confirmTransaction_from txSignature lastValid 3.

Definition getBalance (pk : string) : M float :=
  balance <- withRetry (call (GetBalance pk)) ;;
  ret (balance / Num.LAMPORTS_PER_SOL).

(** [transferSol].  The instruction is built here for any number of
    lamports; for one that is negative or no number the library
    refuses to build it and throws before any call, so that the code
    then submits nothing where this model still submits. *)
Definition transferSol (fromWallet : Keypair) (toPublicKey : string) (amountSol : float)
    (addPriorityFee : bool) : M string :=
  let lamports := Num.Math_floor (amountSol * Num.LAMPORTS_PER_SOL) in
  let transaction :=
    ((if addPriorityFee then [SetComputeUnitPrice 10000] else [])
     ++ [SystemTransfer (publicKey fromWallet) toPublicKey lamports])%list in
  bh <- withRetry (call GetLatestBlockhash) ;;
  let transaction :=
    {| tx_instructions := transaction;
       recentBlockhash := blockhash bh;
       feePayer := publicKey fromWallet |} in
  signature <- withRetry (call (SendTransaction transaction [publicKey fromWallet])) ;;
  confirmTransaction signature (Some (lastValidBlockHeight bh)) ;;;
  ret signature.

(** The predicate of [instructions.find] in [verifySolPayment]. *)
Definition is_transfer (sender receiver : string) (instr : Instruction) : bool :=
  match instr with
  | Parsed p =>
      String.eqb (parsed_type p) "transfer"
      && String.eqb (program p) "system"
      && String.eqb (source p) sender
      && String.eqb (destination p) receiver
  | PartiallyDecoded => false
  end.

(** The body of the [try] of one attempt: [Some true] when it returns,
    [None] when it continues with the next attempt. *)
Definition verify_attempt (txSignature sender receiver : string)
    (requiredAmount requiredLamports : float) (last : bool) : M (option bool) :=
  txInfo <- withRetry (call (GetParsedTransaction txSignature)) ;;
  match txInfo with
  | Some tx =>
      if Num.strict_eq (slot tx) 0 then
        if last
        then throw (Error ("Transaction " ++ txSignature
                           ++ " not found or not confirmed after 10 attempts"))
        else ret None
      else
        match find (is_transfer sender receiver) (instructions tx) with
        | Some (Parsed p) =>
            if PrimFloat.ltb (lamports p) requiredLamports
            then throw (Error ("Transferred amount "
                               ++ toString (lamports p / Num.LAMPORTS_PER_SOL)
                               ++ " SOL is less than required "
                               ++ toString requiredAmount ++ " SOL"))
            else ret (Some true)
        | _ => throw (Error "No valid SOL transfer found in transaction")
        end
  | None =>
      if last
      then throw (Error ("Transaction " ++ txSignature
                         ++ " not found or not confirmed after 10 attempts"))
      else ret None
  end.

(** The loop of [verifySolPayment]: [left] is [maxRetries - attempt]. *)
Fixpoint verify_from (txSignature sender receiver : string)
    (requiredAmount requiredLamports : float) (left : nat) : M bool :=
  match left with
  | 0%nat => throw (Error "Unreachable code")
  | S left' =>
      let last := Nat.eqb left' 0 in
      r <- try_catch
             (verify_attempt txSignature sender receiver requiredAmount requiredLamports last)
             (fun error => if last then throw error else ret None) ;;
      match r with
      | Some b => ret b
      | None => verify_from txSignature sender receiver requiredAmount requiredLamports left'
      end
  end.

Definition verifySolPayment (txSignature senderWallet receiverWallet : string)
    (requiredAmount : float) : M bool :=
  senderPublicKey <- call (NewPublicKey senderWallet) ;;
  receiverPublicKey <- call (NewPublicKey receiverWallet) ;;
  let requiredLamports := Num.Math_floor (requiredAmount * Num.LAMPORTS_PER_SOL) in
  verify_from txSignature senderPublicKey receiverPublicKey requiredAmount requiredLamports 10.

(** ** The collections *)

(** The double quote, for the messages that hold one. *)
Definition dq : string := String (ascii_of_nat 34) EmptyString.

(** The CastError of a query by [_id] whose value is no ObjectId. *)
Definition CastError (id : string) : exn :=
  JsError "CastError"
    ("Cast to ObjectId failed for value " ++ dq ++ id ++ dq ++ " (type string) at path "
     ++ dq ++ "_id" ++ dq ++ " for model " ++ dq ++ "Fund" ++ dq).

(** [Fund.findById(id)]: the fund stored under [id], or null when none
    is.  Mongoose casts [id] to an ObjectId before it asks the
    database and throws a CastError for a text that is none.  The ids
    of the stored documents are ObjectIds, so a stored id is found; any
    other text is cast, or not, as [casts] tells. *)
Definition Fund_findById (id : string) : M (option FundDoc) :=
  w <- get ;;
  match funds w !! id with
  | Some f => ret (Some (hydrate f))
  | None => if casts env id then ret None else throw (CastError id)
  end.

(** [doc.save()]: nothing is sent when no path was assigned; otherwise
    the assigned paths and [updatedAt] are written to the stored
    record. *)
Definition Fund_save (d : FundDoc) : M FundDoc :=
  match modified d with
  | [] => ret d
  | _ :: _ =>
      now <- draw Now ;;
      w <- get ;;
      match funds w !! _id (fields d) with
      | Some _ =>
          let sets := (modified d ++ [Set_updatedAt now])%list in
          modify (fun w => with_funds (alter (apply_sets sets) (_id (fields d)) (funds w)) w) ;;;
          ret {| fields := apply_set (Set_updatedAt now) (fields d);
                 modified := [];
                 launchStatus := launchStatus d |}
      | None =>
          throw (JsError "DocumentNotFoundError"
                   ("No document found for query with id " ++ _id (fields d)))
      end
  end.

Definition User_findOne (wallet : string) (us : list User) : option User :=
  find (fun u => String.eqb (walletAddress u) wallet) us.

Definition User_findById (id : string) (us : list User) : option User :=
  find (fun u => String.eqb (user_id u) id) us.

Definition add_donation (d : Donation) (u : User) : User :=
  {| user_id := user_id u;
     walletAddress := walletAddress u;
     user_name := user_name u;
     email := email u;
     donations := (donations u ++ [d])%list;
     totalDonatedSol := totalDonatedSol u + amount d |}.

(** The first document that satisfies [p], replaced by its image under
    [g]. *)
Fixpoint update_first (p : User -> bool) (g : User -> User) (us : list User) : list User :=
  match us with
  | [] => []
  | u :: rest => if p u then g u :: rest else u :: update_first p g rest
  end.

(** [User.findOneAndUpdate({ walletAddress }, { $push, $inc },
    { upsert: true, new: true })] *)
Definition User_findOneAndUpdate (wallet : string) (d : Donation) : M User :=
  w <- get ;;
  match User_findOne wallet (users w) with
  | Some u =>
      modify (with_users
                (update_first (fun v => String.eqb (walletAddress v) wallet)
                   (add_donation d) (users w))) ;;;
      ret (add_donation d u)
  | None =>
      id <- draw NewObjectId ;;
      let u := {| user_id := id; walletAddress := wallet; user_name := None;
                  email := None; donations := [d]; totalDonatedSol := amount d |} in
      modify (fun w => with_users (users w ++ [u])%list w) ;;;
      ret u
  end.

(** ** utils/pumpfun.ts *)

(** [calculateGasFeeReserve], the same in pumpfun.ts and in
    routes/funds.ts. *)
Definition calculateGasFeeReserve : M float :=
  try_catch
    (bh <- call GetLatestBlockhash ;;
     feeResponse <- call (GetFeeForMessage (blockhash bh)) ;;
     match feeResponse with
     | Some value =>
         if Num.truthy value
         then ret ((value * 10) / Num.LAMPORTS_PER_SOL)
         else throw (Error "Failed to calculate transaction fee")
     | None => throw (Error "Failed to calculate transaction fee")
     end)
    (fun _ => ret 0.05).

(** [waitWithRetries(action, condition, errorMessage)], with
    [retries = 8]: [left] is [retries - attempt]. *)
Fixpoint waitWithRetries_from {T} (action : M T) (condition : T -> bool)
    (errorMessage : string) (left : nat) : M T :=
  match left with
  | 0%nat => throw (Error "Unreachable code")
  | S left' =>
      r <- try_catch
             (result <- action ;;
              if condition result then ret (Some result)
              else throw (Error (errorMessage ++ " condition not met")))
             (fun error => if Nat.eqb left' 0 then throw error else ret None) ;;
      match r with
      | Some result => ret result
      | None => waitWithRetries_from action condition errorMessage left'
      end
  end.

Definition waitWithRetries {T} (action : M T) (condition : T -> bool)
    (errorMessage : string) : M T :=
  waitWithRetries_from action condition errorMessage 8.

(** [fetchWithRetry(url, options)], with [retries = 3]: [left] is
    [retries - i]. *)
Fixpoint fetchWithRetry_from {B} (request : ext (Response B)) (left : nat) : M (Response B) :=
  match left with
  | 0%nat => throw (Error "Max retries reached")
  | S left' =>
      r <- try_catch
             (response <- call request ;;
              if Nat.eqb (http_status response) 429 then ret None
              else if negb (response_ok response)
              then throw (Error ("HTTP " ++ pretty (http_status response) ++ ": "
                                 ++ text response))
              else ret (Some response))
             (fun error => if Nat.eqb left' 0 then throw error else ret None) ;;
      match r with
      | Some response => ret response
      | None => fetchWithRetry_from request left'
      end
  end.

Definition fetchWithRetry {B} (request : ext (Response B)) : M (Response B) :=
  fetchWithRetry_from request 3.

(** [await response.json()] *)
Definition read_json {B} (response : Response B) : M B :=
  match http_json response with
  | Ok b => ret b
  | Throw e => throw e
  end.

Record SolForPump : Type := {
  solForCreation : float;
  totalSolForPump : float;
  feeRaiseWallet : float
}.

Definition calculateSolForPump (donatedSol initialFeePaid targetSol : float) : M SolForPump :=
  if PrimFloat.ltb donatedSol 0 || PrimFloat.ltb initialFeePaid 0
     || PrimFloat.leb targetSol 0 then
    throw (Error ("Invalid input: donatedSol (" ++ toString donatedSol
                  ++ "), initialFeePaid (" ++ toString initialFeePaid
                  ++ "), or targetSol (" ++ toString targetSol
                  ++ ") must be non-negative and targetSol must be positive"))
  else
    let feeRaiseWallet := initialFeePaid * 0.3 in
    let gasFeePortion := initialFeePaid - feeRaiseWallet in
    let solForCreation := Num.Math_min donatedSol targetSol in
    let totalSolForPump := solForCreation + gasFeePortion in
    if PrimFloat.ltb totalSolForPump 0 then
      throw (Error ("Calculated totalSolForPump is negative: " ++ toString totalSolForPump))
    else
      ret {| solForCreation := solForCreation;
             totalSolForPump := totalSolForPump;
             feeRaiseWallet := feeRaiseWallet |}.

(** Step 1, the guarded transfer from the fund wallet to the pump
    wallet (the [if] on [pumpPortalTransferCompleted] and both its
    branches). *)
Definition fundPumpWallet (fundWallet pumpWalletKeypair : Keypair) (fund : FundDoc)
    (pumpWalletBalance fundWalletBalance totalSolForPump feeRaiseWallet : float) : M FundDoc :=
  let maxTransfer := fundWalletBalance - feeRaiseWallet in
  let solBuffer := 0.09 in
  if negb (pumpPortalTransferCompleted (fields fund))
     && PrimFloat.ltb pumpWalletBalance (totalSolForPump - solBuffer) then
    let transferAmount := maxTransfer in
    if PrimFloat.leb transferAmount 0 || PrimFloat.ltb fundWalletBalance transferAmount then
      throw (Error ("Insufficient funds in fundWallet: " ++ toString fundWalletBalance
                    ++ " SOL, need at least " ++ toString (transferAmount + feeRaiseWallet)
                    ++ " SOL"))
    else
      transferSignature <- transferSol fundWallet (publicKey pumpWalletKeypair)
                             transferAmount false ;;
      confirmTransaction transferSignature None ;;;
      _ <- waitWithRetries (getBalance (publicKey pumpWalletKeypair))
             (fun balance => Num.geb balance (pumpWalletBalance + transferAmount))
             ("SOL transfer verification to pump wallet " ++ publicKey pumpWalletKeypair) ;;
      let fund := assign (Set_pumpPortalTransferCompleted true) fund in
      Fund_save fund
  else ret fund.

(** "Step 1: Transfer SOL to Pump Wallet": both balances are read, the
    amounts computed, then the guarded transfer runs. *)
Definition transferToPumpWallet (fundWallet pumpWalletKeypair : Keypair) (fund : FundDoc)
    (initialFeePaid targetSol totalSolToTransfer : float) : M (FundDoc * SolForPump) :=
  pumpWalletBalance <- getBalance (publicKey pumpWalletKeypair) ;;
  let donatedSol :=
    if Num.truthy (currentDonatedSol (fields fund))
    then currentDonatedSol (fields fund) else totalSolToTransfer in
  fundWalletBalance <- getBalance (publicKey fundWallet) ;;
  sols <- calculateSolForPump donatedSol initialFeePaid targetSol ;;
  fund <- fundPumpWallet fundWallet pumpWalletKeypair fund pumpWalletBalance
            fundWalletBalance (totalSolForPump sols) (feeRaiseWallet sols) ;;
  ret (fund, sols).

Record LaunchResult : Type := {
  lr_tokenAddress : string;
  lr_apiKey : string;
  lr_walletPublicKey : string;
  lr_privateKey : string;
  lr_solscanUrl : string;
  lr_metadataUri : string
}.

(** The wallet of the issuance service: the stored one when the fund
    has all three details, a new one (saved at once) otherwise. *)
Definition acquirePumpWallet (fund : FundDoc) : M (FundDoc * WalletData * Keypair) :=
  let hasWalletDetails :=
    truthy_str (pumpPortalWalletPublicKey (fields fund))
    && truthy_str (pumpPortalPrivateKey (fields fund))
    && truthy_str (pumpPortalApiKey (fields fund)) in
  if negb hasWalletDetails then
    walletResponse <- fetchWithRetry FetchCreateWallet ;;
    walletData <- read_json walletResponse ;;
    pumpWalletKeypair <- call (KeypairFromSecretKey (wd_privateKey walletData)) ;;
    let fund := assign (Set_pumpPortalWalletPublicKey (Some (wd_walletPublicKey walletData))) fund in
    let fund := assign (Set_pumpPortalPrivateKey (Some (wd_privateKey walletData))) fund in
    let fund := assign (Set_pumpPortalApiKey (Some (wd_apiKey walletData))) fund in
    fund <- Fund_save fund ;;
    ret (fund, walletData, pumpWalletKeypair)
  else
    let walletData :=
      {| wd_apiKey := default "" (pumpPortalApiKey (fields fund));
         wd_walletPublicKey := default "" (pumpPortalWalletPublicKey (fields fund));
         wd_privateKey := default "" (pumpPortalPrivateKey (fields fund)) |} in
    pumpWalletKeypair <- call (KeypairFromSecretKey (wd_privateKey walletData)) ;;
    ret (fund, walletData, pumpWalletKeypair).

Definition startsWith (p s : string) : bool := String.prefix p s.

(** Token creation, distribution to the target wallet and the sweep of
    the excess (steps 2 and 3 and the cleanup). *)
Definition issueAndDistribute (pumpWalletKeypair : Keypair) (apiKey : string)
    (metadata : MetadataResponse) (solForCreation targetPercentage : float)
    (tokenSymbol targetWallet : string) : M (string * string) :=
  mintKeypair <- draw KeypairGenerate ;;
  let createPayload :=
    {| cp_name := md_name metadata; cp_symbol := md_symbol metadata;
       cp_uri := md_metadataUri metadata; cp_mint := secretKey mintKeypair;
       cp_amount := solForCreation |} in
  createResponse <- fetchWithRetry (FetchTrade apiKey createPayload) ;;
  responseData <- read_json createResponse ;;
  let signature := tr_signature responseData in
  let cluster := if String.eqb (SOLANA_NETWORK config) "mainnet" then ""
                 else "?cluster=devnet" in
  let solscanUrl := "https://solscan.io/tx/" ++ signature ++ cluster in
  let tokenAddress :=
    if truthy_str (tr_mint responseData) then default "" (tr_mint responseData)
    else publicKey mintKeypair in
  _ <- waitWithRetries
         (pk <- call (NewPublicKey tokenAddress) ;; call (GetParsedAccountInfo pk))
         (fun accountInfo =>
            match accountInfo with
            | ParsedData (Some supply) => Num.gtb supply 0
            | _ => false
            end)
         ("Token creation verification for " ++ tokenAddress) ;;
  let totalSupply := 1000000000 * 1000000 in
  _ <- getBalance (publicKey pumpWalletKeypair) ;;
  mint <- call (NewPublicKey tokenAddress) ;;
  pumpTokenAccount <- call (GetOrCreateAssociatedTokenAccount
                              (publicKey pumpWalletKeypair) mint (publicKey pumpWalletKeypair)) ;;
  mint <- call (NewPublicKey tokenAddress) ;;
  targetTokenAccount <- call (GetOrCreateAssociatedTokenAccount
                                (publicKey pumpWalletKeypair) mint targetWallet) ;;
  boughtAmount <- waitWithRetries
         (call (GetTokenAccountBalance pumpTokenAccount))
         (fun balance =>
            match balance with
            | Some value =>
                match uiAmount value with
                | Some ui => Num.gtb ui 0
                | None => false
                end
            | None => false
            end)
         ("Token balance verification for pump wallet ATA " ++ pumpTokenAccount) ;;
  match boughtAmount with
  | None => throw (JsError "TypeError" "Cannot read properties of null")
  | Some bought =>
      let transferAmount :=
        Num.Math_min (ta_amount_number bought) (totalSupply * (targetPercentage / 100)) in
      _ <- call (SplTransfer (publicKey pumpWalletKeypair) pumpTokenAccount
                   targetTokenAccount (publicKey pumpWalletKeypair) transferAmount) ;;
      _ <- waitWithRetries
             (call (GetTokenAccountBalance targetTokenAccount))
             (fun balance =>
                match balance with
                | Some value => String.eqb (ta_amount value) (toString transferAmount)
                | None => false
                end)
             ("Token transfer verification to target wallet ATA " ++ targetTokenAccount) ;;
      pumpWalletBalanceFinal <- getBalance (publicKey pumpWalletKeypair) ;;
      (if Num.gtb pumpWalletBalanceFinal 0.005 then
         websiteWallet <- call (NewPublicKey (WEBSITE_WALLET config)) ;;
         let excess := pumpWalletBalanceFinal - 0.001 in
         _ <- transferSol pumpWalletKeypair websiteWallet excess false ;;
         ret tt
       else ret tt) ;;;
      ret (tokenAddress, solscanUrl)
  end.

Definition createAndLaunchTokenWithLightning (fundWallet : Keypair)
    (tokenName tokenSymbol : string) (targetSol : float) (targetWallet : string)
    (initialFeePaid targetPercentage : float) (imageUrl : option string)
    (totalSolToTransfer : float) (fundId : string) : M LaunchResult :=
  GAS_FEE_RESERVE <- calculateGasFeeReserve ;;
  try_catch
    (found <- Fund_findById fundId ;;
     match found with
     | None => throw (Error ("Fund with ID " ++ fundId ++ " not found"))
     | Some fund =>
         acquired <- acquirePumpWallet fund ;;
         let fund := fst (fst acquired) in
         let walletData := snd (fst acquired) in
         let pumpWalletKeypair := snd acquired in
         if negb (truthy_str imageUrl) then throw (Error "Image URL is missing")
         else
           let imageUrl := default "" imageUrl in
           let fullImageUrl :=
             if startsWith "http" imageUrl then imageUrl
             else "https://res.cloudinary.com/" ++ CLOUDINARY_CLOUD_NAME config
                  ++ "/image/upload/" ++ imageUrl in
           _ <- fetchWithRetry (FetchImage fullImageUrl) ;;
           metadataResponse <- fetchWithRetry
             (FetchIpfs tokenName tokenSymbol ("Crowdfunded token: " ++ tokenName)
                (default "" (tokenTwitter (fields fund)))
                (default "" (tokenTelegram (fields fund)))
                (default "" (tokenWebsite (fields fund)))) ;;
           metadataResponseJSON <- read_json metadataResponse ;;
           let metadataUri := md_metadataUri metadataResponseJSON in
           step1 <- transferToPumpWallet fundWallet pumpWalletKeypair fund initialFeePaid
                      targetSol totalSolToTransfer ;;
           let fund := fst step1 in
           let sols := snd step1 in
           updatedPumpWalletBalance <- getBalance (publicKey pumpWalletKeypair) ;;
           if PrimFloat.ltb updatedPumpWalletBalance (totalSolForPump sols - 0.09) then
             throw (Error ("Insufficient SOL in pump wallet for updatedPumpWalletBalance: "
                           ++ toString updatedPumpWalletBalance ++ " SOL, need "
                           ++ toString (totalSolForPump sols) ++ " SOL, dev buy "
                           ++ toString (solForCreation sols)))
           else
             issued <- issueAndDistribute pumpWalletKeypair (wd_apiKey walletData)
                         metadataResponseJSON (solForCreation sols) targetPercentage
                         tokenSymbol targetWallet ;;
             ret {| lr_tokenAddress := fst issued;
                    lr_apiKey := wd_apiKey walletData;
                    lr_walletPublicKey := wd_walletPublicKey walletData;
                    lr_privateKey := wd_privateKey walletData;
                    lr_solscanUrl := snd issued;
                    lr_metadataUri := metadataUri |}
     end)
    (fun error => throw error).

(** ** routes/funds.ts *)

(** *** POST /:id/donate *)

(** The request: [amount] is a number, the two strings may be missing. *)
Record DonateRequest : Type := {
  req_id : string;
  req_amount : float;
  req_donorWallet : option string;
  req_txSignature : option string
}.

(** The launch a handler leaves to [setImmediate], with the variables
    its closure captures. *)
Inductive Job : Type :=
| AutoLaunch (id : string) (totalSolToTransfer : float)
| ManualLaunch (id : string) (fundWallet : Keypair) (totalSolToTransfer : float).

(** The variables the queued task assigns, and the launch it
    schedules. *)
Record TaskState : Type := {
  fund : option FundDoc;
  responseData : option jsobj;
  errorMessage : option string;
  scheduled : option Job
}.

Definition task_error (f : option FundDoc) (msg : string) : M TaskState :=
  ret {| fund := f; responseData := None; errorMessage := Some msg; scheduled := None |}.

Definition task_data (f : FundDoc) (txSignature : string) (j : option Job) : M TaskState :=
  ret {| fund := Some f;
         responseData := Some (<["signature" := JStr txSignature]> (toJSON (fields f)));
         errorMessage := None;
         scheduled := j |}.

(** The branch taken once the running total has reached the target. *)
Definition complete_fund (GAS_FEE_RESERVE balance : float) (id txSignature : string)
    (fund : FundDoc) : M TaskState :=
  let fund := assign (Set_status completed) fund in
  now <- draw Now ;;
  let fund := assign (Set_completedAt now) fund in
  let fund := assign_launchStatus (Some "pending") fund in
  let expectedBalance := initialFeePaid (fields fund) + currentDonatedSol (fields fund) in
  if PrimFloat.ltb balance (expectedBalance - GAS_FEE_RESERVE) then
    task_error (Some fund)
      ("Fund wallet balance (" ++ toString balance ++ " SOL) is less than expected ("
       ++ toString expectedBalance ++ " SOL)")
  else
    let donatedSol := currentDonatedSol (fields fund) in
    let feeRaiseWallet := initialFeePaid (fields fund) * 0.3 in
    let newInitialFeePaid := initialFeePaid (fields fund) - feeRaiseWallet in
    let buffer := donatedSol * 0.01 in
    let solForCreation := donatedSol - buffer in
    let totalSolToTransfer := solForCreation + newInitialFeePaid in
    if PrimFloat.leb totalSolToTransfer 0 then
      task_error (Some fund)
        ("Insufficient funds after reserving gas and buffer: "
         ++ toString totalSolToTransfer ++ " SOL")
    else
      fund <- Fund_save fund ;;
      task_data fund txSignature (Some (AutoLaunch id totalSolToTransfer)).

(** The task from the balance read on: the running total, the donor's
    record, then completion or a plain save. *)
Definition settle_donation (GAS_FEE_RESERVE : float) (id : string) (amount : float)
    (donorWallet txSignature : string) (fund : FundDoc) (balance : float) : M TaskState :=
  let newCurrentDonatedSol := Num.Math_max 0 (balance - initialFeePaid (fields fund)) in
  let fund := assign (Set_currentDonatedSol newCurrentDonatedSol) fund in
  now <- draw Now ;;
  _ <- User_findOneAndUpdate donorWallet
         {| fundId := _id (fields fund); amount := amount; donatedAt := now |} ;;
  let totalTarget := targetSolAmount (fields fund) in
  if Num.geb (currentDonatedSol (fields fund)) totalTarget then
    complete_fund GAS_FEE_RESERVE balance id txSignature fund
  else
    fund <- Fund_save fund ;;
    task_data fund txSignature None.

(** The task once [GAS_FEE_RESERVE] is known. *)
Definition donation_body (GAS_FEE_RESERVE : float) (req : DonateRequest) : M TaskState :=
  let id := req_id req in
  let amount := req_amount req in
  let donorWallet := default "" (req_donorWallet req) in
  let txSignature := default "" (req_txSignature req) in
  if negb (truthy_str (req_donorWallet req)) || negb (truthy_str (req_txSignature req)) then
    task_error None "Donor wallet address and transaction signature are required"
  else if PrimFloat.ltb amount (MIN_DONATION config)
          || Num.gtb amount (MAX_DONATION config) then
    task_error None
      ("Donation amount must be between " ++ toString (MIN_DONATION config)
       ++ " and " ++ toString (MAX_DONATION config) ++ " SOL")
  else
    found <- Fund_findById id ;;
    match found with
    | None => task_error None "Invalid fund"
    | Some fund =>
      if FundStatus_eqb (status (fields fund)) completed then
        task_error (Some fund)
          "Crowdfund is already completed. No further donations are accepted."
      else if Num.strict_eq (initialFeePaid (fields fund)) 0 then
        task_error (Some fund)
          "Creation fee not yet paid. Please pay the creation fee first."
      else
        paymentValid <- verifySolPayment txSignature donorWallet
                          (fundWalletAddress (fields fund)) amount ;;
        if negb paymentValid then
          task_error (Some fund)
            ("Transaction does not contain valid SOL transfer of " ++ toString amount
             ++ " SOL from " ++ donorWallet ++ " to " ++ fundWalletAddress (fields fund))
        else
          _ <- call (ConfirmTransaction txSignature) ;;
          pk <- call (NewPublicKey (fundWalletAddress (fields fund))) ;;
          balance <- getBalance pk ;;
          settle_donation GAS_FEE_RESERVE id amount donorWallet txSignature fund balance
    end.

Definition donation_task (req : DonateRequest) : M TaskState :=
  GAS_FEE_RESERVE <- calculateGasFeeReserve ;;
  donation_body GAS_FEE_RESERVE req.

(** What a handler sends: a status and a JSON body. *)
Record Reply : Type := {
  code : nat;
  body : jsobj
}.

Definition error_reply (c : nat) (msg : string) : Reply :=
  {| code := c; body := {["error" := JStr msg]} |}.

(** The handler: the task runs in the queue, then the reply is built
    from the variables it assigned. *)
Definition donate (req : DonateRequest) : M (Reply * option Job) :=
  t <- donation_task req ;;
  match errorMessage t with
  | Some msg =>
      if negb (String.eqb msg "") then ret (error_reply 400 msg, scheduled t)
      else
        match responseData t with
        | Some data => ret ({| code := 200; body := data |}, scheduled t)
        | None => throw (Error "Donation processing completed without setting response or error")
        end
  | None =>
      match responseData t with
      | Some data => ret ({| code := 200; body := data |}, scheduled t)
      | None => throw (Error "Donation processing completed without setting response or error")
      end
  end.

(** *** The launch in the background

    [setImmediate(async () => { try { ... } catch (error) { ... } })],
    in the donate handler and in the launch handler. *)

(** [error instanceof Error ? error.message : "Unknown error during token launch"] *)
Definition launch_error_message (error : exn) : string :=
  match error with
  | JsError _ message => message
  | JsThrown _ => "Unknown error during token launch"
  end.

(** The assignments after the orchestrator has returned, and the save. *)
Definition record_launch (updatedFund : FundDoc) (r : LaunchResult) : M unit :=
  let updatedFund := assign (Set_tokenAddress (Some (lr_tokenAddress r))) updatedFund in
  let updatedFund := assign (Set_pumpPortalApiKey (Some (lr_apiKey r))) updatedFund in
  let updatedFund :=
    assign (Set_pumpPortalWalletPublicKey (Some (lr_walletPublicKey r))) updatedFund in
  let updatedFund := assign (Set_pumpPortalPrivateKey (Some (lr_privateKey r))) updatedFund in
  let updatedFund := assign (Set_solscanUrl (Some (lr_solscanUrl r))) updatedFund in
  let updatedFund := assign (Set_metadataUri (Some (lr_metadataUri r))) updatedFund in
  let updatedFund := assign (Set_launchError None) updatedFund in
  let updatedFund := assign_launchStatus (Some "completed") updatedFund in
  _ <- Fund_save updatedFund ;;
  ret tt.

(** The [catch] of the background launch. *)
Definition record_failure (id : string) (error : exn) : M unit :=
  found <- Fund_findById id ;;
  match found with
  | Some updatedFund =>
      let updatedFund :=
        assign (Set_launchError (Some (launch_error_message error))) updatedFund in
      let updatedFund := assign_launchStatus (Some "failed") updatedFund in
      _ <- Fund_save updatedFund ;;
      ret tt
  | None => ret tt
  end.

Definition launch (fundWallet : Keypair) (updatedFund : FundDoc)
    (totalSolToTransfer : float) : M LaunchResult :=
  let f := fields updatedFund in
  targetWallet <- call (NewPublicKey (targetWallet f)) ;;
  createAndLaunchTokenWithLightning fundWallet (tokenName f) (tokenSymbol f)
    (targetSolAmount f) targetWallet (initialFeePaid f) (targetPercentage f) (image f)
    totalSolToTransfer (_id f).

Definition run_job (j : Job) : M unit :=
  match j with
  | AutoLaunch id totalSolToTransfer =>
      try_catch
        (found <- Fund_findById id ;;
         match found with
         | None => ret tt
         | Some updatedFund =>
             if negb (truthy_str (image (fields updatedFund))) then
               let updatedFund :=
                 assign (Set_launchError
                           (Some "Image is required for token creation on Pump.fun"))
                   updatedFund in
               let updatedFund := assign_launchStatus (Some "failed") updatedFund in
               _ <- Fund_save updatedFund ;;
               ret tt
             else
               fundWallet <- call (KeypairFromSecretKey (fundPrivateKey (fields updatedFund))) ;;
               r <- launch fundWallet updatedFund totalSolToTransfer ;;
               record_launch updatedFund r
         end)
        (record_failure id)
  | ManualLaunch id fundWallet totalSolToTransfer =>
      try_catch
        (found <- Fund_findById id ;;
         match found with
         | None => ret tt
         | Some updatedFund =>
             r <- launch fundWallet updatedFund totalSolToTransfer ;;
             record_launch updatedFund r
         end)
        (record_failure id)
  end.

(** *** POST /:id/launch *)

Record LaunchRequest : Type := {
  lreq_id : string;
  lreq_userWallet : option string
}.

Definition launch_handler (req : LaunchRequest) : M (Reply * option Job) :=
  let id := lreq_id req in
  if negb (truthy_str (lreq_userWallet req)) then
    ret (error_reply 400 "User wallet address is required", None)
  else
    let userWallet := default "" (lreq_userWallet req) in
    found <- Fund_findById id ;;
    match found with
    | None => ret (error_reply 404 "Fund not found", None)
    | Some fund =>
        w <- get ;;
        match User_findById (userId (fields fund)) (users w) with
        | None => throw (JsError "TypeError" "Cannot read properties of null")
        | Some creator =>
            let f := fields fund in
            if negb (String.eqb (walletAddress creator) userWallet) then
              ret (error_reply 403 "Only the fund creator can launch the token", None)
            else if negb (FundStatus_eqb (status f) completed) then
              ret (error_reply 400 "Fund must be completed to launch the token", None)
            else if truthy_str (tokenAddress f) then
              ret (error_reply 400 "Token already launched", None)
            else if negb (truthy_str (image f)) then
              ret (error_reply 400 "An image is required to launch the token on Pump.fun",
                   None)
            else if negb (truthy_str (Some (fundPrivateKey f))) then
              ret (error_reply 500 "Fund private key is missing or invalid", None)
            else
              decoded <- try_catch
                           (k <- call (KeypairFromSecretKey (fundPrivateKey f)) ;; ret (Some k))
                           (fun _ => ret None) ;;
              match decoded with
              | None => ret (error_reply 500 "Invalid fund private key format", None)
              | Some fundWallet =>
                  if negb (String.eqb (publicKey fundWallet) (fundWalletAddress f)) then
                    ret (error_reply 500
                           "Fund wallet public key does not match stored address", None)
                  else
                    let donatedSol := currentDonatedSol f in
                    let feeRaiseWallet := initialFeePaid f * 0.3 in
                    let newInitialFeePaid := initialFeePaid f - feeRaiseWallet in
                    let solForCreation := donatedSol in
                    let totalSolToTransfer := solForCreation + newInitialFeePaid in
                    let fund := assign_launchStatus (Some "pending") fund in
                    _ <- Fund_save fund ;;
                    ret ({| code := 202;
                            body := {[ "message" :=
                                         JStr "Token launch request accepted and processing in the background";
                                       "status" := JStr "pending" ]} |},
                         Some (ManualLaunch id fundWallet totalSolToTransfer))
              end
        end
    end.

(** *** GET / and GET /:id *)

(** [.populate("userId", "walletAddress")], as [toJSON] shows it. *)
Definition populated_userId (us : list User) (f : Fund) : jsval :=
  match User_findById (userId f) us with
  | Some u => JObj {[ "_id" := JStr (user_id u); "walletAddress" := JStr (walletAddress u) ]}
  | None => JNull
  end.

(** The query string of the list, [page] and [limit] already through
    [parseInt]. *)
Record ListRequest : Type := {
  lq_status : option string;
  lq_pageNum : float;
  lq_limitNum : float;
  lq_search : option string
}.

(** The callback of [funds.map] in the list handler. *)
Definition fund_with_balance (us : list User) (fund : Fund) : M jsobj :=
  try_catch
    (pk <- call (NewPublicKey (fundWalletAddress fund)) ;;
     balance <- getBalance pk ;;
     let fundJson := toJSON_with (populated_userId us fund) fund in
     let fundJson := delete "fundPrivateKey" fundJson in
     let fundJson := delete "pumpPortalPrivateKey" fundJson in
     ret (<["currentBalance" := JNum balance]> fundJson))
    (fun _ =>
     let fundJson := toJSON_with (populated_userId us fund) fund in
     let fundJson := delete "fundPrivateKey" fundJson in
     let fundJson := delete "pumpPortalPrivateKey" fundJson in
     ret (<["currentBalance" := JNull]> fundJson)).

Fixpoint mapM {A B} (f : A -> M B) (l : list A) : M (list B) :=
  match l with
  | [] => ret []
  | a :: l' => b <- f a ;; bs <- mapM f l' ;; ret (b :: bs)
  end.

Definition list_funds (req : ListRequest) : M Reply :=
  let status := match lq_status req with Some s => s | None => "active" end in
  if negb (String.eqb status "")
     && negb (String.eqb status "active" || String.eqb status "completed") then
    ret (error_reply 400 "Invalid status parameter. Must be 'active' or 'completed'.")
  else
    let pageNum := lq_pageNum req in
    let limitNum := lq_limitNum req in
    if PrimFloat.is_nan pageNum || PrimFloat.is_nan limitNum
       || PrimFloat.ltb pageNum 1 || PrimFloat.ltb limitNum 1 then
      ret (error_reply 400 "Page and limit must be positive integers.")
    else
      let query := {| q_status := status; q_search := lq_search req;
                      q_skip := (pageNum - 1) * limitNum; q_limit := limitNum |} in
      _ <- call (FundCount query) ;;
      found <- call (FundFind query) ;;
      totalFunds <- call (FundCount query) ;;
      w <- get ;;
      fundsWithBalances <- mapM (fund_with_balance (users w)) found ;;
      ret {| code := 200;
             body := {[ "funds" := JArr (JObj <$> fundsWithBalances);
                        "total" := JNum totalFunds;
                        "page" := JNum pageNum;
                        "pages" := JNum (Num.Math_ceil (totalFunds / limitNum)) ]} |}.

Definition fund_detail (id : string) : M Reply :=
  found <- Fund_findById id ;;
  match found with
  | None => ret (error_reply 404 ("Fund with ID " ++ id ++ " not found"))
  | Some fund =>
      currentBalance <- try_catch
                          (pk <- call (NewPublicKey (fundWalletAddress (fields fund))) ;;
                           balance <- getBalance pk ;;
                           ret (JNum balance))
                          (fun _ => ret JNull) ;;
      w <- get ;;
      let fundData :=
        <["currentBalance" := currentBalance]>
          (toJSON_with (populated_userId (users w) (fields fund)) (fields fund)) in
      ret {| code := 200; body := fundData |}
  end.

(** *** POST /:id/pre-donate *)

Record PreDonateRequest : Type := {
  pre_id : string;
  pre_amount : option float;
  pre_donorWallet : option string
}.

(** [!x] for a value that is a number or undefined. *)
Definition truthy_number (o : option float) : bool :=
  match o with
  | Some x => Num.truthy x
  | None => false
  end.

Definition pre_donate (req : PreDonateRequest) : M Reply :=
  let id := pre_id req in
  if negb (truthy_str (pre_donorWallet req)) || negb (truthy_number (pre_amount req)) then
    ret (error_reply 400 "Donor wallet address and amount are required")
  else
    let amount := default 0 (pre_amount req) in
    if PrimFloat.ltb amount (MIN_DONATION config)
       || Num.gtb amount (MAX_DONATION config) then
      ret (error_reply 400
             ("Donation amount must be between " ++ toString (MIN_DONATION config)
              ++ " and " ++ toString (MAX_DONATION config) ++ " SOL"))
    else
      found <- Fund_findById id ;;
      match found with
      | None => ret (error_reply 404 "Fund not found")
      | Some fund =>
          if FundStatus_eqb (status (fields fund)) completed then
            ret (error_reply 400
                   "Crowdfund is already completed. No further donations are accepted.")
          else if Num.strict_eq (initialFeePaid (fields fund)) 0 then
            ret (error_reply 400
                   "Creation fee not yet paid. Please pay the creation fee first.")
          else
            ret {| code := 200;
                   body := {[ "message" := JStr "Donation allowed";
                              "fundWalletAddress" := JStr (fundWalletAddress (fields fund)) ]} |}
      end.

(** *** POST / : a new fund *)

(** A string is the sequence of its UTF-16 code units, each below 256.
    Among those, [\s] of a regular expression and [trim] take the same
    seven for white space: TAB, LF, VT, FF, CR, SP and NBSP. *)
Definition is_white_space (c : ascii) : bool :=
  existsb (Nat.eqb (nat_of_ascii c)) [9; 10; 11; 12; 13; 32; 160]%nat.

(** What [.] of a regular expression does not match. *)
Definition is_line_terminator (c : ascii) : bool :=
  existsb (Nat.eqb (nat_of_ascii c)) [10; 13]%nat.

(** The capital of a small letter; any other character is its own. *)
Definition upper (c : ascii) : ascii :=
  let n := nat_of_ascii c in
  if (97 <=? n)%nat && (n <=? 122)%nat then ascii_of_nat (n - 32) else c.

(** [pat], written in small letters, matched at the start of [s] under
    the flag [i]: what follows it in [s]. *)
Fixpoint match_prefix_i (pat s : string) : option string :=
  match pat with
  | EmptyString => Some s
  | String p pat' =>
      match s with
      | String c s' =>
          if Ascii.eqb c p || Ascii.eqb c (upper p) then match_prefix_i pat' s' else None
      | EmptyString => None
      end
  end.

Fixpoint string_forallb (p : ascii -> bool) (s : string) : bool :=
  match s with
  | EmptyString => true
  | String c s' => p c && string_forallb p s'
  end.

(** [isValidUrl]: [url] is tested against the regular expression
    [^(https?:\/\/[^\s$.?#].[^\s]{0,})$] with the flag [i]; the source
    writes the last repetition as a star.  After the scheme come one
    character that is neither white space nor one of [$.?#], one
    character that ends no line, and then no white space up to the
    end. *)
Definition isValidUrl (url : string) : bool :=
  match match_prefix_i "http" url with
  | None => false
  | Some rest =>
      let rest :=
        match rest with
        | String c rest' => if Ascii.eqb c "s"%char || Ascii.eqb c "S"%char then rest' else rest
        | EmptyString => rest
        end in
      match match_prefix_i "://" rest with
      | Some (String c1 (String c2 tail)) =>
          negb (is_white_space c1
                || existsb (Ascii.eqb c1) ["$"; "."; "?"; "#"]%char)
          && negb (is_line_terminator c2)
          && string_forallb (fun c => negb (is_white_space c)) tail
      | _ => false
      end
  end.

Definition validTargetPercentages : list float := [5; 10; 25; 50; 75].

Definition targetSolMap (p : float) : option float :=
  if PrimFloat.eqb p 5 then Some 1.480938417
  else if PrimFloat.eqb p 10 then Some 3.114080165
  else if PrimFloat.eqb p 25 then Some 9.204131229
  else if PrimFloat.eqb p 50 then Some 26.439790577
  else if PrimFloat.eqb p 75 then Some 70.356037153
  else None.

(** The body of the request; a member that is missing is [None]. *)
Record CreateRequest : Type := {
  cr_userWallet : option string;
  cr_name : option string;
  cr_image : option string;
  cr_tokenName : option string;
  cr_tokenSymbol : option string;
  cr_tokenDescription : option string;
  cr_targetPercentage : option float;
  cr_targetWallet : option string;
  cr_tokenTwitter : option string;
  cr_tokenTelegram : option string;
  cr_tokenWebsite : option string;
  cr_txSignature : option string
}.

(** [config.WEBSITE_WALLET_KEYPAIR] *)
Variable websiteWalletKeypair : Keypair.

(** [new User({ walletAddress })] and [user.save()]: the schema's
    defaults fill the other paths.  Both callers have looked the wallet
    up and found no user, so the unique index on [walletAddress] is
    respected. *)
Definition User_create (wallet : string) : M User :=
  id <- draw NewObjectId ;;
  let u := {| user_id := id; walletAddress := wallet; user_name := None; email := None;
              donations := []; totalDonatedSol := 0 |} in
  modify (fun w => with_users (users w ++ [u])%list w) ;;;
  ret u.

(** [s || ""] *)
Definition or_empty (o : option string) : string :=
  if truthy_str o then default "" o else "".

(** [new Fund({ ... })] of the handler, given the time of its first
    save: the paths it names, the defaults of the schema for the others.
    [launchStatus: null] names no path of the schema and is dropped. *)
Definition new_Fund (id userId : string) (req : CreateRequest) (fundWallet : Keypair)
    (typedTargetPercentage : float) (now : Date) : Fund :=
  {| _id := id; userId := userId;
     name := default "" (cr_name req);
     image := cr_image req;
     fundWalletAddress := publicKey fundWallet;
     fundPrivateKey := secretKey fundWallet;
     tokenName := default "" (cr_tokenName req);
     tokenSymbol := default "" (cr_tokenSymbol req);
     tokenDescription := default "" (cr_tokenDescription req);
     targetPercentage := typedTargetPercentage;
     targetSolAmount := default 0 (targetSolMap typedTargetPercentage);
       (* a percentage without an entry fails the validation of [save] *)
     currentDonatedSol := 0;
     initialFeePaid := 0;
     targetWallet := default "" (cr_targetWallet req);
     tokenTwitter := Some (or_empty (cr_tokenTwitter req));
     tokenTelegram := Some (or_empty (cr_tokenTelegram req));
     tokenWebsite := Some (or_empty (cr_tokenWebsite req));
     status := active;
     launchFee := CROWD_FUND_CREATION_FEE config;
     tokenAddress := None; pumpPortalApiKey := None; pumpPortalWalletPublicKey := None;
     pumpPortalPrivateKey := None; pumpPortalTransferCompleted := false;
     completedAt := None; launchError := None; tokenCa := None; solscanUrl := None;
     metadataUri := None;
     createdAt := now; updatedAt := now |}.

(** The required paths of [FundSchema] that a new document of the
    handler can hold no value for: the two keys, which come from the
    generated keypair, and [targetSolAmount], which comes from
    [targetSolMap].  (The other required paths hold strings the handler
    has found truthy, and the user's id.) *)
Definition missing_paths (fundWallet : Keypair) (typedTargetPercentage : float)
  : list string :=
  ((if String.eqb (publicKey fundWallet) "" then ["fundWalletAddress"] else [])
   ++ (if String.eqb (secretKey fundWallet) "" then ["fundPrivateKey"] else [])
   ++ (match targetSolMap typedTargetPercentage with
       | Some _ => []
       | None => ["targetSolAmount"]
       end))%list.

(** The first [fund.save()] of a new document: the required paths are
    validated (the message names the first that fails), the timestamps
    set and the document inserted. *)
Definition Fund_insert (missing : list string) (doc : Date -> Fund) : M FundDoc :=
  match missing with
  | path :: _ =>
      throw (JsError "ValidationError"
               ("Fund validation failed: " ++ path ++ ": Path `" ++ path ++ "` is required."))
  | [] =>
      now <- draw Now ;;
      let f := doc now in
      w <- get ;;
      match funds w !! _id f with
      | Some _ =>
          throw (JsError "MongoServerError"
                   ("E11000 duplicate key error collection: funds index: _id_ dup key: "
                    ++ _id f))
      | None =>
          modify (fun w => with_funds (<[_id f := f]> (funds w)) w) ;;;
          ret (hydrate f)
      end
  end.

Definition with_initialFeePaid (x : float) (now : Date) (f : Fund) : Fund :=
  let '(Build_Fund i u n im wa pk tn ts td tp tg cd fee tw ttw tte twe st lf ta ak awk apk tc ca le tca su mu cr up) := f in
  Build_Fund i u n im wa pk tn ts td tp tg cd x tw ttw tte twe st lf ta ak awk apk tc ca le tca su mu cr now.

(** [fund.initialFeePaid = x; await fund.save()]: the one place where
    the path is assigned. *)
Definition Fund_save_initialFeePaid (x : float) (d : FundDoc) : M FundDoc :=
  now <- draw Now ;;
  w <- get ;;
  match funds w !! _id (fields d) with
  | Some _ =>
      modify (fun w => with_funds
                         (alter (fun f => with_initialFeePaid x now (apply_sets (modified d) f))
                            (_id (fields d)) (funds w)) w) ;;;
      ret {| fields := with_initialFeePaid x now (fields d);
             modified := [];
             launchStatus := launchStatus d |}
  | None =>
      throw (JsError "DocumentNotFoundError"
               ("No document found for query with id " ++ _id (fields d)))
  end.

(** [error instanceof Error ? error.message : "Internal server error during fund creation"] *)
Definition creation_error_message (error : exn) : string :=
  match error with
  | JsError _ message => message
  | JsThrown _ => "Internal server error during fund creation"
  end.

(** The [try] of the handler: the fund is saved, the fee passed on to
    its wallet and the amount recorded. *)
Definition fund_the_new_fund (missing : list string) (doc : Date -> Fund)
    (fundWallet : Keypair) (gasReserve : float) : M Reply :=
  fund <- Fund_insert missing doc ;;
  websiteBalance <- getBalance (publicKey websiteWalletKeypair) ;;
  let transferAmount := CROWD_FUND_CREATION_FEE config * 0.99 in
  if PrimFloat.ltb websiteBalance (transferAmount + gasReserve) then
    throw (Error ("Insufficient balance in WEBSITE_WALLET: " ++ toString websiteBalance
                  ++ " SOL, need " ++ toString (transferAmount + gasReserve) ++ " SOL"))
  else
    transferSignature <- transferSol websiteWalletKeypair (publicKey fundWallet)
                           transferAmount true ;;
    fund <- Fund_save_initialFeePaid transferAmount fund ;;
    ret {| code := 201;
           body := <["message" :=
                       JStr ("Fund created and " ++ toString transferAmount
                             ++ " SOL transferred to fund wallet. Transaction signature: "
                             ++ transferSignature)]> (toJSON (fields fund)) |}.

(** Its [catch]: the fee is sent back when the website wallet can pay
    it, the fund is deleted, and the error is reported. *)
Definition undo_the_new_fund (id userWallet : string) (gasReserve : float) (error : exn)
  : M Reply :=
  let refundAmount := CROWD_FUND_CREATION_FEE config in
  refundSignature <- try_catch
      (websiteBalance <- getBalance (publicKey websiteWalletKeypair) ;;
       if Num.geb websiteBalance (refundAmount + gasReserve) then
         to <- call (NewPublicKey userWallet) ;;
         signature <- transferSol websiteWalletKeypair to refundAmount true ;;
         ret (Some signature)
       else ret None)
      (fun _ => ret None) ;;
  modify (fun w => with_funds (delete id (funds w)) w) ;;;
  ret {| code := 500;
         body := {[ "error" := JStr (creation_error_message error);
                    "refundSignature" :=
                      JStr (if truthy_str refundSignature then default "" refundSignature
                            else "Refund failed or not attempted") ]} |}.

Definition create_fund (req : CreateRequest) : M Reply :=
  if negb (truthy_str (cr_userWallet req))
     || negb (truthy_str (cr_name req))
     || negb (truthy_str (cr_tokenName req))
     || negb (truthy_str (cr_tokenSymbol req))
     || negb (truthy_str (cr_tokenDescription req))
     || negb (truthy_number (cr_targetPercentage req))
     || negb (truthy_str (cr_targetWallet req))
     || negb (truthy_str (cr_txSignature req)) then
    ret (error_reply 400 "Required fields are missing, including transaction signature")
  else if truthy_str (cr_tokenTwitter req)
          && negb (isValidUrl (default "" (cr_tokenTwitter req))) then
    ret (error_reply 400 "Invalid Twitter URL")
  else if truthy_str (cr_tokenTelegram req)
          && negb (isValidUrl (default "" (cr_tokenTelegram req))) then
    ret (error_reply 400 "Invalid Telegram URL")
  else if truthy_str (cr_tokenWebsite req)
          && negb (isValidUrl (default "" (cr_tokenWebsite req))) then
    ret (error_reply 400 "Invalid Website URL")
  else
    let parsedTargetPercentage := default 0 (cr_targetPercentage req) in
    if negb (existsb (PrimFloat.eqb parsedTargetPercentage) validTargetPercentages) then
      ret (error_reply 400 "Invalid targetPercentage. Must be one of: 5, 10, 25, 50, 75")
    else
      let typedTargetPercentage := parsedTargetPercentage in
      let userWallet := default "" (cr_userWallet req) in
      let txSignature := default "" (cr_txSignature req) in
      w <- get ;;
      user <- match User_findOne userWallet (users w) with
              | Some user => ret user
              | None => User_create userWallet
              end ;;
      fundWallet <- draw KeypairGenerate ;;
      paymentValid <- verifySolPayment txSignature userWallet
                        (publicKey websiteWalletKeypair) (CROWD_FUND_CREATION_FEE config) ;;
      if negb paymentValid then
        ret (error_reply 400
               ("Transaction does not contain valid SOL transfer of "
                ++ toString (CROWD_FUND_CREATION_FEE config) ++ " SOL to "
                ++ publicKey websiteWalletKeypair))
      else
        bh <- call GetLatestBlockhash ;;
        confirmed <- try_catch
                       (confirmTransaction txSignature (Some (lastValidBlockHeight bh)) ;;;
                        ret true)
                       (fun _ => ret false) ;;
        if negb confirmed then
          ret (error_reply 400
                 ("Failed to confirm payment transaction " ++ txSignature
                  ++ ". Check Solana Explorer for status."))
        else
          id <- draw NewObjectId ;;
          let doc := new_Fund id (user_id user) req fundWallet typedTargetPercentage in
          gasReserve <- calculateGasFeeReserve ;;
          try_catch
            (fund_the_new_fund (missing_paths fundWallet typedTargetPercentage) doc
               fundWallet gasReserve)
            (undo_the_new_fund id userWallet gasReserve).

(** ** routes/users.ts *)

(** [Date.prototype.toISOString] *)
Variable toISOString : Date -> string.

(** POST /register *)
Definition register (wallet : option string) : M Reply :=
  if negb (truthy_str wallet) then ret (error_reply 400 "Wallet address required")
  else
    let wallet := default "" wallet in
    w <- get ;;
    user <- match User_findOne wallet (users w) with
            | Some user => ret user
            | None => User_create wallet
            end ;;
    ret {| code := 200;
           body := {[ "userId" := JStr (user_id user);
                      "walletAddress" := JStr (walletAddress user) ]} |}.

(** [s.trim()] *)
Fixpoint trimStart (s : string) : string :=
  match s with
  | String c s' => if is_white_space c then trimStart s' else s
  | EmptyString => EmptyString
  end.

Definition trim (s : string) : string :=
  String.rev (trimStart (String.rev (trimStart s))).

(** The check of [name] in PUT /update/:walletAddress: [None] when it
    is refused, otherwise the member of [updates] it gives, if any. *)
Definition checked_name (body_name : option jsval) : option (option string) :=
  match body_name with
  | None => Some None
  | Some (JStr s) =>
      if Nat.eqb (String.length (trim s)) 0 then None else Some (Some (trim s))
  | Some _ => None
  end.

Definition checked_email (body_email : option jsval) : option (option string) :=
  match body_email with
  | None => Some None
  | Some (JStr s) =>
      if negb (includes "@" s) || Nat.eqb (String.length (trim s)) 0 then None
      else Some (Some (trim s))
  | Some _ => None
  end.

(** [{ $set: updates }] on a user. *)
Definition set_profile (updates_name updates_email : option string) (u : User) : User :=
  {| user_id := user_id u;
     walletAddress := walletAddress u;
     user_name := match updates_name with Some n => Some n | None => user_name u end;
     email := match updates_email with Some e => Some e | None => email u end;
     donations := donations u;
     totalDonatedSol := totalDonatedSol u |}.

(** [User.findOneAndUpdate({ walletAddress }, { $set: updates },
    { new: true, runValidators: true })]: no upsert. *)
Definition User_findOneAndSet (wallet : string) (updates_name updates_email : option string)
  : M (option User) :=
  w <- get ;;
  match User_findOne wallet (users w) with
  | Some u =>
      modify (with_users
                (update_first (fun v => String.eqb (walletAddress v) wallet)
                   (set_profile updates_name updates_email) (users w))) ;;;
      ret (Some (set_profile updates_name updates_email u))
  | None => ret None
  end.

(** [s || null] *)
Definition or_null (o : option string) : jsval :=
  if truthy_str o then JStr (default "" o) else JNull.

(** PUT /update/:walletAddress *)
Definition update_profile (wallet : string) (body_name body_email : option jsval)
  : M Reply :=
  if String.eqb wallet "" then ret (error_reply 400 "Wallet address is required")
  else
    match checked_name body_name with
    | None => ret (error_reply 400 "Name must be a non-empty string")
    | Some updates_name =>
        match checked_email body_email with
        | None => ret (error_reply 400 "Email must be a valid, non-empty string")
        | Some updates_email =>
            found <- User_findOneAndSet wallet updates_name updates_email ;;
            match found with
            | None => ret (error_reply 404 "User not found")
            | Some user =>
                ret {| code := 200;
                       body := {[ "walletAddress" := JStr (walletAddress user);
                                  "name" := or_null (user_name user);
                                  "email" := or_null (email user);
                                  "totalDonatedSol" := JNum (totalDonatedSol user);
                                  "donations" :=
                                    JArr ((fun donation =>
                                             JObj {[ "fundId" := JStr (fundId donation);
                                                     "amount" := JNum (amount donation);
                                                     "donatedAt" :=
                                                       JStr (toISOString (donatedAt donation)) ]})
                                          <$> donations user) ]} |}
            end
        end
    end.

(** GET /:walletAddress: the profile, each donation with the name and
    the symbol of its fund ([populate]), or with the two fixed texts
    when the fund is not stored any more. *)
Definition profile (wallet : string) : M Reply :=
  w <- get ;;
  match User_findOne wallet (users w) with
  | None => ret (error_reply 404 "User not found")
  | Some user =>
      ret {| code := 200;
             body := {[ "walletAddress" := JStr (walletAddress user);
                        "name" := or_null (user_name user);
                        "email" := or_null (email user);
                        "totalDonatedSol" := JNum (totalDonatedSol user);
                        "donations" :=
                          JArr ((fun donation =>
                                   JObj {[ "fundId" :=
                                             match funds w !! fundId donation with
                                             | Some fund =>
                                                 JObj {[ "name" := JStr (name fund);
                                                         "tokenSymbol" := JStr (tokenSymbol fund) ]}
                                             | None =>
                                                 JObj {[ "name" := JStr "Unknown Fund";
                                                         "tokenSymbol" := JStr "N/A" ]}
                                             end;
                                           "amount" := JNum (amount donation);
                                           "donatedAt" :=
                                             JStr (toISOString (donatedAt donation)) ]})
                                <$> donations user) ]} |}
  end.

End Server.

(** ** index.ts: the connection to MongoDB

    [mongoose.connect] is the outside world: [connect n] tells whether
    the attempt made after [n] others succeeds. *)

Module Db.

Definition MAX_RETRIES : nat := 5.

(** The two variables of the module. *)
Record State : Type := {
  retryCount : nat;
  isConnecting : bool
}.

Inductive Outcome : Type :=
| Connected   (* the connection is up and nothing more is scheduled *)
| Exited      (* process.exit(1) *)
| Skipped.    (* an attempt was in progress *)

(** [connectDB()] together with the calls it schedules through
    [setTimeout], after [n] attempts: the outcome, the variables and
    the number of attempts made.  [fuel] bounds the number of calls;
    [None] is a run that needs more. *)
Fixpoint connectDB (connect : nat -> bool) (fuel : nat) (n : nat) (st : State)
  : option (Outcome * State * nat) :=
  match fuel with
  | 0%nat => None
  | S fuel' =>
      if isConnecting st then Some (Skipped, st, n)
      else
        (* isConnecting = true *)
        if connect n then
          (* retryCount = 0; finally: isConnecting = false *)
          Some (Connected, {| retryCount := 0; isConnecting := false |}, S n)
        else if (retryCount st <? MAX_RETRIES)%nat then
          (* retryCount++; finally: isConnecting = false; then the timer
             fires: isConnecting = false; connectDB() *)
          connectDB connect fuel' (S n)
            {| retryCount := S (retryCount st); isConnecting := false |}
        else
          Some (Exited, {| retryCount := retryCount st; isConnecting := true |}, S n)
  end.

(** The variables when the module is loaded. *)
Definition start : State := {| retryCount := 0; isConnecting := false |}.

End Db.

(** ** Notions used by the statements *)

(** A computation that touches neither collection: it may only call out. *)
Definition frame {A} (m : M A) : Prop :=
  forall w, funds (snd (m w)) = funds w /\ users (snd (m w)) = users w.

(** What a run of the verifier can produce: [true], or an exception. *)
Definition true_or_throws (r : result bool) : Prop :=
  match r with
  | Ok b => b = true
  | Throw _ => True
  end.

(** The member [k] of an object literal: the first one of that name
    that is defined. *)
Fixpoint member (k : string) (members : list (string * option jsval)) : option jsval :=
  match members with
  | [] => None
  | (k', v) :: rest =>
      if String.eqb k' k then
        match v with
        | Some x => Some x
        | None => member k rest
        end
      else member k rest
  end.

(** What the list shows of a fund: its id, and neither private key. *)
Definition redacted (fund : Fund) (o : jsobj) : Prop :=
  o !! "_id" = Some (JStr (_id fund))
  /\ o !! "fundPrivateKey" = None
  /\ o !! "pumpPortalPrivateKey" = None.

(** A request that passes the checks made before the payment is looked
    at, for the stored fund [f]. *)
Definition admitted (config : Config) (req : DonateRequest) (f : Fund) : Prop :=
  truthy_str (req_donorWallet req) = true
  /\ truthy_str (req_txSignature req) = true
  /\ PrimFloat.ltb (req_amount req) (MIN_DONATION config) = false
  /\ Num.gtb (req_amount req) (MAX_DONATION config) = false
  /\ status f = active
  /\ Num.strict_eq (initialFeePaid f) 0 = false.

(** From the world [w] the payment of [req] verifies, the transaction is
    confirmed and the balance of the fund wallet is then read as
    [balance], which leaves the world [w']. *)
Definition verified_then_read (env : oracle) (toString : float -> string)
    (req : DonateRequest) (f : Fund) (w : World) (balance : float) (w' : World) : Prop :=
  exists w1 err w2 pk w3,
    verifySolPayment env toString (default "" (req_txSignature req))
      (default "" (req_donorWallet req)) (fundWalletAddress f) (req_amount req) w
    = (Ok true, w1)
    /\ call env (ConfirmTransaction (default "" (req_txSignature req))) w1 = (Ok err, w2)
    /\ call env (NewPublicKey (fundWalletAddress f)) w2 = (Ok pk, w3)
    /\ getBalance env pk w3 = (Ok balance, w').

(** The message of the balance-mismatch abort. *)
Definition mismatch_message (toString : float -> string) (balance expected : float) : string :=
  "Fund wallet balance (" ++ toString balance ++ " SOL) is less than expected ("
  ++ toString expected ++ " SOL)".

(** The status a handler replied with and the launch it scheduled; the
    member [k] of the body it sent. *)
Definition replied (run : result (Reply * option Job) * World) : option (nat * option Job) :=
  match fst run with
  | Ok (r, j) => Some (code r, j)
  | Throw _ => None
  end.

Definition reply_member (k : string) (run : result (Reply * option Job) * World)
  : option jsval :=
  match fst run with
  | Ok (r, _) => body r !! k
  | Throw _ => None
  end.

(** The field [get] of the stored fund [id]. *)
Definition stored {A} (get : Fund -> A) (id : string) (w : World) : option A :=
  get <$> funds w !! id.

(** The [launchStatus] of the fund [id] as a handler finds it. *)
Definition found_launchStatus (env : oracle) (id : string) (w : World)
  : option (option string) :=
  match fst (Fund_findById env id w) with
  | Ok (Some d) => Some (launchStatus d)
  | _ => None
  end.

(** What the launch operation checks in the stored records before it
    starts an attempt for the fund [f]. *)
Definition launchable (req : LaunchRequest) (w : World) (f : Fund) : Prop :=
  truthy_str (lreq_userWallet req) = true
  /\ funds w !! lreq_id req = Some f
  /\ (exists creator, User_findById (userId f) (users w) = Some creator
                      /\ String.eqb (walletAddress creator) (default "" (lreq_userWallet req))
                         = true)
  /\ status f = completed
  /\ truthy_str (tokenAddress f) = false
  /\ truthy_str (image f) = true
  /\ truthy_str (Some (fundPrivateKey f)) = true.

(** The reply to an accepted launch request. *)
Definition launch_accepted : Reply :=
  {| code := 202;
     body := {[ "message" :=
                  JStr "Token launch request accepted and processing in the background";
                "status" := JStr "pending" ]} |}.

(** A transaction that is on the ledger but does not verify: it holds
    no system transfer from [sender] to [receiver], or one of fewer than
    [required] lamports. *)
Definition logically_fails (sender receiver : string) (required : float) (tx : ParsedTx)
  : Prop :=
  Num.strict_eq (slot tx) 0 = false
  /\ match find (is_transfer sender receiver) (instructions tx) with
     | Some (Parsed p) => PrimFloat.ltb (lamports p) required = true
     | _ => True
     end.

(** The message of the Error an attempt throws for such a transaction. *)
Definition failure_message (toString : float -> string) (sender receiver : string)
    (amount : float) (tx : ParsedTx) : string :=
  match find (is_transfer sender receiver) (instructions tx) with
  | Some (Parsed p) =>
      "Transferred amount " ++ toString (lamports p / Num.LAMPORTS_PER_SOL)
      ++ " SOL is less than required " ++ toString amount ++ " SOL"
  | _ => "No valid SOL transfer found in transaction"
  end.

(** An assignment that leaves [tokenAddress] and [launchError] alone. *)
Definition harmless (p : FundSet) : Prop :=
  match p with
  | Set_tokenAddress _ | Set_launchError _ => False
  | _ => True
  end.

(** From [w] to [w'] every stored fund is still stored, under its id,
    with the [tokenAddress] and the [launchError] it had. *)
Definition launch_fields_kept (w w' : World) : Prop :=
  forall id f,
    funds w !! id = Some f ->
    exists f', funds w' !! id = Some f'
               /\ _id f' = _id f
               /\ tokenAddress f' = tokenAddress f
               /\ launchError f' = launchError f.

(** A computation that keeps them, from every world. *)
Definition keeps {A} (m : M A) : Prop :=
  forall w, launch_fields_kept w (snd (m w)).

(** Every value a computation returns satisfies [Q]. *)
Definition returns {A} (m : M A) (Q : A -> Prop) : Prop :=
  forall w a, fst (m w) = Ok a -> Q a.

(** The fund a background launch is for, and what its [try] runs on the
    document of the stored fund [f] up to the orchestrator's return: the
    arguments of the call are evaluated, then the orchestrator is
    called. *)
Definition job_fund (j : Job) : string :=
  match j with
  | AutoLaunch id _ => id
  | ManualLaunch id _ _ => id
  end.

Definition orchestration (env : oracle) (toString : float -> string) (config : Config)
    (j : Job) (f : Fund) : M LaunchResult :=
  match j with
  | AutoLaunch _ totalSolToTransfer =>
      fundWallet <- call env (KeypairFromSecretKey (fundPrivateKey f)) ;;
      launch env toString config fundWallet (hydrate f) totalSolToTransfer
  | ManualLaunch _ fundWallet totalSolToTransfer =>
      launch env toString config fundWallet (hydrate f) totalSolToTransfer
  end.

(** The automatic launch gives up before the orchestrator when the fund
    has no image. *)
Definition reaches_orchestrator (j : Job) (f : Fund) : Prop :=
  match j with
  | AutoLaunch _ _ => truthy_str (image f) = true
  | ManualLaunch _ _ _ => True
  end.

(** The transactions submitted to the ledger in a trace. *)
Definition submitted (t : list event) : list Transaction :=
  omap (fun e => match e with
                 | @Called _ (SendTransaction tx _) => Some tx
                 | _ => None
                 end) t.

(** A computation that submits no transaction. *)
Definition quiet {A} (m : M A) : Prop :=
  forall w, submitted (trace (snd (m w))) = submitted (trace w).

(** ** A campaign, its donors and a ledger, for the concrete runs *)

Module Scenario.

Definition cfg : Config :=
  {| CROWD_FUND_CREATION_FEE := 0.1;
     MIN_DONATION := 0.01;
     MAX_DONATION := 10;
     WEBSITE_WALLET := "WebsiteWallet";
     SOLANA_NETWORK := "devnet";
     CLOUDINARY_CLOUD_NAME := "cloud" |}.

(** Numbers are shown by a fixed text: messages are not compared. *)
Definition show (x : float) : string := "<number>".

(** A fund with the given target, fee, running total and status. *)
Definition campaign (target fee donated : float) (st : FundStatus) : Fund :=
  {| _id := "fund1"; userId := "user1"; name := "Campaign";
     image := Some "https://img.example/token.png";
     fundWalletAddress := "FundWallet"; fundPrivateKey := "FundSecret";
     tokenName := "Token"; tokenSymbol := "TKN"; tokenDescription := "A token";
     targetPercentage := 5; targetSolAmount := target;
     currentDonatedSol := donated; initialFeePaid := fee;
     targetWallet := "TargetWallet";
     tokenTwitter := Some ""; tokenTelegram := Some ""; tokenWebsite := Some "";
     status := st; launchFee := 0.1; tokenAddress := None;
     pumpPortalApiKey := None; pumpPortalWalletPublicKey := None;
     pumpPortalPrivateKey := None; pumpPortalTransferCompleted := false;
     completedAt := None; launchError := None; tokenCa := None;
     solscanUrl := None; metadataUri := None;
     createdAt := 1000%Z; updatedAt := 1000%Z |}.

Definition creator : User :=
  {| user_id := "user1"; walletAddress := "Creator"; user_name := None; email := None;
     donations := []; totalDonatedSol := 0 |}.

Definition world_of (f : Fund) : World :=
  {| funds := {[ _id f := f ]}; users := [creator]; trace := [] |}.

(** A system transfer of [l] lamports from [from] to the fund wallet. *)
Definition payment (from : string) (l : float) : ParsedTx :=
  {| slot := 42;
     instructions :=
       [ PartiallyDecoded;
         Parsed {| program := "system"; parsed_type := "transfer"; source := from;
                   destination := "FundWallet"; lamports := l |} ] |}.

(** The texts cast to an ObjectId here: 24 hexadecimal digits. *)
Definition is_hex_digit (c : ascii) : bool :=
  let n := nat_of_ascii c in
  ((48 <=? n) && (n <=? 57) || (65 <=? n) && (n <=? 70) || (97 <=? n) && (n <=? 102))%nat.

Definition hex24 (s : string) : bool :=
  Nat.eqb (String.length s) 24 && string_forallb is_hex_digit s.

(** A ledger on which the fee of a message is [fee] lamports, the balance
    of the account [a] is [balance n a] lamports at the [n]-th step, and
    the transaction [sig] is [txs sig]. *)
Definition ledger (fee : option float) (balance : nat -> string -> float)
    (txs : string -> option ParsedTx) : oracle :=
  {| answer := fun A n c =>
       match c in ext T return result T with
       | GetBalance a => Ok (balance n a)
       | GetLatestBlockhash => Ok {| blockhash := "hash"; lastValidBlockHeight := 100 |}
       | GetFeeForMessage _ => Ok fee
       | GetParsedTransaction sig => Ok (txs sig)
       | ConfirmTransaction _ => Ok None
       | SendTransaction _ _ => Ok "sent"
       | GetTokenAccountBalance _ =>
           Ok (Some {| ta_amount := "<number>"; ta_amount_number := 50000000000000;
                       uiAmount := Some 50000000 |})
       | GetParsedAccountInfo _ => Ok (ParsedData (Some 1000000000000000))
       | GetOrCreateAssociatedTokenAccount _ _ owner => Ok ("ata:" ++ owner)
       | SplTransfer _ _ _ _ _ => Ok "moved"
       | NewPublicKey s => Ok s
       | KeypairFromSecretKey secret =>
           Ok {| publicKey := if String.eqb secret "FundSecret" then "FundWallet"
                              else "PumpWallet";
                 secretKey := secret |}
       | FetchCreateWallet =>
           Ok {| http_status := 200; retry_after := None; text := "";
                 http_json := Ok {| wd_apiKey := "key"; wd_walletPublicKey := "PumpWallet";
                                    wd_privateKey := "PumpSecret" |} |}
       | FetchImage _ =>
           Ok {| http_status := 200; retry_after := None; text := ""; http_json := Ok tt |}
       | FetchIpfs n s _ _ _ _ =>
           Ok {| http_status := 200; retry_after := None; text := "";
                 http_json := Ok {| md_metadataUri := "ipfs://meta"; md_name := n;
                                    md_symbol := s |} |}
       | FetchTrade _ _ =>
           Ok {| http_status := 200; retry_after := None; text := "";
                 http_json := Ok {| tr_signature := "created"; tr_mint := None |} |}
       | FundFind _ => Ok []
       | FundCount _ => Ok 0
       end;
     value := fun A n b =>
       match b in builtin T return T with
       | Now => (2000 + Z.of_nat n)%Z
       | NewObjectId => "id" ++ pretty n
       | KeypairGenerate => {| publicKey := "Mint"; secretKey := "MintSecret" |}
       end;
     casts := hex24 |}.

(** *** Target 10, fee 1, donations of 6 and of 5 *)

Definition two_donations : oracle :=
  ledger (Some 5000)
    (fun n _ => if (n <? 11)%nat then 7000000000 else 11000000000)
    (fun sig => if String.eqb sig "sig1" then Some (payment "Alice" 6000000000)
                else if String.eqb sig "sig2" then Some (payment "Bob" 5000000000)
                else None).

Definition first_request : DonateRequest :=
  {| req_id := "fund1"; req_amount := 6;
     req_donorWallet := Some "Alice"; req_txSignature := Some "sig1" |}.

Definition second_request : DonateRequest :=
  {| req_id := "fund1"; req_amount := 5;
     req_donorWallet := Some "Bob"; req_txSignature := Some "sig2" |}.

Definition after_first : result (Reply * option Job) * World :=
  donate two_donations show cfg first_request (world_of (campaign 10 1 0 active)).

Definition after_second : result (Reply * option Job) * World :=
  donate two_donations show cfg second_request (snd after_first).

(** *** The launch of the completed campaign *)

(** The same ledger with the issuance service refusing to create a
    wallet. *)
Definition service_down (o : oracle) : oracle :=
  {| answer := fun A n c =>
       match c in ext T return result T -> result T with
       | FetchCreateWallet => fun _ => Throw (Error "fetch failed")
       | _ => fun r => r
       end (answer o A n c);
     value := value o;
     casts := casts o |}.

(** The fund wallet holds 11 SOL; the pump wallet is empty until the
    transfer is sent (the 17th step of the launch) and holds what it was
    sent afterwards. *)
Definition launch_ledger : oracle :=
  ledger (Some 5000)
    (fun n a => if String.eqb a "FundWallet" then 11000000000
                else if (n <? 17)%nat then 0 else 10700000000)
    (fun _ => None).

Definition funded : World := world_of (campaign 10 1 10 completed).

Definition launch_request : LaunchRequest :=
  {| lreq_id := "fund1"; lreq_userWallet := Some "Creator" |}.

Definition fund_keys : Keypair := {| publicKey := "FundWallet"; secretKey := "FundSecret" |}.

Definition launched : result unit * World :=
  run_job launch_ledger show cfg (ManualLaunch "fund1" fund_keys 10.7) funded.

Definition launch_failed : result unit * World :=
  run_job (service_down launch_ledger) show cfg (ManualLaunch "fund1" fund_keys 10.7) funded.

Definition first_launch : result (Reply * option Job) * World :=
  launch_handler launch_ledger launch_request funded.

Definition second_launch : result (Reply * option Job) * World :=
  launch_handler launch_ledger launch_request (snd first_launch).

(** *** Payments that do not verify *)

Definition wrong_sender : oracle :=
  ledger (Some 5000) (fun _ _ => 7000000000)
    (fun _ => Some (payment "Mallory" 6000000000)).

Definition too_little : oracle :=
  ledger (Some 5000) (fun _ _ => 7000000000)
    (fun _ => Some (payment "Alice" 1000000000)).

(** *** A balance that does not survive the round trip through the fee *)



(** The world in which the first donation has been verified and the
    balance read. *)
Definition first_verified : result bool * World :=
  verifySolPayment two_donations show "sig1" "Alice" "FundWallet" 6
    (world_of (campaign 10 1 0 active)).

Definition first_read : result float * World :=
  getBalance two_donations "FundWallet"
    (snd (call two_donations (NewPublicKey "FundWallet")
            (snd (call two_donations (ConfirmTransaction "sig1") (snd first_verified))))).

(** *** A donation that completes the campaign at once *)

Definition eleven : oracle :=
  ledger (Some 5000) (fun _ _ => 11000000000)
    (fun _ => Some (payment "Bob" 5000000000)).

Definition completing_read : result float * World :=
  getBalance eleven "FundWallet"
    (snd (call eleven (NewPublicKey "FundWallet")
            (snd (call eleven (ConfirmTransaction "sig2")
                    (snd (verifySolPayment eleven show "sig2" "Bob" "FundWallet" 5
                            (world_of (campaign 10 1 6 active)))))))).

(** *** A list of one fund *)

Definition listing (found : list Fund) (o : oracle) : oracle :=
  {| answer := fun A n c =>
       match c in ext T return result T -> result T with
       | FundFind _ => fun _ => Ok found
       | FundCount _ => fun _ => Ok 1
       | _ => fun r => r
       end (answer o A n c);
     value := value o;
     casts := casts o |}.

Definition with_keys : Fund :=
  apply_set (Set_pumpPortalPrivateKey (Some "PumpSecret")) (campaign 10 1 10 completed).

Definition first_page : ListRequest :=
  {| lq_status := Some "completed"; lq_pageNum := 1; lq_limitNum := 10; lq_search := None |}.

End Scenario.

(** ** Notions used by the further statements *)

(** An answer that makes [withRetry] try again. *)
Definition retryable {A} (r : result A) : bool :=
  match r with
  | Throw e => message_includes "429 Too Many Requests" e
  | Ok _ => false
  end.

(** The call that submits a transaction. *)
Definition is_send {A} (c : ext A) : bool :=
  match c with
  | SendTransaction _ _ => true
  | _ => false
  end.

(** The transaction [transferSol] builds on the blockhash [recent]. *)
Definition transfer_transaction (fromWallet : Keypair) (toPublicKey : string)
    (amountSol : float) (addPriorityFee : bool) (recent : string) : Transaction :=
  {| tx_instructions :=
       ((if addPriorityFee then [SetComputeUnitPrice 10000] else [])
        ++ [SystemTransfer (publicKey fromWallet) toPublicKey
              (Num.Math_floor (amountSol * Num.LAMPORTS_PER_SOL))])%list;
     recentBlockhash := recent;
     feePayer := publicKey fromWallet |}.

(** A computation that only adds to the record of calls. *)
Definition logs {A} (m : M A) : Prop :=
  forall w, exists t, trace (snd (m w)) = (trace w ++ t)%list.

(** A computation that leaves the User collection alone. *)
Definition same_users {A} (m : M A) : Prop :=
  forall w, users (snd (m w)) = users w.




(** The [status] of a list request that the handler lets through: none
    (then "active" is taken), "active", "completed", or the empty
    text. *)
Definition status_accepted (req : ListRequest) : Prop :=
  match lq_status req with
  | Some s => s = "" \/ s = "active" \/ s = "completed"
  | None => True
  end.

(** The query the list handler makes for a request. *)
Definition list_query (req : ListRequest) : FundQuery :=
  {| q_status := match lq_status req with Some s => s | None => "active" end;
     q_search := lq_search req;
     q_skip := (lq_pageNum req - 1) * lq_limitNum req;
     q_limit := lq_limitNum req |}.

(** The [currentBalance] of an item: a number, or null. *)
Definition has_balance (o : jsobj) : Prop :=
  o !! "currentBalance" = Some JNull \/ exists b, o !! "currentBalance" = Some (JNum b).

(** A link of a new fund that the creation handler lets through: none,
    the empty text, or a URL that [isValidUrl] accepts. *)
Definition link_accepted (o : option string) : bool :=
  negb (truthy_str o) || isValidUrl (default "" o).

(** A creation request that passes the checks made before anything is
    looked up or called. *)
Definition well_formed (req : CreateRequest) : bool :=
  truthy_str (cr_userWallet req)
  && truthy_str (cr_name req)
  && truthy_str (cr_tokenName req)
  && truthy_str (cr_tokenSymbol req)
  && truthy_str (cr_tokenDescription req)
  && truthy_number (cr_targetPercentage req)
  && truthy_str (cr_targetWallet req)
  && truthy_str (cr_txSignature req)
  && link_accepted (cr_tokenTwitter req)
  && link_accepted (cr_tokenTelegram req)
  && link_accepted (cr_tokenWebsite req)
  && existsb (PrimFloat.eqb (default 0 (cr_targetPercentage req))) validTargetPercentages.

(** No fund is stored in [w'] that was not stored in [w]. *)
Definition no_new_fund (w w' : World) : Prop :=
  forall id f, funds w' !! id = Some f -> funds w !! id = Some f.

(** [s.toUpperCase()], for the letters a to z. *)
Fixpoint upper_case (s : string) : string :=
  match s with
  | String c s' => String (upper c) (upper_case s')
  | EmptyString => EmptyString
  end.

(** ** Further examples *)

Module Cases.

Import Scenario.

(** What a run returned, if it did. *)
Definition returned {A} (r : result A) : option A :=
  match r with
  | Ok a => Some a
  | Throw _ => None
  end.

(** A ledger that does not show a transaction before the step [until]. *)
Definition delayed (until : nat) (o : oracle) : oracle :=
  {| answer := fun A n c =>
       match c in ext T return result T -> result T with
       | GetParsedTransaction _ => fun r => if (n <? until)%nat then Ok None else r
       | _ => fun r => r
       end (answer o A n c);
     value := value o;
     casts := casts o |}.

Definition pump_keys : Keypair := {| publicKey := "PumpWallet"; secretKey := "PumpSecret" |}.

(** The website wallet, and the payment of the creation fee to it. *)
Definition website : Keypair :=
  {| publicKey := "WebsiteWallet"; secretKey := "WebsiteSecret" |}.

Definition fee_payment (from : string) (l : float) : ParsedTx :=
  {| slot := 42;
     instructions :=
       [ Parsed {| program := "system"; parsed_type := "transfer"; source := from;
                   destination := "WebsiteWallet"; lamports := l |} ] |}.

(** The fee has been paid and the website wallet holds [balance]
    lamports. *)
Definition creation (balance : float) : oracle :=
  ledger (Some 5000) (fun _ _ => balance)
    (fun _ => Some (fee_payment "Creator" 100000000)).

Definition create_request : CreateRequest :=
  {| cr_userWallet := Some "Creator"; cr_name := Some "Campaign"; cr_image := None;
     cr_tokenName := Some "Token"; cr_tokenSymbol := Some "TKN";
     cr_tokenDescription := Some "A token";
     cr_targetPercentage := Some 5; cr_targetWallet := Some "TargetWallet";
     cr_tokenTwitter := None; cr_tokenTelegram := Some "";
     cr_tokenWebsite := Some "https://token.example";
     cr_txSignature := Some "feesig" |}.

(** The same request with a link that is not a URL. *)
Definition bad_link : CreateRequest :=
  {| cr_userWallet := Some "Creator"; cr_name := Some "Campaign"; cr_image := None;
     cr_tokenName := Some "Token"; cr_tokenSymbol := Some "TKN";
     cr_tokenDescription := Some "A token";
     cr_targetPercentage := Some 5; cr_targetWallet := Some "TargetWallet";
     cr_tokenTwitter := Some "x.com/token"; cr_tokenTelegram := Some "";
     cr_tokenWebsite := Some "https://token.example";
     cr_txSignature := Some "feesig" |}.

Definition empty_world : World := {| funds := ∅; users := []; trace := [] |}.

Definition created : result Reply * World :=
  create_fund (creation 5000000000) show cfg website create_request empty_world.

(** The website wallet cannot pay the transfer to the new fund. *)
Definition not_funded : result Reply * World :=
  create_fund (creation 50000000) show cfg website create_request empty_world.

(** A fund without image, as a creation request without image leaves it. *)
Definition no_image : Fund :=
  new_Fund cfg "fund1" "user1" create_request fund_keys 5 1000%Z.

Definition stranger : LaunchRequest :=
  {| lreq_id := "fund1"; lreq_userWallet := Some "Mallory" |}.

Definition pre_request : PreDonateRequest :=
  {| pre_id := "fund1"; pre_amount := Some 6; pre_donorWallet := Some "Alice" |}.

(** A donation to the fund [id], which need not be there. *)
Definition donation_to (id : string) : DonateRequest :=
  {| req_id := id; req_amount := 5;
     req_donorWallet := Some "Bob"; req_txSignature := Some "sig2" |}.

(** An id that casts to an ObjectId and one that does not. *)
Definition well_formed_id : string := "0123456789abcdef01234567".
Definition malformed_id : string := "nosuch".

Definition bad_status : ListRequest :=
  {| lq_status := Some "closed"; lq_pageNum := 1; lq_limitNum := 10; lq_search := None |}.

(** Dates are shown by a fixed text. *)
Definition iso (d : Date) : string := "<date>".

(** A ledger that gives no blockhash. *)
Definition no_blockhash (o : oracle) : oracle :=
  {| answer := fun A n c =>
       match c in ext T return result T -> result T with
       | GetLatestBlockhash => fun _ => Throw (Error "fetch failed")
       | _ => fun r => r
       end (answer o A n c);
     value := value o;
     casts := casts o |}.

(** A ledger that refuses to tell a balance. *)
Definition no_balance (o : oracle) : oracle :=
  {| answer := fun A n c =>
       match c in ext T return result T -> result T with
       | GetBalance _ => fun _ => Throw (Error "fetch failed")
       | _ => fun r => r
       end (answer o A n c);
     value := value o;
     casts := casts o |}.

(** *** A fund whose fee and balance round to a tie

    The creation fee is set so that 99% of it is an odd multiple of
    2^-26; the ledger names a fee of 1 lamport for a message and a
    balance of 210962154206972992 lamports for the wallet of the new
    fund. *)







End Cases.


(** * Properties *)

Section Properties.

Variable env : oracle.
Variable toString : float -> string.
Variable config : Config.

(** ** Comparisons of binary64 numbers *)




(** ** Computations that leave the collections alone *)

Create HintDb frame.

Lemma frame_ret {A} (a : A) : frame (ret a).
Proof. intros w. split; reflexivity. Qed.

Lemma frame_throw {A} (e : exn) : frame (@throw A e).
Proof. intros w. split; reflexivity. Qed.

Lemma frame_call {A} (c : ext A) : frame (call env c).
Proof. intros w. split; reflexivity. Qed.

Lemma frame_draw {A} (b : builtin A) : frame (draw env b).
Proof. intros w. split; reflexivity. Qed.

Lemma frame_get : frame get.
Proof. intros w. split; reflexivity. Qed.

Lemma frame_bind {A B} (m : M A) (k : A -> M B) :
  frame m -> (forall a, frame (k a)) -> frame (bind m k).
Proof.
  intros Hm Hk w. unfold bind.
  destruct (Hm w) as [Hf Hu]. destruct (m w) as [[a | e] w1]; simpl in *.
  - destruct (Hk a w1) as [Hf1 Hu1]. split; congruence.
  - split; assumption.
Qed.

Lemma frame_try_catch {A} (m : M A) (h : exn -> M A) :
  frame m -> (forall e, frame (h e)) -> frame (try_catch m h).
Proof.
  intros Hm Hh w. unfold try_catch.
  destruct (Hm w) as [Hf Hu]. destruct (m w) as [[a | e] w1]; simpl in *.
  - split; assumption.
  - destruct (Hh e w1) as [Hf1 Hu1]. split; congruence.
Qed.

Lemma frame_if {A} (b : bool) (m1 m2 : M A) :
  frame m1 -> frame m2 -> frame (if b then m1 else m2).
Proof. destruct b; trivial. Qed.

Hint Resolve frame_ret frame_throw frame_call frame_draw frame_get : frame.
Hint Resolve frame_bind frame_try_catch frame_if : frame.

Lemma frame_withRetry_from {A} (fn : M A) (left : nat) :
  frame fn -> frame (withRetry_from fn left).
Proof.
  intros Hfn. induction left as [| left IH]; simpl.
  - apply frame_try_catch; auto with frame.
  - apply frame_try_catch; [assumption |].
    intros e. destruct (message_includes _ e); auto with frame.
Qed.

Lemma frame_withRetry {A} (fn : M A) : frame fn -> frame (withRetry fn).
Proof. apply frame_withRetry_from. Qed.

Hint Resolve frame_withRetry : frame.

Lemma frame_getBalance (pk : string) : frame (getBalance env pk).
Proof. unfold getBalance. auto with frame. Qed.

Lemma frame_verify_attempt sig sender receiver amount required last :
  frame (verify_attempt env toString sig sender receiver amount required last).
Proof.
  unfold verify_attempt. apply frame_bind; [auto with frame |].
  intros [tx |]; [| destruct last; auto with frame].
  destruct (Num.strict_eq (slot tx) 0); [destruct last; auto with frame |].
  destruct (find _ _) as [[| p] |]; auto with frame.
Qed.

Lemma frame_verify_from sig sender receiver amount required left :
  frame (verify_from env toString sig sender receiver amount required left).
Proof.
  induction left as [| left IH]; simpl; [auto with frame |].
  apply frame_bind.
  - apply frame_try_catch; [apply frame_verify_attempt |].
    intros e. destruct (Nat.eqb left 0); auto with frame.
  - intros [b |]; auto with frame.
Qed.

Lemma frame_verifySolPayment sig sender receiver amount :
  frame (verifySolPayment env toString sig sender receiver amount).
Proof.
  unfold verifySolPayment.
  apply frame_bind; [auto with frame |]. intros s.
  apply frame_bind; [auto with frame |]. intros r.
  apply frame_verify_from.
Qed.

Lemma frame_calculateGasFeeReserve : frame (calculateGasFeeReserve env).
Proof.
  unfold calculateGasFeeReserve. apply frame_try_catch; [| auto with frame].
  apply frame_bind; [auto with frame |]. intros bh.
  apply frame_bind; [auto with frame |].
  intros [v |]; [destruct (Num.truthy v) |]; auto with frame.
Qed.

Hint Resolve frame_getBalance frame_verifySolPayment frame_calculateGasFeeReserve : frame.

(** ** Elementary runs *)

Lemma Fund_findById_eq (id : string) (w : World) :
  Fund_findById env id w
  = (match funds w !! id with
     | Some f => Ok (Some (hydrate f))
     | None => if casts env id then Ok None else Throw (CastError id)
     end, w).
Proof.
  unfold Fund_findById, bind, get.
  destruct (funds w !! id); [reflexivity |]. destruct (casts env id); reflexivity.
Qed.

Lemma frame_Fund_findById (id : string) : frame (Fund_findById env id).
Proof. intros w. rewrite Fund_findById_eq. split; reflexivity. Qed.

(** A [try] whose [catch] returns a value always returns. *)
Lemma try_catch_ret_returns {A} (m : M A) (a0 : A) (w : World) :
  exists a w1, try_catch m (fun _ => ret a0) w = (Ok a, w1).
Proof.
  unfold try_catch. destruct (m w) as [[a | e] w1]; unfold ret; eauto.
Qed.

(** ** The donation handler rejects without writing *)

Lemma calculateGasFeeReserve_returns (w : World) :
  exists G w1, calculateGasFeeReserve env w = (Ok G, w1)
               /\ funds w1 = funds w /\ users w1 = users w.
Proof.
  destruct (frame_calculateGasFeeReserve w) as [Hf Hu].
  unfold calculateGasFeeReserve, try_catch in *.
  destruct (bind _ _ w) as [[G | e] w1]; simpl in *; eauto.
Qed.

(** The reply of [donate] when the task has set [errorMessage]. *)
Lemma donate_error_reply (req : DonateRequest) (w w1 w2 : World) (G : float)
    (f : option FundDoc) (c : Ascii.ascii) (msg : string) :
  calculateGasFeeReserve env w = (Ok G, w1) ->
  donation_body env toString config G req w1
  = (Ok {| fund := f; responseData := None;
           errorMessage := Some (String c msg); scheduled := None |}, w2) ->
  donate env toString config req w = (Ok (error_reply 400 (String c msg), None), w2).
Proof.
  intros HG Hbody. unfold donate, donation_task, bind.
  rewrite HG, Hbody. reflexivity.
Qed.

(** C3. A donation to a campaign whose status is completed is answered
    with an error, whatever the amount, and neither the Fund collection
    nor the User collection is written. *)
Theorem C3_completed_campaign_rejects_donation (req : DonateRequest) (w : World) (f : Fund) :
  funds w !! req_id req = Some f ->
  status f = completed ->
  exists msg w',
    donate env toString config req w = (Ok (error_reply 400 msg, None), w')
    /\ funds w' = funds w /\ users w' = users w.
Proof.
  intros Hf Hst.
  destruct (calculateGasFeeReserve_returns w) as (G & w1 & HG & Hf1 & Hu1).
  assert (Hbody : exists fd c msg,
             donation_body env toString config G req w1
             = (Ok {| fund := fd; responseData := None;
                      errorMessage := Some (String c msg); scheduled := None |}, w1)).
  { unfold donation_body.
    destruct (negb (truthy_str (req_donorWallet req)) || negb (truthy_str (req_txSignature req)));
      [unfold task_error, ret; eauto |].
    destruct (PrimFloat.ltb (req_amount req) (MIN_DONATION config)
              || Num.gtb (req_amount req) (MAX_DONATION config));
      [unfold task_error, ret; simpl; eauto |].
    unfold bind at 1. rewrite Fund_findById_eq, Hf1, Hf.
    cbn [hydrate fields]. rewrite Hst. cbn [FundStatus_eqb].
    unfold task_error, ret; eauto. }
  destruct Hbody as (fd & c & msg & Hbody).
  exists (String c msg), w1. split; [| split; assumption].
  eapply donate_error_reply; eassumption.
Qed.

(** C4. A donation whose amount is strictly below [MIN_DONATION] or
    strictly above [MAX_DONATION] is answered with an error, and neither
    the Fund collection nor the User collection is written. *)
Theorem C4_amount_out_of_range_rejected (req : DonateRequest) (w : World) :
  PrimFloat.ltb (req_amount req) (MIN_DONATION config) = true
  \/ PrimFloat.ltb (MAX_DONATION config) (req_amount req) = true ->
  exists msg w',
    donate env toString config req w = (Ok (error_reply 400 msg, None), w')
    /\ funds w' = funds w /\ users w' = users w.
Proof.
  intros Hrange.
  destruct (calculateGasFeeReserve_returns w) as (G & w1 & HG & Hf1 & Hu1).
  assert (Hbody : exists fd c msg,
             donation_body env toString config G req w1
             = (Ok {| fund := fd; responseData := None;
                      errorMessage := Some (String c msg); scheduled := None |}, w1)).
  { unfold donation_body.
    destruct (negb (truthy_str (req_donorWallet req)) || negb (truthy_str (req_txSignature req)));
      [unfold task_error, ret; eauto |].
    replace (PrimFloat.ltb (req_amount req) (MIN_DONATION config)
             || Num.gtb (req_amount req) (MAX_DONATION config)) with true.
    - unfold task_error, ret; simpl; eauto.
    - unfold Num.gtb. destruct Hrange as [H | H]; rewrite H; [reflexivity |].
      symmetry. apply orb_true_r. }
  destruct Hbody as (fd & c & msg & Hbody).
  exists (String c msg), w1. split; [| split; assumption].
  eapply donate_error_reply; eassumption.
Qed.

(** ** The running total of an admitted donation *)

Lemma draw_eq {A} (b : builtin A) (w : World) :
  draw env b w
  = (Ok (value env A (length (trace w)) b), with_trace (trace w ++ [Drawn b]) w).
Proof. reflexivity. Qed.

Lemma User_findOneAndUpdate_returns (wallet : string) (d : Donation) (w : World) :
  exists u w', User_findOneAndUpdate env wallet d w = (Ok u, w') /\ funds w' = funds w.
Proof.
  unfold User_findOneAndUpdate. unfold bind at 1. unfold get at 1.
  destruct (User_findOne wallet (users w)) as [u |];
    unfold bind, draw, modify, ret; eauto.
Qed.

Lemma apply_sets_app (l1 l2 : list FundSet) (f : Fund) :
  apply_sets (l1 ++ l2) f = apply_sets l2 (apply_sets l1 f).
Proof. unfold apply_sets. apply fold_left_app. Qed.

(** [save] on a document with assigned paths whose record is stored. *)
Lemma Fund_save_writes (d : FundDoc) (stored : Fund) (w : World) :
  modified d <> [] ->
  funds w !! _id (fields d) = Some stored ->
  let now := value env Date (length (trace w)) Now in
  exists w',
    Fund_save env d w
    = (Ok {| fields := apply_set (Set_updatedAt now) (fields d); modified := [];
             launchStatus := launchStatus d |}, w')
    /\ funds w' !! _id (fields d)
       = Some (apply_sets (modified d ++ [Set_updatedAt now]) stored)
    /\ users w' = users w.
Proof.
  intros Hmod Hstored now. unfold Fund_save.
  destruct (modified d) as [| p ps] eqn:Hd; [contradiction |].
  unfold bind at 1. rewrite draw_eq. fold now.
  unfold bind at 1. unfold get at 1. cbn [funds with_trace].
  rewrite Hstored. unfold bind, modify, ret. cbn [funds with_funds with_trace users].
  eexists. split; [reflexivity |]. split; [| reflexivity].
  cbn [funds with_funds with_trace]. rewrite lookup_alter_eq, Hstored. reflexivity.
Qed.

Lemma assign_modified (p : FundSet) (d : FundDoc) : modified (assign p d) <> [].
Proof. cbn [assign modified]. destruct (modified d); discriminate. Qed.

Lemma currentDonatedSol_set (x : float) (f : Fund) :
  currentDonatedSol (apply_set (Set_currentDonatedSol x) f) = x.
Proof. destruct f. reflexivity. Qed.

Lemma currentDonatedSol_kept (p : FundSet) (f : Fund) :
  (forall x, p <> Set_currentDonatedSol x) ->
  currentDonatedSol (apply_set p f) = currentDonatedSol f.
Proof. intros Hp. destruct f, p; try reflexivity. destruct (Hp x). reflexivity. Qed.

Lemma id_kept (p : FundSet) (f : Fund) : _id (apply_set p f) = _id f.
Proof. destruct f, p; reflexivity. Qed.

Lemma initialFeePaid_kept (p : FundSet) (f : Fund) :
  initialFeePaid (apply_set p f) = initialFeePaid f.
Proof. destruct f, p; reflexivity. Qed.

Lemma targetSolAmount_kept (p : FundSet) (f : Fund) :
  targetSolAmount (apply_set p f) = targetSolAmount f.
Proof. destruct f, p; reflexivity. Qed.

(** An admitted, verified donation reaches the settlement with the
    balance that was read; nothing has been written until then. *)
Lemma donation_body_settles (G : float) (req : DonateRequest) (w w' : World) (f : Fund)
    (balance : float) :
  funds w !! req_id req = Some f ->
  admitted config req f ->
  verified_then_read env toString req f w balance w' ->
  donation_body env toString config G req w
  = settle_donation env toString G (req_id req) (req_amount req)
      (default "" (req_donorWallet req)) (default "" (req_txSignature req))
      (hydrate f) balance w'
  /\ funds w' = funds w /\ users w' = users w.
Proof.
  intros Hf (Hdonor & Hsig & Hmin & Hmax & Hst & Hfee)
    (w1 & err & w2 & pk & w3 & Hverify & Hconfirm & Hpk & Hbalance).
  split.
  - unfold donation_body. rewrite Hdonor, Hsig, Hmin, Hmax. cbn [negb orb].
    unfold bind at 1. rewrite Fund_findById_eq, Hf.
    cbn [fmap option_fmap option_map hydrate fields].
    rewrite Hst, Hfee. cbn [FundStatus_eqb].
    unfold bind at 1. rewrite Hverify. cbn [negb].
    unfold bind at 1. rewrite Hconfirm.
    unfold bind at 1. rewrite Hpk.
    unfold bind at 1. rewrite Hbalance. reflexivity.
  - pose proof (frame_verifySolPayment (default "" (req_txSignature req))
                  (default "" (req_donorWallet req)) (fundWalletAddress f)
                  (req_amount req) w) as [Hf1 Hu1].
    rewrite Hverify in Hf1, Hu1. cbn [snd] in Hf1, Hu1.
    pose proof (frame_call (ConfirmTransaction (default "" (req_txSignature req))) w1)
      as [Hf2 Hu2].
    rewrite Hconfirm in Hf2, Hu2. cbn [snd] in Hf2, Hu2.
    pose proof (frame_call (NewPublicKey (fundWalletAddress f)) w2) as [Hf3 Hu3].
    rewrite Hpk in Hf3, Hu3. cbn [snd] in Hf3, Hu3.
    pose proof (frame_getBalance pk w3) as [Hf4 Hu4].
    rewrite Hbalance in Hf4, Hu4. cbn [snd] in Hf4, Hu4.
    split; congruence.
Qed.

(** The settlement up to the test against the target: the total is
    assigned, the donor is recorded, the fund is not yet written. *)
Lemma settle_donation_branches (G : float) (id : string) (amount : float)
    (donor sig : string) (fund : FundDoc) (balance : float) (w : World) :
  let total := Num.Math_max 0 (balance - initialFeePaid (fields fund)) in
  let fund1 := assign (Set_currentDonatedSol total) fund in
  exists w1,
    funds w1 = funds w
    /\ settle_donation env toString G id amount donor sig fund balance w
       = (if Num.geb total (targetSolAmount (fields fund))
          then complete_fund env toString G balance id sig fund1 w1
          else (saved <- Fund_save env fund1 ;; task_data saved sig None) w1).
Proof.
  intros total fund1. unfold settle_donation. fold total. fold fund1.
  unfold bind at 1. rewrite draw_eq.
  match goal with
  | |- context [bind (User_findOneAndUpdate env donor ?d) _ ?w0] =>
      destruct (User_findOneAndUpdate_returns donor d w0) as (u & w1 & Hu & Hfunds)
  end.
  exists w1. split; [exact Hfunds |].
  unfold bind at 1. rewrite Hu.
  unfold fund1 at 1 2. cbn [assign fields].
  rewrite currentDonatedSol_set, targetSolAmount_kept.
  destruct (Num.geb total _); reflexivity.
Qed.

(** The completion branch: it returns a task state whose document keeps
    the running total; it aborts on the balance test, and only then with
    the mismatch message, leaving the fund unwritten; when it sets the
    response the stored record holds the running total. *)
Lemma complete_fund_outcome (G balance : float) (id sig : string) (fund1 : FundDoc)
    (stored : Fund) (w1 : World) :
  funds w1 !! _id (fields fund1) = Some stored ->
  currentDonatedSol (apply_sets (modified fund1) stored) = currentDonatedSol (fields fund1) ->
  let expected := initialFeePaid (fields fund1) + currentDonatedSol (fields fund1) in
  exists t w',
    complete_fund env toString G balance id sig fund1 w1 = (Ok t, w')
    /\ (exists d, fund t = Some d
                  /\ currentDonatedSol (fields d) = currentDonatedSol (fields fund1))
    /\ (is_Some (responseData t) ->
        currentDonatedSol <$> funds w' !! _id (fields fund1)
        = Some (currentDonatedSol (fields fund1)))
    /\ (if PrimFloat.ltb balance (expected - G)
        then errorMessage t = Some (mismatch_message toString balance expected)
             /\ responseData t = None /\ scheduled t = None /\ funds w' = funds w1
        else errorMessage t <> Some (mismatch_message toString balance expected)).
Proof.
  intros Hstored Hsync expected. unfold complete_fund.
  unfold bind at 1. rewrite draw_eq.
  cbn [assign assign_launchStatus fields].
  rewrite !initialFeePaid_kept.
  rewrite !(currentDonatedSol_kept _ _) by discriminate.
  fold expected. fold (mismatch_message toString balance expected).
  destruct (PrimFloat.ltb balance (expected - G)).
  { unfold task_error, ret. eexists _, _. split; [reflexivity |].
    cbn [fund responseData errorMessage scheduled fields].
    split; [eexists; split; [reflexivity |] |].
    - cbn [assign assign_launchStatus fields].
      rewrite !(currentDonatedSol_kept _ _) by discriminate. reflexivity.
    - split; [intros [x Hx]; discriminate |]. auto. }
  destruct (PrimFloat.leb _ 0).
  { unfold task_error, ret. eexists _, _. split; [reflexivity |].
    cbn [fund responseData errorMessage scheduled fields].
    split; [eexists; split; [reflexivity |] |].
    - cbn [assign assign_launchStatus fields].
      rewrite !(currentDonatedSol_kept _ _) by discriminate. reflexivity.
    - split; [intros [x Hx]; discriminate |].
      unfold mismatch_message. intros H. simpl in H. discriminate H. }
  match goal with
  | |- context [bind (Fund_save env ?d) _ ?w0] =>
      destruct (Fund_save_writes d stored w0) as (w2 & Hsave & Hlook & _)
  end.
  { cbn [modified assign assign_launchStatus]. destruct (modified fund1); cbn; discriminate. }
  { cbn [fields funds with_trace assign assign_launchStatus]. rewrite !id_kept. exact Hstored. }
  unfold bind. rewrite Hsave. unfold task_data, ret.
  eexists _, _. split; [reflexivity |].
  cbn [fund responseData errorMessage scheduled fields].
  split; [eexists; split; [reflexivity |] |].
  - cbn [assign assign_launchStatus fields].
    rewrite !(currentDonatedSol_kept _ _) by discriminate. reflexivity.
  - split; [| discriminate]. intros _.
    cbn [fields modified assign assign_launchStatus] in Hlook.
    rewrite !id_kept in Hlook. rewrite Hlook.
    cbn [fmap option_fmap option_map]. f_equal.
    rewrite <- !app_assoc, apply_sets_app. cbn [app apply_sets fold_left].
    rewrite !(currentDonatedSol_kept _ _) by discriminate. exact Hsync.
Qed.

(** The other branch: the fund is saved with the running total. *)
Lemma save_donation_outcome (sig : string) (fund1 : FundDoc) (stored : Fund) (w1 : World) :
  funds w1 !! _id (fields fund1) = Some stored ->
  modified fund1 <> [] ->
  currentDonatedSol (apply_sets (modified fund1) stored) = currentDonatedSol (fields fund1) ->
  exists t w',
    (saved <- Fund_save env fund1 ;; task_data saved sig None) w1 = (Ok t, w')
    /\ (exists d, fund t = Some d
                  /\ currentDonatedSol (fields d) = currentDonatedSol (fields fund1))
    /\ currentDonatedSol <$> funds w' !! _id (fields fund1)
       = Some (currentDonatedSol (fields fund1))
    /\ errorMessage t = None.
Proof.
  intros Hstored Hmod Hsync.
  destruct (Fund_save_writes fund1 stored w1 Hmod Hstored) as (w2 & Hsave & Hlook & _).
  unfold bind. rewrite Hsave. unfold task_data, ret.
  eexists _, _. split; [reflexivity |].
  cbn [fund responseData errorMessage scheduled fields].
  split; [eexists; split; [reflexivity |] |].
  - cbn [fields]. rewrite (currentDonatedSol_kept _ _) by discriminate. reflexivity.
  - split; [| reflexivity]. rewrite Hlook.
    cbn [fmap option_fmap option_map]. f_equal.
    rewrite apply_sets_app. cbn [apply_sets fold_left].
    rewrite (currentDonatedSol_kept _ _) by discriminate. exact Hsync.
Qed.

(** The settlement of a loaded fund: it returns, its document holds
    the total computed from the balance, and so does the stored record
    once the response is set; on the completion branch the balance test
    decides the mismatch abort. *)
Lemma settle_donation_outcome (G : float) (id : string) (amount : float)
    (donor sig : string) (f : Fund) (balance : float) (w : World) :
  funds w !! _id f = Some f ->
  let total := Num.Math_max 0 (balance - initialFeePaid f) in
  let expected := initialFeePaid f + total in
  exists t w',
    settle_donation env toString G id amount donor sig (hydrate f) balance w = (Ok t, w')
    /\ (exists d, fund t = Some d /\ currentDonatedSol (fields d) = total)
    /\ (is_Some (responseData t) -> currentDonatedSol <$> funds w' !! _id f = Some total)
    /\ (Num.geb total (targetSolAmount f) = true ->
        if PrimFloat.ltb balance (expected - G)
        then errorMessage t = Some (mismatch_message toString balance expected)
             /\ responseData t = None /\ scheduled t = None /\ funds w' = funds w
        else errorMessage t <> Some (mismatch_message toString balance expected)).
Proof.
  intros Hstored total expected.
  destruct (settle_donation_branches G id amount donor sig (hydrate f) balance w)
    as (w1 & Hfunds & Hsettle).
  rewrite Hsettle. cbn [hydrate fields]. fold total.
  set (fund1 := assign (Set_currentDonatedSol total) (hydrate f)).
  assert (Hid : _id (fields fund1) = _id f) by (unfold fund1; cbn; apply id_kept).
  assert (Hcur : currentDonatedSol (fields fund1) = total)
    by (unfold fund1; cbn; apply currentDonatedSol_set).
  assert (Hfee : initialFeePaid (fields fund1) = initialFeePaid f)
    by (unfold fund1; cbn; apply initialFeePaid_kept).
  assert (Hsync : currentDonatedSol (apply_sets (modified fund1) f)
                  = currentDonatedSol (fields fund1))
    by (unfold fund1; cbn; rewrite !currentDonatedSol_set; reflexivity).
  assert (Hstored1 : funds w1 !! _id (fields fund1) = Some f)
    by (rewrite Hid, Hfunds; exact Hstored).
  destruct (Num.geb total (targetSolAmount f)) eqn:Hreached.
  - destruct (complete_fund_outcome G balance id sig fund1 f w1 Hstored1 Hsync)
      as (t & w' & Hrun & Hdoc & Hsaved & Htest).
    rewrite Hid, Hcur in *. rewrite Hfee in Htest. fold expected in Htest.
    exists t, w'. repeat split; try assumption.
    intros _. destruct (PrimFloat.ltb balance (expected - G)); [| exact Htest].
    destruct Htest as (He & Hr & Hs & Hw). repeat split; congruence.
  - destruct (save_donation_outcome sig fund1 f w1 Hstored1) as (t & w' & Hrun & Hdoc & Hsaved & _).
    { unfold fund1. apply assign_modified. }
    { exact Hsync. }
    rewrite Hid, Hcur in *.
    exists t, w'. repeat split; try assumption; try discriminate.
    intros _. exact Hsaved.
Qed.

(** C2. For every admitted donation whose payment verifies, the task
    returns with the fund's running total set to
    [max(0, balance - initialFeePaid)], [balance] being the balance read
    from the ledger after the verification; the stored record holds that
    value once the response is set.  Neither the previous total nor the
    donated amount enters it. *)
Theorem C2_running_total_is_balance_minus_fee (G : float) (req : DonateRequest)
    (w w0 : World) (f : Fund) (balance : float) :
  funds w !! req_id req = Some f ->
  _id f = req_id req ->
  admitted config req f ->
  verified_then_read env toString req f w balance w0 ->
  let total := Num.Math_max 0 (balance - initialFeePaid f) in
  exists t w',
    donation_body env toString config G req w = (Ok t, w')
    /\ (exists d, fund t = Some d /\ currentDonatedSol (fields d) = total)
    /\ (is_Some (responseData t) ->
        currentDonatedSol <$> funds w' !! req_id req = Some total).
Proof.
  intros Hf Hid Hadmitted Hread total.
  destruct (donation_body_settles G req w w0 f balance Hf Hadmitted Hread)
    as (Hbody & Hfunds & _).
  rewrite Hbody.
  destruct (settle_donation_outcome G (req_id req) (req_amount req)
              (default "" (req_donorWallet req)) (default "" (req_txSignature req))
              f balance w0) as (t & w' & Hrun & Hdoc & Hsaved & _).
  { rewrite Hid, Hfunds. exact Hf. }
  exists t, w'. rewrite Hid in Hsaved. split; [exact Hrun | split; assumption].
Qed.


(** ** The payment verifier *)

Lemma verify_attempt_result sig sender receiver amount required last (w : World) :
  match fst (verify_attempt env toString sig sender receiver amount required last w) with
  | Ok (Some b) => b = true
  | _ => True
  end.
Proof.
  unfold verify_attempt, bind.
  destruct (withRetry _ w) as [[[tx |] | e] w1]; simpl; trivial.
  - destruct (Num.strict_eq (slot tx) 0); [destruct last; simpl; trivial |].
    destruct (find _ _) as [[| p] |]; simpl; trivial.
    destruct (PrimFloat.ltb (lamports p) required); simpl; trivial.
  - destruct last; simpl; trivial.
Qed.

Lemma verify_from_result sig sender receiver amount required (left : nat) (w : World) :
  true_or_throws (fst (verify_from env toString sig sender receiver amount required left w)).
Proof.
  revert w. induction left as [| left IH]; intros w; simpl; [exact I |].
  unfold bind, try_catch.
  pose proof (verify_attempt_result sig sender receiver amount required (Nat.eqb left 0) w) as H.
  destruct (verify_attempt _ _ _ _ _ _ _ _ w) as [[[b |] | e] w1]; simpl in *.
  - exact H.
  - apply IH.
  - destruct (Nat.eqb left 0); simpl; [exact I | apply IH].
Qed.

Lemma bind_true_or_throws {A} (m : M A) (k : A -> M bool) (w : World) :
  (forall a w1, true_or_throws (fst (k a w1))) ->
  true_or_throws (fst (bind m k w)).
Proof.
  intros Hk. unfold bind. destruct (m w) as [[a | e] w1]; [apply Hk | exact I].
Qed.

Lemma withRetry_returns {A} (c : ext A) (a : A) (w : World) :
  answer env A (length (trace w)) c = Ok a ->
  withRetry (call env c) w = (Ok a, with_trace (trace w ++ [Called c]) w).
Proof.
  intros H. unfold withRetry. cbn [withRetry_from]. unfold try_catch, call. rewrite H.
  reflexivity.
Qed.

Lemma verify_attempt_throws sig sender receiver amount (tx : ParsedTx) (last : bool)
    (w : World) :
  answer env _ (length (trace w)) (GetParsedTransaction sig) = Ok (Some tx) ->
  logically_fails sender receiver (Num.Math_floor (amount * Num.LAMPORTS_PER_SOL)) tx ->
  fst (verify_attempt env toString sig sender receiver amount
         (Num.Math_floor (amount * Num.LAMPORTS_PER_SOL)) last w)
  = Throw (Error (failure_message toString sender receiver amount tx)).
Proof.
  intros Hfound [Hslot Hfails]. unfold verify_attempt, failure_message.
  unfold bind. rewrite (withRetry_returns _ _ _ Hfound). rewrite Hslot.
  destruct (find _ _) as [[| p] |]; try reflexivity.
  rewrite Hfails. reflexivity.
Qed.

Lemma verify_from_throws sig sender receiver amount (tx : ParsedTx) (left : nat) (w : World) :
  (forall n, answer env _ n (GetParsedTransaction sig) = Ok (Some tx)) ->
  logically_fails sender receiver (Num.Math_floor (amount * Num.LAMPORTS_PER_SOL)) tx ->
  fst (verify_from env toString sig sender receiver amount
         (Num.Math_floor (amount * Num.LAMPORTS_PER_SOL)) (S left) w)
  = Throw (Error (failure_message toString sender receiver amount tx)).
Proof.
  intros Hfound Hfails. revert w. induction left as [| left IH]; intros w.
  - cbn [verify_from]. unfold bind, try_catch.
    pose proof (verify_attempt_throws sig sender receiver amount tx (Nat.eqb 0 0) w
                  (Hfound _) Hfails) as H.
    destruct (verify_attempt _ _ _ _ _ _ _ _ w) as [[r | e] w1]; cbn [fst] in H;
      [discriminate |].
    injection H as ->. reflexivity.
  - remember (S left) as k eqn:Hk. cbn [verify_from]. unfold bind, try_catch.
    pose proof (verify_attempt_throws sig sender receiver amount tx (Nat.eqb k 0) w
                  (Hfound _) Hfails) as H.
    destruct (verify_attempt _ _ _ _ _ _ _ _ w) as [[r | e] w1]; cbn [fst] in H;
      [discriminate |].
    subst k. cbn [Nat.eqb]. unfold ret. apply IH.
Qed.

Lemma with_trace_with_trace (t t' : list event) (w : World) :
  with_trace t (with_trace t' w) = with_trace t w.
Proof. reflexivity. Qed.

(** One attempt on a transaction that does not verify: one lookup, and
    the Error that names the failure. *)
Lemma verify_attempt_fails sig sender receiver amount (tx : ParsedTx) (last : bool)
    (w : World) :
  answer env _ (length (trace w)) (GetParsedTransaction sig) = Ok (Some tx) ->
  logically_fails sender receiver (Num.Math_floor (amount * Num.LAMPORTS_PER_SOL)) tx ->
  verify_attempt env toString sig sender receiver amount
    (Num.Math_floor (amount * Num.LAMPORTS_PER_SOL)) last w
  = (Throw (Error (failure_message toString sender receiver amount tx)),
     with_trace (trace w ++ [Called (GetParsedTransaction sig)]) w).
Proof.
  intros Hfound [Hslot Hfails]. unfold verify_attempt, failure_message.
  unfold bind. rewrite (withRetry_returns _ _ _ Hfound). rewrite Hslot.
  destruct (find _ _) as [[| p] |]; try reflexivity.
  rewrite Hfails. reflexivity.
Qed.

(** The loop on transactions that do not verify: every attempt but the
    last is caught and followed by another, and the last one throws. *)
Lemma verify_from_fails sig sender receiver amount (left : nat) :
  forall (txs : nat -> ParsedTx) (w : World),
    (forall i, (i < S left)%nat ->
               answer env _ (length (trace w) + i) (GetParsedTransaction sig)
               = Ok (Some (txs i))) ->
    (forall i, (i < S left)%nat ->
               logically_fails sender receiver
                 (Num.Math_floor (amount * Num.LAMPORTS_PER_SOL)) (txs i)) ->
    verify_from env toString sig sender receiver amount
      (Num.Math_floor (amount * Num.LAMPORTS_PER_SOL)) (S left) w
    = (Throw (Error (failure_message toString sender receiver amount (txs left))),
       with_trace (trace w ++ repeat (Called (GetParsedTransaction sig)) (S left)) w).
Proof.
  induction left as [| left IH]; intros txs w Hfound Hfails.
  - cbn [verify_from]. unfold bind, try_catch.
    rewrite (verify_attempt_fails sig sender receiver amount (txs 0%nat)).
    + reflexivity.
    + rewrite <- (Nat.add_0_r (length (trace w))). apply Hfound. lia.
    + apply Hfails. lia.
  - remember (S left) as k eqn:Hk. cbn [verify_from]. unfold bind at 1. unfold try_catch.
    rewrite (verify_attempt_fails sig sender receiver amount (txs 0%nat)).
    + subst k. cbn [Nat.eqb]. unfold ret.
      rewrite (IH (fun i => txs (S i))).
      * rewrite with_trace_with_trace. cbn [trace with_trace].
        rewrite <- app_assoc. reflexivity.
      * intros i Hi. cbn [trace with_trace]. rewrite length_app. cbn [length].
        replace (length (trace w) + 1 + i)%nat with (length (trace w) + S i)%nat by lia.
        apply Hfound. lia.
      * intros i Hi. apply Hfails. lia.
    + rewrite <- (Nat.add_0_r (length (trace w))). apply Hfound. lia.
    + apply Hfails. lia.
Qed.

(** C8 (amended). The verifier never returns false: every run returns
    true or throws.  When each of the ten lookups finds a transaction
    that holds no matching system transfer, or too few lamports, every
    attempt throws the Error that names its failure inside its [try];
    the first nine are caught and followed by another lookup, like an
    infrastructure error, and the tenth is thrown on: the run makes
    exactly ten lookups and throws the Error of the tenth. *)
Theorem C8_verifier_returns_true_or_throws (sig sender receiver : string) (amount : float)
    (w : World) :
  true_or_throws (fst (verifySolPayment env toString sig sender receiver amount w))
  /\ forall (s r : string) (txs : nat -> ParsedTx),
       answer env _ (length (trace w)) (NewPublicKey sender) = Ok s ->
       answer env _ (S (length (trace w))) (NewPublicKey receiver) = Ok r ->
       (forall i, (i < 10)%nat ->
                  answer env _ (length (trace w) + 2 + i) (GetParsedTransaction sig)
                  = Ok (Some (txs i))) ->
       (forall i, (i < 10)%nat ->
                  logically_fails s r (Num.Math_floor (amount * Num.LAMPORTS_PER_SOL))
                    (txs i)) ->
       verifySolPayment env toString sig sender receiver amount w
       = (Throw (Error (failure_message toString s r amount (txs 9%nat))),
          with_trace (trace w
                      ++ [Called (NewPublicKey sender); Called (NewPublicKey receiver)]
                      ++ repeat (Called (GetParsedTransaction sig)) 10) w).
Proof.
  split.
  - unfold verifySolPayment.
    apply bind_true_or_throws. intros s w1.
    apply bind_true_or_throws. intros r w2.
    apply verify_from_result.
  - intros s r txs Hs Hr Hfound Hfails. unfold verifySolPayment.
    unfold bind at 1. unfold call at 1. rewrite Hs.
    unfold bind at 1. unfold call at 1. cbn [trace with_trace].
    rewrite length_app, Nat.add_1_r, Hr.
    rewrite (verify_from_fails sig s r amount 9 txs).
    + rewrite !with_trace_with_trace. cbn [trace with_trace].
      rewrite <- !app_assoc. reflexivity.
    + intros i Hi. cbn [trace with_trace]. rewrite !length_app. cbn [length].
      replace (length (trace w) + 1 + 1 + i)%nat with (length (trace w) + 2 + i)%nat by lia.
      apply Hfound. exact Hi.
    + exact Hfails.
Qed.

(** ** The launch *)

Lemma quiet_ret {A} (a : A) : quiet (ret a).
Proof. intros w. reflexivity. Qed.

Lemma quiet_throw {A} (e : exn) : quiet (@throw A e).
Proof. intros w. reflexivity. Qed.

Lemma quiet_bind {A B} (m : M A) (k : A -> M B) :
  quiet m -> (forall a, quiet (k a)) -> quiet (bind m k).
Proof.
  intros Hm Hk w. unfold bind. specialize (Hm w).
  destruct (m w) as [[a | e] w1]; cbn [snd] in *; [| exact Hm].
  rewrite (Hk a w1). exact Hm.
Qed.

Lemma quiet_try_catch {A} (m : M A) (h : exn -> M A) :
  quiet m -> (forall e, quiet (h e)) -> quiet (try_catch m h).
Proof.
  intros Hm Hh w. unfold try_catch. specialize (Hm w).
  destruct (m w) as [[a | e] w1]; cbn [snd] in *; [exact Hm |].
  rewrite (Hh e w1). exact Hm.
Qed.

Lemma quiet_GetBalance (pk : string) : quiet (call env (GetBalance pk)).
Proof.
  intros w. unfold call, submitted. cbn [snd trace with_trace].
  rewrite omap_app. cbn. apply app_nil_r.
Qed.

Lemma quiet_withRetry {A} (fn : M A) : quiet fn -> quiet (withRetry fn).
Proof.
  intros Hfn. unfold withRetry. generalize 5%nat. intros left.
  induction left as [| left IH]; simpl.
  - apply quiet_try_catch; [assumption | intros e; apply quiet_throw].
  - apply quiet_try_catch; [assumption |].
    intros e. destruct (message_includes _ e); [exact IH | apply quiet_throw].
Qed.

Lemma quiet_getBalance (pk : string) : quiet (getBalance env pk).
Proof.
  unfold getBalance. apply quiet_bind.
  - apply quiet_withRetry, quiet_GetBalance.
  - intros b. apply quiet_ret.
Qed.

Lemma quiet_calculateSolForPump (donated fee target : float) :
  quiet (calculateSolForPump toString donated fee target).
Proof.
  unfold calculateSolForPump.
  destruct (_ || _); [apply quiet_throw |].
  destruct (PrimFloat.ltb _ 0); [apply quiet_throw | apply quiet_ret].
Qed.

(** With the flag set, the guarded transfer returns at once. *)
Lemma fundPumpWallet_completed (fundWallet pumpWalletKeypair : Keypair) (fund : FundDoc)
    (pumpBalance fundBalance total fee : float) (w : World) :
  pumpPortalTransferCompleted (fields fund) = true ->
  fundPumpWallet env toString fundWallet pumpWalletKeypair fund pumpBalance fundBalance
    total fee w = (Ok fund, w).
Proof. intros Hdone. unfold fundPumpWallet. rewrite Hdone. reflexivity. Qed.

(** C6. With [pumpPortalTransferCompleted] already true, the guarded
    transfer calls nothing and returns the document as it is, whatever
    the balances; step 1 as a whole, which reads the balances first,
    submits no transaction to the ledger and hands the same document on,
    flag still set; run twice in a row it submits none either. *)
Theorem C6_funding_step_skipped_when_completed (fundWallet pumpWalletKeypair : Keypair)
    (fund : FundDoc) (initialFeePaid targetSol totalSolToTransfer : float) (w : World) :
  pumpPortalTransferCompleted (fields fund) = true ->
  let step1 := fun d => transferToPumpWallet env toString fundWallet pumpWalletKeypair d
                          initialFeePaid targetSol totalSolToTransfer in
  (forall pumpBalance fundBalance total fee,
      fundPumpWallet env toString fundWallet pumpWalletKeypair fund pumpBalance fundBalance
        total fee w = (Ok fund, w))
  /\ submitted (trace (snd (step1 fund w))) = submitted (trace w)
  /\ (forall r, fst (step1 fund w) = Ok r -> fst r = fund)
  /\ submitted (trace (snd ((r <- step1 fund ;; step1 (fst r)) w))) = submitted (trace w).
Proof.
  intros Hdone step1.
  assert (Hquiet : quiet (step1 fund)).
  { unfold step1, transferToPumpWallet.
    apply quiet_bind; [apply quiet_getBalance |]. intros pumpBalance.
    apply quiet_bind; [apply quiet_getBalance |]. intros fundBalance.
    apply quiet_bind; [apply quiet_calculateSolForPump |]. intros sols.
    apply quiet_bind; [| intros d; apply quiet_ret].
    intros w1. rewrite fundPumpWallet_completed by assumption. reflexivity. }
  assert (Hsame : forall w1 r, fst (step1 fund w1) = Ok r -> fst r = fund).
  { intros w1 r. unfold step1, transferToPumpWallet, bind.
    destruct (getBalance env _ w1) as [[pumpBalance | e] w2]; [| discriminate].
    destruct (getBalance env _ w2) as [[fundBalance | e] w3]; [| discriminate].
    destruct (calculateSolForPump _ _ _ _ w3) as [[sols | e] w4]; [| discriminate].
    rewrite fundPumpWallet_completed by assumption.
    unfold ret. cbn [fst]. intros H. injection H as <-. reflexivity. }
  split; [intros; apply fundPumpWallet_completed; assumption |].
  split; [apply Hquiet |]. split; [apply Hsame |].
  unfold bind. pose proof (Hquiet w) as Hfirst. pose proof (Hsame w) as Hdoc.
  destruct (step1 fund w) as [[r | e] w1]; cbn [fst snd] in *; [| exact Hfirst].
  rewrite (Hdoc r eq_refl). rewrite (Hquiet w1). exact Hfirst.
Qed.

(** A request is accepted when the checks pass and the stored key
    decodes to the fund wallet. *)
Lemma launch_handler_accepts (req : LaunchRequest) (w : World) (f : Fund) (kp : Keypair) :
  launchable req w f ->
  answer env Keypair (length (trace w)) (KeypairFromSecretKey (fundPrivateKey f)) = Ok kp ->
  publicKey kp = fundWalletAddress f ->
  exists w',
    launch_handler env req w
    = (Ok (launch_accepted,
           Some (ManualLaunch (lreq_id req) kp
                   (currentDonatedSol f + (initialFeePaid f - initialFeePaid f * 0.3)))), w')
    /\ funds w' = funds w /\ users w' = users w.
Proof.
  intros (Hwallet & Hf & (creator & Hcreator & Hsame) & Hst & Hta & Him & Hkey) Hkp Hpk.
  unfold launch_handler. rewrite Hwallet. cbn [negb].
  unfold bind at 1. rewrite Fund_findById_eq, Hf.
  cbn [fmap option_fmap option_map hydrate fields].
  unfold bind at 1. unfold get at 1. rewrite Hcreator, Hsame, Hst, Hta, Him, Hkey.
  cbn [negb FundStatus_eqb].
  unfold try_catch, bind, call, ret. rewrite Hkp, Hpk, String.eqb_refl. cbn [negb].
  unfold Fund_save, assign_launchStatus; cbn [modified hydrate ret].
  eexists. split; [reflexivity |]. split; reflexivity.
Qed.

(** A request that was accepted had passed the checks. *)
Lemma launch_handler_accepted (req : LaunchRequest) (w w' : World) (r : Reply) (j : Job) :
  launch_handler env req w = (Ok (r, Some j), w') ->
  exists (f : Fund) (kp : Keypair),
    launchable req w f
    /\ publicKey kp = fundWalletAddress f
    /\ j = ManualLaunch (lreq_id req) kp
             (currentDonatedSol f + (initialFeePaid f - initialFeePaid f * 0.3))
    /\ r = launch_accepted
    /\ funds w' = funds w /\ users w' = users w.
Proof.
  unfold launch_handler, launchable.
  destruct (truthy_str (lreq_userWallet req)) eqn:Hwallet; cbn [negb]; [| discriminate].
  unfold bind at 1. rewrite Fund_findById_eq.
  destruct (funds w !! lreq_id req) as [f |] eqn:Hf;
    [| destruct (casts env (lreq_id req)); discriminate].
  cbn [hydrate fields]. unfold bind at 1. unfold get at 1.
  destruct (User_findById (userId f) (users w)) as [creator |] eqn:Hcreator; [| discriminate].
  destruct (String.eqb (walletAddress creator) _) eqn:Hsame; cbn [negb]; [| discriminate].
  destruct (status f) eqn:Hst; cbn [FundStatus_eqb negb]; [discriminate |].
  destruct (truthy_str (tokenAddress f)) eqn:Hta; [discriminate |].
  destruct (truthy_str (image f)) eqn:Him; cbn [negb]; [| discriminate].
  destruct (truthy_str (Some (fundPrivateKey f))) eqn:Hkey; cbn [negb]; [| discriminate].
  unfold try_catch, bind, call, ret.
  destruct (answer env Keypair _ _) as [kp | e]; [| discriminate].
  destruct (String.eqb (publicKey kp) (fundWalletAddress f)) eqn:Hpk; cbn [negb];
    [| discriminate].
  unfold Fund_save, assign_launchStatus; cbn [modified hydrate ret].
  intros H. injection H as Hr Hj Hw. subst r j w'.
  exists f, kp. apply String.eqb_eq in Hpk.
  repeat split; eauto.
Qed.

(** C7. The launch operation starts an attempt only after checking, on
    the stored record, that the campaign is completed and that
    [tokenAddress] is unset (with the caller its creator, an image
    present and a key that decodes to the fund wallet).  It then
    assigns [launchStatus = "pending"] and saves the document, to mark
    the attempt, but the schema of the fund holds no such path: nothing
    is written to either collection and the fund found afterwards has
    no [launchStatus].  No check reads it either, so the same checks
    pass afterwards and a request made while the attempt runs is
    accepted again: the second attempt is not prevented. *)
Theorem C7_launch_checks_completion_and_token_address (req : LaunchRequest)
    (w w' : World) (r : Reply) (j : Job) :
  launch_handler env req w = (Ok (r, Some j), w') ->
  exists (f : Fund) (fundWallet : Keypair),
    launchable req w f
    /\ publicKey fundWallet = fundWalletAddress f
    /\ j = ManualLaunch (lreq_id req) fundWallet
             (currentDonatedSol f + (initialFeePaid f - initialFeePaid f * 0.3))
    /\ r = launch_accepted
    /\ funds w' = funds w /\ users w' = users w
    /\ found_launchStatus env (lreq_id req) w' = Some None
    /\ launchable req w' f
    /\ forall again : Keypair,
         answer env Keypair (length (trace w')) (KeypairFromSecretKey (fundPrivateKey f))
         = Ok again ->
         publicKey again = fundWalletAddress f ->
         exists w'',
           launch_handler env req w'
           = (Ok (launch_accepted,
                  Some (ManualLaunch (lreq_id req) again
                          (currentDonatedSol f
                           + (initialFeePaid f - initialFeePaid f * 0.3)))), w'').
Proof.
  intros Hrun.
  destruct (launch_handler_accepted req w w' r j Hrun)
    as (f & kp & Hchecks & Hpk & Hj & Hr & Hfunds & Husers).
  assert (Hchecks' : launchable req w' f).
  { unfold launchable in *. rewrite Hfunds, Husers. exact Hchecks. }
  assert (Hstatus : found_launchStatus env (lreq_id req) w' = Some None).
  { destruct Hchecks' as (_ & Hstored & _). unfold found_launchStatus.
    rewrite Fund_findById_eq, Hstored. reflexivity. }
  exists f, kp. repeat (split; [assumption |]).
  intros again Hagain Hpk'.
  destruct (launch_handler_accepts req w' f again Hchecks' Hagain Hpk') as (w'' & H & _).
  exists w''. exact H.
Qed.

(** ** What a launch leaves in the collection *)

Lemma frame_confirmTransaction (sig : string) (lastValid : option float) :
  frame (confirmTransaction env sig lastValid).
Proof.
  unfold confirmTransaction. generalize 3%nat. intros left.
  induction left as [| left IH]; cbn [confirmTransaction_from]; [auto with frame |].
  apply frame_try_catch.
  - unfold confirm_attempt. apply frame_bind.
    + apply frame_withRetry. apply frame_bind; [auto with frame |]. intros _.
      apply frame_bind; [| auto with frame].
      destruct (truthy_height lastValid); auto with frame.
    + intros [err |]; auto with frame.
  - intros e. destruct (_ && _); auto with frame.
Qed.

Lemma frame_transferSol (fromWallet : Keypair) (to : string) (amount : float) (fee : bool) :
  frame (transferSol env fromWallet to amount fee).
Proof.
  unfold transferSol. apply frame_bind; [auto with frame |]. intros bh.
  apply frame_bind; [auto with frame |]. intros sig.
  apply frame_bind; [apply frame_confirmTransaction | auto with frame].
Qed.

Lemma frame_waitWithRetries {T} (action : M T) (condition : T -> bool) (msg : string) :
  frame action -> frame (waitWithRetries action condition msg).
Proof.
  intros Haction. unfold waitWithRetries. generalize 8%nat. intros left.
  induction left as [| left IH]; cbn [waitWithRetries_from]; [auto with frame |].
  apply frame_bind.
  - apply frame_try_catch.
    + apply frame_bind; [assumption |]. intros r. destruct (condition r); auto with frame.
    + intros e. destruct (Nat.eqb left 0); auto with frame.
  - intros [r |]; auto with frame.
Qed.

Lemma frame_fetchWithRetry {B} (request : ext (Response B)) :
  frame (fetchWithRetry env request).
Proof.
  unfold fetchWithRetry. generalize 3%nat. intros left.
  induction left as [| left IH]; cbn [fetchWithRetry_from]; [auto with frame |].
  apply frame_bind.
  - apply frame_try_catch.
    + apply frame_bind; [auto with frame |]. intros r.
      destruct (Nat.eqb _ 429); [auto with frame |].
      destruct (negb _); auto with frame.
    + intros e. destruct (Nat.eqb left 0); auto with frame.
  - intros [r |]; auto with frame.
Qed.

Lemma frame_read_json {B} (response : Response B) : frame (read_json response).
Proof. unfold read_json. destruct (http_json response); auto with frame. Qed.

Lemma frame_calculateSolForPump (donated fee target : float) :
  frame (calculateSolForPump toString donated fee target).
Proof.
  unfold calculateSolForPump.
  destruct (_ || _); [auto with frame |].
  destruct (PrimFloat.ltb _ 0); auto with frame.
Qed.

Hint Resolve frame_confirmTransaction frame_transferSol frame_waitWithRetries
  frame_fetchWithRetry frame_read_json frame_calculateSolForPump : frame.

Lemma frame_issueAndDistribute (pump : Keypair) (apiKey : string) (md : MetadataResponse)
    (solForCreation targetPercentage : float) (symbol targetWallet : string) :
  frame (issueAndDistribute env toString config pump apiKey md solForCreation
           targetPercentage symbol targetWallet).
Proof.
  unfold issueAndDistribute.
  repeat first
    [ apply frame_bind; [auto with frame |]; intros ?
    | apply frame_if
    | progress auto with frame ].
  match goal with
  | |- frame (match ?x with _ => _ end) => destruct x
  end; [| auto with frame].
  repeat first
    [ apply frame_bind; [auto with frame |]; intros ?
    | apply frame_if
    | progress auto with frame ].
Qed.

Lemma launch_fields_kept_refl (w : World) : launch_fields_kept w w.
Proof. intros id f Hf. exists f. auto. Qed.

Lemma launch_fields_kept_trans (w1 w2 w3 : World) :
  launch_fields_kept w1 w2 -> launch_fields_kept w2 w3 -> launch_fields_kept w1 w3.
Proof.
  intros H12 H23 id f Hf.
  destruct (H12 id f Hf) as (f2 & Hf2 & Hid2 & Hta2 & Hle2).
  destruct (H23 id f2 Hf2) as (f3 & Hf3 & Hid3 & Hta3 & Hle3).
  exists f3. repeat split; congruence.
Qed.

Lemma frame_keeps {A} (m : M A) : frame m -> keeps m.
Proof.
  intros Hm w id f Hf. destruct (Hm w) as [Hfunds _].
  exists f. rewrite Hfunds. auto.
Qed.

Lemma keeps_bind {A B} (m : M A) (k : A -> M B) (Q : A -> Prop) :
  keeps m -> returns m Q -> (forall a, Q a -> keeps (k a)) -> keeps (bind m k).
Proof.
  intros Hm HQ Hk w. unfold bind. specialize (Hm w). specialize (HQ w).
  destruct (m w) as [[a | e] w1]; cbn [fst snd] in *; [| exact Hm].
  eapply launch_fields_kept_trans; [exact Hm |]. apply Hk. apply HQ. reflexivity.
Qed.

Lemma keeps_try_catch {A} (m : M A) (h : exn -> M A) :
  keeps m -> (forall e, keeps (h e)) -> keeps (try_catch m h).
Proof.
  intros Hm Hh w. unfold try_catch. specialize (Hm w).
  destruct (m w) as [[a | e] w1]; cbn [snd] in *; [exact Hm |].
  eapply launch_fields_kept_trans; [exact Hm | apply Hh].
Qed.

Lemma returns_any {A} (m : M A) : returns m (fun _ => True).
Proof. intros w a _. exact I. Qed.

Lemma harmless_kept (ps : list FundSet) (f : Fund) :
  Forall harmless ps ->
  _id (apply_sets ps f) = _id f
  /\ tokenAddress (apply_sets ps f) = tokenAddress f
  /\ launchError (apply_sets ps f) = launchError f.
Proof.
  intros Hps. revert f. induction Hps as [| p ps Hp _ IH]; intros f; [auto |].
  unfold apply_sets in *. cbn [fold_left].
  destruct (IH (apply_set p f)) as (Hid & Hta & Hle).
  rewrite Hid, Hta, Hle. destruct f, p; cbn in Hp; try contradiction; auto.
Qed.

(** [save] keeps them when the document was assigned harmless paths
    only, and the document it returns has no assigned path left. *)
Lemma Fund_save_keeps (d : FundDoc) :
  Forall harmless (modified d) ->
  keeps (Fund_save env d) /\ returns (Fund_save env d) (fun d' => modified d' = []).
Proof.
  intros Hd. unfold Fund_save. destruct (modified d) as [| p ps] eqn:Hmod.
  - split; [apply frame_keeps; auto with frame |].
    intros w a H. injection H as <-. exact Hmod.
  - split.
    + intros w id f Hf. unfold bind at 1. rewrite draw_eq.
      unfold bind at 1. unfold get at 1. cbn [funds with_trace].
      destruct (funds w !! _id (fields d)) as [st |] eqn:Hst.
      * unfold bind, modify, ret. cbn [snd funds with_funds with_trace].
        destruct (decide (_id (fields d) = id)) as [-> | Hne].
        -- rewrite lookup_alter_eq, Hf. cbn [fmap option_fmap option_map].
           eexists. split; [reflexivity |]. apply harmless_kept.
           apply Forall_app. split; [exact Hd | repeat constructor].
        -- rewrite lookup_alter_ne by assumption. exists f. auto.
      * unfold throw. cbn [snd funds with_trace]. exists f. auto.
    + intros w a. unfold bind at 1. rewrite draw_eq.
      unfold bind at 1. unfold get at 1. cbn [funds with_trace].
      destruct (funds w !! _id (fields d)); [| discriminate].
      unfold bind, modify, ret. cbn [fst]. intros H. injection H as <-. reflexivity.
Qed.

Lemma returns_bind {A B} (m : M A) (k : A -> M B) (Q : B -> Prop) :
  (forall a, returns (k a) Q) -> returns (bind m k) Q.
Proof.
  intros Hk w b. unfold bind. destruct (m w) as [[a | e] w1]; [apply Hk | discriminate].
Qed.

Lemma returns_ret {A} (a : A) (Q : A -> Prop) : Q a -> returns (ret a) Q.
Proof. intros Ha w b H. injection H as <-. exact Ha. Qed.

Lemma returns_throw {A} (e : exn) (Q : A -> Prop) : returns (throw e) Q.
Proof. intros w b H. discriminate H. Qed.

Lemma acquirePumpWallet_keeps (fund : FundDoc) :
  modified fund = [] ->
  keeps (acquirePumpWallet env fund)
  /\ returns (acquirePumpWallet env fund) (fun x => modified (fst (fst x)) = []).
Proof.
  intros Hfund. unfold acquirePumpWallet.
  assert (Hsaved : forall a b c,
             Forall harmless
               (modified (assign (Set_pumpPortalApiKey a)
                            (assign (Set_pumpPortalPrivateKey b)
                               (assign (Set_pumpPortalWalletPublicKey c) fund))))).
  { intros a b c. cbn [assign modified]. rewrite Hfund. repeat constructor. }
  destruct (negb _).
  - split.
    + apply (keeps_bind _ _ (fun _ => True)); [apply frame_keeps; auto with frame
                                               | apply returns_any |].
      intros response _.
      apply (keeps_bind _ _ (fun _ => True)); [apply frame_keeps; auto with frame
                                               | apply returns_any |].
      intros walletData _.
      apply (keeps_bind _ _ (fun _ => True)); [apply frame_keeps; auto with frame
                                               | apply returns_any |].
      intros kp _.
      apply (keeps_bind _ _ (fun _ => True));
        [apply Fund_save_keeps, Hsaved | apply returns_any |].
      intros d _. apply frame_keeps; auto with frame.
    + apply returns_bind. intros response.
      apply returns_bind. intros walletData.
      apply returns_bind. intros kp.
      intros w x. unfold bind.
      match goal with
      | |- context [Fund_save env ?d w] =>
          pose proof (proj2 (Fund_save_keeps d (Hsaved _ _ _)) w) as Hreturns;
          destruct (Fund_save env d w) as [[d' | e] w1]; [| discriminate]
      end.
      unfold ret. cbn [fst]. intros H. injection H as <-. cbn [fst].
      apply Hreturns. reflexivity.
  - split.
    + apply (keeps_bind _ _ (fun _ => True)); [apply frame_keeps; auto with frame
                                               | apply returns_any |].
      intros kp _. apply frame_keeps; auto with frame.
    + apply returns_bind. intros kp. apply returns_ret. exact Hfund.
Qed.

Lemma fundPumpWallet_keeps (fundWallet pump : Keypair) (fund : FundDoc)
    (pumpBalance fundBalance total fee : float) :
  modified fund = [] ->
  keeps (fundPumpWallet env toString fundWallet pump fund pumpBalance fundBalance total fee).
Proof.
  intros Hfund. unfold fundPumpWallet.
  destruct (_ && _); [| apply frame_keeps; auto with frame].
  destruct (_ || _); [apply frame_keeps; auto with frame |].
  apply (keeps_bind _ _ (fun _ => True)); [apply frame_keeps; auto with frame
                                           | apply returns_any |].
  intros sig _.
  apply (keeps_bind _ _ (fun _ => True)); [apply frame_keeps; auto with frame
                                           | apply returns_any |].
  intros _ _.
  apply (keeps_bind _ _ (fun _ => True)); [apply frame_keeps; auto with frame
                                           | apply returns_any |].
  intros _ _.
  apply Fund_save_keeps. cbn [assign modified]. rewrite Hfund. repeat constructor.
Qed.

Lemma transferToPumpWallet_keeps (fundWallet pump : Keypair) (fund : FundDoc)
    (fee target total : float) :
  modified fund = [] ->
  keeps (transferToPumpWallet env toString fundWallet pump fund fee target total).
Proof.
  intros Hfund. unfold transferToPumpWallet.
  apply (keeps_bind _ _ (fun _ => True)); [apply frame_keeps; auto with frame
                                           | apply returns_any |].
  intros pumpBalance _.
  apply (keeps_bind _ _ (fun _ => True)); [apply frame_keeps; auto with frame
                                           | apply returns_any |].
  intros fundBalance _.
  apply (keeps_bind _ _ (fun _ => True)); [apply frame_keeps; auto with frame
                                           | apply returns_any |].
  intros sols _.
  apply (keeps_bind _ _ (fun _ => True)); [apply fundPumpWallet_keeps; assumption
                                           | apply returns_any |].
  intros d _. apply frame_keeps; auto with frame.
Qed.

(** The orchestrator writes neither [tokenAddress] nor [launchError]. *)
Lemma createAndLaunchTokenWithLightning_keeps (fundWallet : Keypair)
    (tokenName tokenSymbol : string) (targetSol : float) (targetWallet : string)
    (fee targetPercentage : float) (imageUrl : option string) (total : float)
    (fundId : string) :
  keeps (createAndLaunchTokenWithLightning env toString config fundWallet tokenName
           tokenSymbol targetSol targetWallet fee targetPercentage imageUrl total fundId).
Proof.
  unfold createAndLaunchTokenWithLightning.
  apply (keeps_bind _ _ (fun _ => True)); [apply frame_keeps; auto with frame
                                           | apply returns_any |].
  intros G _. apply keeps_try_catch; [| intros e; apply frame_keeps; auto with frame].
  apply (keeps_bind _ _ (fun found => forall d, found = Some d -> modified d = [])).
  { apply frame_keeps. apply frame_Fund_findById. }
  { intros w found. rewrite Fund_findById_eq. cbn [fst].
    destruct (funds w !! fundId); [| destruct (casts env fundId)];
      intros H; [| | discriminate H]; injection H as <-; intros d Hd;
      [injection Hd as <-; reflexivity | discriminate Hd]. }
  intros [fund |] Hfund; [| apply frame_keeps; auto with frame].
  specialize (Hfund fund eq_refl).
  destruct (acquirePumpWallet_keeps fund Hfund) as [Hkeeps Hreturns].
  apply (keeps_bind _ _ _ Hkeeps Hreturns).
  intros [[fund1 walletData] pump] Hfund1. cbn [fst snd] in *.
  destruct (negb (truthy_str imageUrl)); [apply frame_keeps; auto with frame |].
  apply (keeps_bind _ _ (fun _ => True)); [apply frame_keeps; auto with frame
                                           | apply returns_any |].
  intros _ _.
  apply (keeps_bind _ _ (fun _ => True)); [apply frame_keeps; auto with frame
                                           | apply returns_any |].
  intros metadataResponse _.
  apply (keeps_bind _ _ (fun _ => True)); [apply frame_keeps; auto with frame
                                           | apply returns_any |].
  intros metadata _.
  apply (keeps_bind _ _ (fun _ => True)); [apply transferToPumpWallet_keeps; assumption
                                           | apply returns_any |].
  intros step1 _.
  apply (keeps_bind _ _ (fun _ => True)); [apply frame_keeps; auto with frame
                                           | apply returns_any |].
  intros updated _.
  destruct (PrimFloat.ltb updated _); [apply frame_keeps; auto with frame |].
  apply (keeps_bind _ _ (fun _ => True)).
  - apply frame_keeps, frame_issueAndDistribute.
  - apply returns_any.
  - intros issued _. apply frame_keeps; auto with frame.
Qed.

Lemma launch_keeps (fundWallet : Keypair) (updatedFund : FundDoc) (total : float) :
  keeps (launch env toString config fundWallet updatedFund total).
Proof.
  unfold launch.
  apply (keeps_bind _ _ (fun _ => True)); [apply frame_keeps; auto with frame
                                           | apply returns_any |].
  intros targetWallet _. apply createAndLaunchTokenWithLightning_keeps.
Qed.

Lemma found_launchStatus_stored (id : string) (w : World) (f : Fund) :
  funds w !! id = Some f -> found_launchStatus env id w = Some None.
Proof.
  intros Hf. unfold found_launchStatus. rewrite Fund_findById_eq, Hf. reflexivity.
Qed.

(** After the orchestrator has returned [r]: the assignments and the
    save. *)
Lemma record_launch_stored (f f1 : Fund) (r : LaunchResult) (w1 : World) :
  funds w1 !! _id f = Some f1 ->
  exists w',
    record_launch env (hydrate f) r w1 = (Ok tt, w')
    /\ stored tokenAddress (_id f) w' = Some (Some (lr_tokenAddress r))
    /\ stored launchError (_id f) w' = Some None
    /\ found_launchStatus env (_id f) w' = Some None.
Proof.
  intros Hf1. unfold record_launch.
  match goal with
  | |- context [bind (Fund_save env ?d) _ w1] =>
      destruct (Fund_save_writes d f1 w1) as (w' & Hsave & Hlook & _)
  end.
  { cbn [assign assign_launchStatus modified hydrate]. discriminate. }
  { cbn [assign assign_launchStatus fields hydrate]. rewrite !id_kept. exact Hf1. }
  cbn [assign assign_launchStatus fields hydrate modified] in Hlook.
  rewrite !id_kept in Hlook.
  exists w'. unfold bind. rewrite Hsave. split; [reflexivity |].
  unfold stored. rewrite (found_launchStatus_stored _ _ _ Hlook), Hlook.
  destruct f1. repeat split; reflexivity.
Qed.

(** The [catch]: the message is stored, [tokenAddress] is left as it
    was. *)
Lemma record_failure_stored (id : string) (f1 : Fund) (e : exn) (w1 : World) :
  funds w1 !! id = Some f1 ->
  _id f1 = id ->
  exists w',
    record_failure env id e w1 = (Ok tt, w')
    /\ stored tokenAddress id w' = Some (tokenAddress f1)
    /\ stored launchError id w' = Some (Some (launch_error_message e))
    /\ found_launchStatus env id w' = Some None.
Proof.
  intros Hf1 Hid. unfold record_failure. unfold bind at 1. rewrite Fund_findById_eq, Hf1.
  cbn [fmap option_fmap option_map].
  match goal with
  | |- context [bind (Fund_save env ?d) _ w1] =>
      destruct (Fund_save_writes d f1 w1) as (w' & Hsave & Hlook & _)
  end.
  { cbn [assign assign_launchStatus modified hydrate]. discriminate. }
  { cbn [assign assign_launchStatus fields hydrate]. rewrite !id_kept, Hid. exact Hf1. }
  cbn [assign assign_launchStatus fields hydrate modified] in Hlook.
  rewrite !id_kept, Hid in Hlook.
  exists w'. unfold bind. rewrite Hsave. split; [reflexivity |].
  unfold stored. rewrite (found_launchStatus_stored _ _ _ Hlook), Hlook.
  destruct f1. repeat split; reflexivity.
Qed.

Lemma orchestration_keeps (j : Job) (f : Fund) : keeps (orchestration env toString config j f).
Proof.
  destruct j as [id total | id kp total]; cbn [orchestration]; [| apply launch_keeps].
  apply (keeps_bind _ _ (fun _ => True)); [apply frame_keeps; auto with frame
                                           | apply returns_any |].
  intros kp _. apply launch_keeps.
Qed.

(** The background launch is the orchestration followed by the
    assignments, inside one [try]. *)
Lemma run_job_eq (j : Job) (f : Fund) (w : World) :
  funds w !! job_fund j = Some f ->
  reaches_orchestrator j f ->
  run_job env toString config j w
  = try_catch (r <- orchestration env toString config j f ;; record_launch env (hydrate f) r)
      (record_failure env (job_fund j)) w.
Proof.
  intros Hf Hreach.
  destruct j as [id total | id kp total]; cbn [run_job orchestration job_fund] in *.
  - unfold try_catch. unfold bind at 1. rewrite Fund_findById_eq, Hf.
    cbn [fmap option_fmap option_map hydrate fields]. cbn in Hreach. rewrite Hreach.
    cbn [negb]. unfold bind. destruct (call env _ w) as [[kp | e] w1]; reflexivity.
  - unfold try_catch. unfold bind at 1. rewrite Fund_findById_eq, Hf. reflexivity.
Qed.

(** C5 (what the code does). For every background launch that reaches
    the orchestrator: when the orchestrator returns, the stored fund has
    its [tokenAddress] and no [launchError]; when the call throws, the
    stored fund has the failure message as [launchError] and the
    [tokenAddress] it had.  In both cases the launch ends without an
    exception, and the fund, read back, has no [launchStatus]: the value
    assigned before the save stays on the document in memory. *)
Theorem C5_launch_outcome_as_stored (j : Job) (f : Fund) (w w1 : World)
    (outcome : result LaunchResult) :
  funds w !! job_fund j = Some f ->
  _id f = job_fund j ->
  reaches_orchestrator j f ->
  orchestration env toString config j f w = (outcome, w1) ->
  exists w',
    run_job env toString config j w = (Ok tt, w')
    /\ found_launchStatus env (job_fund j) w' = Some None
    /\ match outcome with
       | Ok r =>
           stored tokenAddress (job_fund j) w' = Some (Some (lr_tokenAddress r))
           /\ stored launchError (job_fund j) w' = Some None
       | Throw e =>
           stored tokenAddress (job_fund j) w' = Some (tokenAddress f)
           /\ stored launchError (job_fund j) w' = Some (Some (launch_error_message e))
       end.
Proof.
  intros Hf Hid Hreach Hrun.
  rewrite (run_job_eq j f w Hf Hreach).
  pose proof (orchestration_keeps j f w) as Hkept. rewrite Hrun in Hkept. cbn [snd] in Hkept.
  destruct (Hkept _ _ Hf) as (f1 & Hf1 & Hid1 & Hta1 & _).
  unfold try_catch, bind. rewrite Hrun. destruct outcome as [r | e].
  - rewrite <- Hid in Hf1 |- *.
    destruct (record_launch_stored f f1 r w1 Hf1) as (w' & Hsaved & Hta & Hle & Hls).
    exists w'. rewrite Hsaved. auto.
  - destruct (record_failure_stored (job_fund j) f1 e w1 Hf1) as (w' & Hsaved & Hta & Hle & Hls).
    { congruence. }
    exists w'. rewrite Hsaved, <- Hta1. auto.
Qed.

(** ** What the read operations disclose *)

Lemma lookup_object (k : string) (members : list (string * option jsval)) :
  object members !! k = member k members.
Proof.
  unfold object. induction members as [| [k' [v |]] rest IH]; simpl.
  - apply lookup_empty.
  - destruct (String.eqb_spec k' k) as [-> | Hne].
    + apply lookup_insert_eq.
    + rewrite lookup_insert_ne by assumption. exact IH.
  - destruct (String.eqb k' k); exact IH.
Qed.

Lemma toJSON_fundPrivateKey (u : jsval) (f : Fund) :
  toJSON_with u f !! "fundPrivateKey" = Some (JStr (fundPrivateKey f)).
Proof. unfold toJSON_with. rewrite lookup_object. reflexivity. Qed.

Lemma toJSON_pumpPortalPrivateKey (u : jsval) (f : Fund) :
  toJSON_with u f !! "pumpPortalPrivateKey" = JStr <$> pumpPortalPrivateKey f.
Proof.
  unfold toJSON_with. rewrite lookup_object. cbn.
  destruct (pumpPortalPrivateKey f); reflexivity.
Qed.

Lemma toJSON_id (u : jsval) (f : Fund) :
  toJSON_with u f !! "_id" = Some (JStr (_id f)).
Proof. unfold toJSON_with. rewrite lookup_object. reflexivity. Qed.

Lemma fund_with_balance_redacts (us : list User) (fund : Fund) (w : World) :
  exists o w', fund_with_balance env us fund w = (Ok o, w') /\ redacted fund o.
Proof.
  assert (Hred : forall b,
             redacted fund
               (<["currentBalance" := b]>
                  (delete "pumpPortalPrivateKey"
                     (delete "fundPrivateKey" (toJSON_with (populated_userId us fund) fund))))).
  { intros b. unfold redacted.
    rewrite !lookup_insert_ne by discriminate.
    rewrite lookup_delete_eq.
    rewrite (lookup_delete_ne _ "pumpPortalPrivateKey" "fundPrivateKey") by discriminate.
    rewrite lookup_delete_eq.
    rewrite !lookup_delete_ne by discriminate.
    rewrite toJSON_id. auto. }
  unfold fund_with_balance, try_catch.
  destruct (bind _ _ w) as [[o | e] w1] eqn:Hrun.
  - exists o, w1. split; [reflexivity |].
    unfold bind in Hrun.
    destruct (call env _ w) as [[pk | e] w2]; [| discriminate].
    destruct (getBalance env pk w2) as [[b | e] w3]; [| discriminate].
    unfold ret in Hrun. injection Hrun as <- _. apply Hred.
  - unfold ret. eexists _, _. split; [reflexivity | apply Hred].
Qed.

Lemma mapM_fund_with_balance (us : list User) (found : list Fund) (w : World) :
  exists items w',
    mapM (fund_with_balance env us) found w = (Ok items, w')
    /\ Forall2 redacted found items.
Proof.
  revert w. induction found as [| fund rest IH]; intros w; simpl.
  - exists [], w. split; [reflexivity | constructor].
  - destruct (fund_with_balance_redacts us fund w) as (o & w1 & Ho & Hred).
    destruct (IH w1) as (items & w2 & Hitems & Hall).
    exists (o :: items), w2. unfold bind. rewrite Ho, Hitems.
    split; [reflexivity | constructor; assumption].
Qed.

(** C10. Whenever the list operation returns funds, each of them is
    given without [fundPrivateKey] and without [pumpPortalPrivateKey];
    the detail operation answers for every stored fund with the record
    as stored, [fundPrivateKey] included and [pumpPortalPrivateKey]
    included when the record has one. *)
Theorem C10_list_redacts_keys_detail_returns_them :
  (forall (req : ListRequest) (w w' : World) (r : Reply),
      list_funds env req w = (Ok r, w') ->
      code r = 200%nat ->
      exists (found : list Fund) (items : list jsobj),
        answer env _ (S (length (trace w))) (FundFind
          {| q_status := match lq_status req with Some st => st | None => "active" end;
             q_search := lq_search req;
             q_skip := (lq_pageNum req - 1) * lq_limitNum req;
             q_limit := lq_limitNum req |}) = Ok found
        /\ body r !! "funds" = Some (JArr (JObj <$> items))
        /\ Forall2 redacted found items)
  /\ (forall (id : string) (w : World) (f : Fund),
        funds w !! id = Some f ->
        exists (r : Reply) (w' : World),
          fund_detail env id w = (Ok r, w')
          /\ code r = 200%nat
          /\ body r !! "fundPrivateKey" = Some (JStr (fundPrivateKey f))
          /\ body r !! "pumpPortalPrivateKey" = JStr <$> pumpPortalPrivateKey f).
Proof.
  split.
  - intros req w w' r. unfold list_funds.
    destruct (_ && _); [intros H; injection H as <- _; discriminate |].
    destruct (_ || _); [intros H; injection H as <- _; discriminate |].
    unfold bind at 1. unfold call at 1.
    destruct (answer env float _ _) as [n0 | e]; [| discriminate].
    unfold bind at 1. unfold call at 1. cbn [trace with_trace].
    rewrite length_app, Nat.add_1_r.
    destruct (answer env (list Fund) _ _) as [found | e] eqn:Hfound; [| discriminate].
    unfold bind at 1. unfold call at 1.
    destruct (answer env float _ _) as [total | e]; [| discriminate].
    unfold bind at 1. unfold get at 1.
    match goal with
    | |- context [bind (mapM (fund_with_balance env ?us) found) _ ?w0] =>
        destruct (mapM_fund_with_balance us found w0) as (items & w2 & Hitems & Hall)
    end.
    unfold bind. rewrite Hitems. unfold ret. intros H _. injection H as <- _.
    exists found, items. split; [reflexivity |]. split; [| assumption].
    cbn [body]. rewrite lookup_insert_eq. reflexivity.
  - intros id w f Hf. unfold fund_detail.
    unfold bind at 1. rewrite Fund_findById_eq, Hf.
    cbn [fmap option_fmap option_map hydrate fields].
    match goal with
    | |- context [bind (try_catch ?m _) _ w] =>
        destruct (try_catch_ret_returns m JNull w) as (b & w1 & Hb)
    end.
    unfold bind at 1. rewrite Hb. unfold bind, get, ret.
    eexists _, _. split; [reflexivity |]. cbn [code body].
    rewrite !lookup_insert_ne by discriminate.
    rewrite toJSON_fundPrivateKey, toJSON_pumpPortalPrivateKey. auto.
Qed.

End Properties.

(** * Concrete runs *)

Import Scenario Cases.

(** The number helpers on a few values, as JavaScript evaluates them. *)
Example number_helpers :
  Num.Math_floor (6 * Num.LAMPORTS_PER_SOL) = 6000000000
  /\ Num.Math_floor 6.7 = 6
  /\ Num.Math_floor (-0.5) = -1
  /\ Num.Math_floor 0.0000000001 = 0
  /\ Num.Math_floor infinity = infinity
  /\ Num.Math_ceil 0.1 = 1
  /\ Num.Math_ceil 3 = 3
  /\ Num.Math_max 0 (-3) = 0
  /\ Num.Math_max 0 6 = 6
  /\ PrimFloat.is_nan (Num.Math_max 0 nan) = true
  /\ Num.Math_min 10 9.9 = 9.9
  /\ Num.geb nan 0 = false
  /\ Num.truthy 0 = false
  /\ Num.truthy nan = false
  /\ Num.truthy 5000 = true.
Proof. vm_compute. repeat split. Qed.

(** C1. Target 10, fee 1: the first verified donation finds a balance of
    7, the fund stays active with a running total of 6; the second finds
    11, the total 10 reaches the target, the fund is completed with its
    completion date and the launch is handed
    [(10 - 10 * 0.01) + (1 - 1 * 0.3) = 10.6]. *)
Theorem C1_donations_of_6_and_5_complete_target_10 :
  replied after_first = Some (200%nat, None)
  /\ stored status "fund1" (snd after_first) = Some active
  /\ stored currentDonatedSol "fund1" (snd after_first) = Some 6
  /\ stored completedAt "fund1" (snd after_first) = Some None
  /\ reply_member "status" after_first = Some (JStr "active")
  /\ replied after_second = Some (200%nat, Some (AutoLaunch "fund1" 10.6))
  /\ stored status "fund1" (snd after_second) = Some completed
  /\ stored currentDonatedSol "fund1" (snd after_second) = Some 10
  /\ PrimFloat.leb 10 10 = true
  /\ stored completedAt "fund1" (snd after_second) = Some (Some 2021%Z)
  /\ reply_member "status" after_second = Some (JStr "completed")
  /\ ((11 - 1) - (11 - 1) * 0.01) + (1 - 1 * 0.3) = 10.6
  /\ (11 - 1) * 0.01 = 0.1
  /\ 1 - 1 * 0.3 = 0.7.
Proof. vm_compute. repeat split. Qed.

(** The launch operation accepts a request for a campaign whose launch
    it has just accepted: both requests schedule an attempt, and after
    the first one the fund is stored as it was, without the mark
    "pending" that the handler assigned. *)
Lemma C7_second_launch_accepted :
  replied first_launch = Some (202%nat, Some (ManualLaunch "fund1" fund_keys (10 + (1 - 1 * 0.3))))
  /\ reply_member "status" first_launch = Some (JStr "pending")
  /\ replied second_launch
     = Some (202%nat, Some (ManualLaunch "fund1" fund_keys (10 + (1 - 1 * 0.3))))
  /\ funds (snd first_launch) = funds funded
  /\ found_launchStatus launch_ledger "fund1" (snd first_launch) = Some None.
Proof. vm_compute. repeat split. Qed.

(** A transaction that is found but pays from another wallet, or too
    little, makes the verifier throw: it does not return false.  It
    throws after ten lookups, not at the first. *)
Lemma C8_counterexample :
  fst (verifySolPayment wrong_sender show "sig" "Alice" "FundWallet" 6 funded)
  = Throw (Error "No valid SOL transfer found in transaction")
  /\ fst (verifySolPayment too_little show "sig" "Alice" "FundWallet" 6 funded)
     = Throw (Error "Transferred amount <number> SOL is less than required <number> SOL")
  /\ trace (snd (verifySolPayment wrong_sender show "sig" "Alice" "FundWallet" 6 funded))
     = ([Called (NewPublicKey "Alice"); Called (NewPublicKey "FundWallet")]
        ++ repeat (Called (GetParsedTransaction "sig")) 10)%list
  /\ trace (snd (verifySolPayment too_little show "sig" "Alice" "FundWallet" 6 funded))
     = ([Called (NewPublicKey "Alice"); Called (NewPublicKey "FundWallet")]
        ++ repeat (Called (GetParsedTransaction "sig")) 10)%list.
Proof. vm_compute. repeat split. Qed.


(** ** The general statements at the runs above *)

Lemma C2_witness :
  let camp := campaign 10 1 0 active in
  let w := world_of camp in
  (funds w !! req_id first_request = Some camp
   /\ _id camp = req_id first_request
   /\ admitted cfg first_request camp
   /\ verified_then_read two_donations show first_request camp w 7 (snd first_read))
  /\ exists t w',
       donation_body two_donations show cfg 0.00005 first_request w = (Ok t, w')
       /\ (exists d, fund t = Some d
                     /\ currentDonatedSol (fields d) = Num.Math_max 0 (7 - initialFeePaid camp))
       /\ (is_Some (responseData t) ->
           currentDonatedSol <$> funds w' !! req_id first_request
           = Some (Num.Math_max 0 (7 - initialFeePaid camp))).
Proof.
  intros camp w.
  assert (H1 : funds w !! req_id first_request = Some camp) by (vm_compute; reflexivity).
  assert (H2 : _id camp = req_id first_request) by reflexivity.
  assert (H3 : admitted cfg first_request camp) by (vm_compute; repeat split).
  assert (H4 : verified_then_read two_donations show first_request camp w 7 (snd first_read)).
  { exists (snd first_verified), None,
      (snd (call two_donations (ConfirmTransaction "sig1") (snd first_verified))),
      "FundWallet",
      (snd (call two_donations (NewPublicKey "FundWallet")
              (snd (call two_donations (ConfirmTransaction "sig1") (snd first_verified))))).
    vm_compute. repeat split. }
  split; [repeat split; assumption |].
  exact (C2_running_total_is_balance_minus_fee two_donations show cfg 0.00005
           first_request w (snd first_read) camp 7 H1 H2 H3 H4).
Defined.

Lemma C3_witness :
  (funds funded !! req_id second_request = Some (campaign 10 1 10 completed)
   /\ status (campaign 10 1 10 completed) = completed)
  /\ exists msg w',
       donate two_donations show cfg second_request funded
       = (Ok (error_reply 400 msg, None), w')
       /\ funds w' = funds funded /\ users w' = users funded.
Proof.
  assert (H1 : funds funded !! req_id second_request = Some (campaign 10 1 10 completed))
    by (vm_compute; reflexivity).
  split; [split; [exact H1 | reflexivity] |].
  exact (C3_completed_campaign_rejects_donation two_donations show cfg second_request
           funded (campaign 10 1 10 completed) H1 eq_refl).
Defined.

Lemma C4_witness :
  let req := {| req_id := "fund1"; req_amount := 10.5;
                req_donorWallet := Some "Alice"; req_txSignature := Some "sig1" |} in
  (PrimFloat.ltb (req_amount req) (MIN_DONATION cfg) = true
   \/ PrimFloat.ltb (MAX_DONATION cfg) (req_amount req) = true)
  /\ exists msg w',
       donate two_donations show cfg req (world_of (campaign 10 1 0 active))
       = (Ok (error_reply 400 msg, None), w')
       /\ funds w' = funds (world_of (campaign 10 1 0 active))
       /\ users w' = users (world_of (campaign 10 1 0 active)).
Proof.
  intros req.
  assert (H : PrimFloat.ltb (req_amount req) (MIN_DONATION cfg) = true
              \/ PrimFloat.ltb (MAX_DONATION cfg) (req_amount req) = true)
    by (right; vm_compute; reflexivity).
  split; [exact H |].
  exact (C4_amount_out_of_range_rejected two_donations show cfg req
           (world_of (campaign 10 1 0 active)) H).
Defined.

Lemma C5_witness :
  let j := ManualLaunch "fund1" fund_keys 10.7 in
  let f := campaign 10 1 10 completed in
  let outcome := Ok {| lr_tokenAddress := "Mint"; lr_apiKey := "key";
                       lr_walletPublicKey := "PumpWallet"; lr_privateKey := "PumpSecret";
                       lr_solscanUrl := "https://solscan.io/tx/created?cluster=devnet";
                       lr_metadataUri := "ipfs://meta" |} in
  (funds funded !! job_fund j = Some f
   /\ _id f = job_fund j
   /\ reaches_orchestrator j f
   /\ fst (orchestration launch_ledger show cfg j f funded) = outcome)
  /\ exists w',
       run_job launch_ledger show cfg j funded = (Ok tt, w')
       /\ found_launchStatus launch_ledger "fund1" w' = Some None
       /\ stored tokenAddress "fund1" w' = Some (Some "Mint")
       /\ stored launchError "fund1" w' = Some None.
Proof.
  intros j f outcome.
  assert (H1 : funds funded !! job_fund j = Some f) by (vm_compute; reflexivity).
  assert (H2 : _id f = job_fund j) by reflexivity.
  assert (H3 : reaches_orchestrator j f) by exact I.
  assert (H4 : orchestration launch_ledger show cfg j f funded
               = (outcome, snd (orchestration launch_ledger show cfg j f funded)))
    by (vm_compute; reflexivity).
  split; [repeat split; try assumption; rewrite H4; reflexivity |].
  exact (C5_launch_outcome_as_stored launch_ledger show cfg j f funded _ outcome
           H1 H2 H3 H4).
Defined.

(** The same launch with the issuance service down: the message is
    stored, no token address is, and [launchStatus] is not stored. *)
Lemma C5_failed_launch :
  fst launch_failed = Ok tt
  /\ stored tokenAddress "fund1" (snd launch_failed) = Some None
  /\ stored launchError "fund1" (snd launch_failed) = Some (Some "fetch failed")
  /\ found_launchStatus (service_down launch_ledger) "fund1" (snd launch_failed) = Some None
  /\ fst launched = Ok tt
  /\ stored tokenAddress "fund1" (snd launched) = Some (Some "Mint")
  /\ stored launchError "fund1" (snd launched) = Some None
  /\ found_launchStatus launch_ledger "fund1" (snd launched) = Some None.
Proof. vm_compute. repeat split. Qed.

Lemma C6_witness :
  let doc := hydrate (apply_set (Set_pumpPortalTransferCompleted true)
                        (campaign 10 1 10 completed)) in
  let pump := {| publicKey := "PumpWallet"; secretKey := "PumpSecret" |} in
  let step1 := fun d => transferToPumpWallet launch_ledger show fund_keys pump d 1 10 10.7 in
  pumpPortalTransferCompleted (fields doc) = true
  /\ ((forall pumpBalance fundBalance total fee,
         fundPumpWallet launch_ledger show fund_keys pump doc pumpBalance fundBalance
           total fee funded = (Ok doc, funded))
      /\ submitted (trace (snd (step1 doc funded))) = submitted (trace funded)
      /\ (forall r, fst (step1 doc funded) = Ok r -> fst r = doc)
      /\ submitted (trace (snd ((r <- step1 doc ;; step1 (fst r)) funded)))
         = submitted (trace funded)).
Proof.
  intros doc pump step1. split; [reflexivity |].
  exact (C6_funding_step_skipped_when_completed launch_ledger show fund_keys pump doc
           1 10 10.7 funded eq_refl).
Defined.

Lemma C7_witness :
  let j := ManualLaunch "fund1" fund_keys (10 + (1 - 1 * 0.3)) in
  launch_handler launch_ledger launch_request funded
  = (Ok (launch_accepted, Some j), snd first_launch)
  /\ exists (f : Fund) (fundWallet : Keypair),
       launchable launch_request funded f
       /\ publicKey fundWallet = fundWalletAddress f
       /\ j = ManualLaunch (lreq_id launch_request) fundWallet
                (currentDonatedSol f + (initialFeePaid f - initialFeePaid f * 0.3))
       /\ launch_accepted = launch_accepted
       /\ funds (snd first_launch) = funds funded
       /\ users (snd first_launch) = users funded
       /\ found_launchStatus launch_ledger (lreq_id launch_request) (snd first_launch)
          = Some None
       /\ launchable launch_request (snd first_launch) f
       /\ forall again : Keypair,
            answer launch_ledger Keypair (length (trace (snd first_launch)))
              (KeypairFromSecretKey (fundPrivateKey f)) = Ok again ->
            publicKey again = fundWalletAddress f ->
            exists w'',
              launch_handler launch_ledger launch_request (snd first_launch)
              = (Ok (launch_accepted,
                     Some (ManualLaunch (lreq_id launch_request) again
                             (currentDonatedSol f
                              + (initialFeePaid f - initialFeePaid f * 0.3)))), w'').
Proof.
  intros j.
  assert (H : launch_handler launch_ledger launch_request funded
              = (Ok (launch_accepted, Some j), snd first_launch)) by (vm_compute; reflexivity).
  split; [exact H |].
  exact (C7_launch_checks_completion_and_token_address launch_ledger launch_request
           funded (snd first_launch) launch_accepted j H).
Defined.

Lemma C8_witness :
  let txs := fun _ : nat => payment "Mallory" 6000000000 in
  (answer wrong_sender _ (length (trace funded)) (NewPublicKey "Alice") = Ok "Alice"
   /\ answer wrong_sender _ (S (length (trace funded))) (NewPublicKey "FundWallet")
      = Ok "FundWallet"
   /\ (forall i, (i < 10)%nat ->
                 answer wrong_sender _ (length (trace funded) + 2 + i)
                   (GetParsedTransaction "sig") = Ok (Some (txs i)))
   /\ (forall i, (i < 10)%nat ->
                 logically_fails "Alice" "FundWallet"
                   (Num.Math_floor (6 * Num.LAMPORTS_PER_SOL)) (txs i)))
  /\ verifySolPayment wrong_sender show "sig" "Alice" "FundWallet" 6 funded
     = (Throw (Error (failure_message show "Alice" "FundWallet" 6 (txs 9%nat))),
        with_trace (trace funded
                    ++ [Called (NewPublicKey "Alice"); Called (NewPublicKey "FundWallet")]
                    ++ repeat (Called (GetParsedTransaction "sig")) 10) funded).
Proof.
  intros txs.
  assert (H1 : answer wrong_sender _ (length (trace funded)) (NewPublicKey "Alice")
               = Ok "Alice") by reflexivity.
  assert (H2 : answer wrong_sender _ (S (length (trace funded))) (NewPublicKey "FundWallet")
               = Ok "FundWallet") by reflexivity.
  assert (H3 : forall i, (i < 10)%nat ->
                         answer wrong_sender _ (length (trace funded) + 2 + i)
                           (GetParsedTransaction "sig") = Ok (Some (txs i)))
    by (intros i _; reflexivity).
  assert (H4 : forall i, (i < 10)%nat ->
                         logically_fails "Alice" "FundWallet"
                           (Num.Math_floor (6 * Num.LAMPORTS_PER_SOL)) (txs i))
    by (intros i _; vm_compute; split; [reflexivity | exact I]).
  split; [repeat split; assumption |].
  exact (proj2 (C8_verifier_returns_true_or_throws wrong_sender show "sig" "Alice"
                  "FundWallet" 6 funded) "Alice" "FundWallet" txs H1 H2 H3 H4).
Defined.


Lemma C10_witness :
  let o := listing [with_keys] launch_ledger in
  let w := world_of with_keys in
  let run := list_funds o first_page w in
  (exists r, run = (Ok r, snd run) /\ code r = 200%nat)
  /\ funds w !! "fund1" = Some with_keys
  /\ (exists (found : list Fund) (items : list jsobj) (r : Reply),
        fst run = Ok r
        /\ body r !! "funds" = Some (JArr (JObj <$> items))
        /\ Forall2 redacted found items)
  /\ exists (r : Reply) (w' : World),
       fund_detail o "fund1" w = (Ok r, w')
       /\ code r = 200%nat
       /\ body r !! "fundPrivateKey" = Some (JStr (fundPrivateKey with_keys))
       /\ body r !! "pumpPortalPrivateKey" = JStr <$> pumpPortalPrivateKey with_keys.
Proof.
  intros o w run.
  assert (Hrun : exists r, run = (Ok r, snd run) /\ code r = 200%nat).
  { destruct run as [[r | e] w'] eqn:E.
    - exists r. split; [reflexivity |].
      assert (Hc : match fst run with Ok r0 => code r0 | Throw _ => 0%nat end = 200%nat)
        by (vm_compute; reflexivity).
      rewrite E in Hc. exact Hc.
    - assert (Hc : match fst run with Ok _ => true | Throw _ => false end = true)
        by (vm_compute; reflexivity).
      rewrite E in Hc. discriminate Hc. }
  assert (Hf : funds w !! "fund1" = Some with_keys) by (vm_compute; reflexivity).
  split; [exact Hrun |]. split; [exact Hf |].
  destruct Hrun as (r & Hr & Hcode).
  destruct (C10_list_redacts_keys_detail_returns_them o) as [Hlist Hdetail].
  split.
  - destruct (Hlist first_page w (snd run) r Hr Hcode) as (found & items & _ & Hbody & Hall).
    exists found, items, r. fold run. rewrite Hr. auto.
  - exact (Hdetail "fund1" w with_keys Hf).
Defined.


(** * Further properties of the code *)

Section Coverage.

Variable env : oracle.
Variable toString : float -> string.
Variable config : Config.

(** ** The record of calls *)

Lemma submitted_app (t1 t2 : list event) :
  submitted (t1 ++ t2) = (submitted t1 ++ submitted t2)%list.
Proof. unfold submitted. apply omap_app. Qed.

Lemma submitted_repeat_call {A} (c : ext A) (k : nat) :
  is_send c = false -> submitted (repeat (Called c) k) = [].
Proof.
  intros Hc. induction k as [| k IH]; [reflexivity |].
  cbn [repeat]. change (Called c :: repeat (Called c) k)
    with ([Called c] ++ repeat (Called c) k)%list.
  rewrite submitted_app, IH. destruct c; try discriminate; reflexivity.
Qed.

Lemma submitted_repeat_send (tx : Transaction) (signers : list string) (k : nat) :
  submitted (repeat (Called (SendTransaction tx signers)) k) = repeat tx k.
Proof.
  induction k as [| k IH]; [reflexivity |].
  cbn [repeat].
  change (submitted (Called (SendTransaction tx signers)
                     :: repeat (Called (SendTransaction tx signers)) k))
    with (tx :: submitted (repeat (Called (SendTransaction tx signers)) k)).
  rewrite IH. reflexivity.
Qed.

(** [withRetry] around one call: the call is made again while it is
    answered with a 429 error and fewer than five retries were made;
    the answer to the last call made is the result. *)
Lemma withRetry_from_call {A} (c : ext A) (left : nat) (w : World) :
  exists k,
    (k <= left)%nat
    /\ withRetry_from (call env c) left w
       = (answer env A (length (trace w) + k) c,
          with_trace (trace w ++ repeat (Called c) (S k)) w)
    /\ (forall i, (i < k)%nat ->
                  retryable (answer env A (length (trace w) + i) c) = true)
    /\ ((k < left)%nat -> retryable (answer env A (length (trace w) + k) c) = false).
Proof.
  revert w. induction left as [| left IH]; intros w.
  - exists 0%nat. split; [lia |]. split; [| split; intros; lia].
    cbn [withRetry_from]. unfold try_catch, call. rewrite Nat.add_0_r.
    destruct (answer env A (length (trace w)) c); reflexivity.
  - cbn [withRetry_from]. unfold try_catch at 1. unfold call at 1.
    destruct (answer env A (length (trace w)) c) as [a | e] eqn:Hans.
    + exists 0%nat. rewrite Nat.add_0_r, Hans.
      split; [lia |]. split; [reflexivity |]. split; [intros; lia | reflexivity].
    + destruct (message_includes "429 Too Many Requests" e) eqn:H429.
      * destruct (IH (with_trace (trace w ++ [Called c]) w)) as (k & Hk & Hrun & Hbefore & Hlast).
        cbn [trace with_trace] in Hrun, Hbefore, Hlast.
        rewrite length_app in Hrun, Hbefore, Hlast. cbn [length] in Hrun, Hbefore, Hlast.
        exists (S k). split; [lia |]. split; [| split].
        -- rewrite Hrun. replace (length (trace w) + 1 + k)%nat
             with (length (trace w) + S k)%nat by lia.
           rewrite with_trace_with_trace. rewrite <- app_assoc. reflexivity.
        -- intros i Hi. destruct i as [| i].
           ++ rewrite Nat.add_0_r, Hans. exact H429.
           ++ replace (length (trace w) + S i)%nat
                with (length (trace w) + 1 + i)%nat by lia.
              apply Hbefore. lia.
        -- intros Hlt. replace (length (trace w) + S k)%nat
             with (length (trace w) + 1 + k)%nat by lia.
           apply Hlast. lia.
      * exists 0%nat. rewrite Nat.add_0_r, Hans.
        split; [lia |]. split; [reflexivity |].
        split; [intros; lia |]. intros _. exact H429.
Qed.

(** X1. [withRetry] around a call makes it at most six times: again
    after each answer that is a 429 error, up to five retries.  The
    result is the answer to the last call made, whatever it is. *)
Theorem X1_withRetry_retries_on_429_up_to_five_times {A} (c : ext A) (w : World) :
  exists k,
    (k <= 5)%nat
    /\ withRetry (call env c) w
       = (answer env A (length (trace w) + k) c,
          with_trace (trace w ++ repeat (Called c) (S k)) w)
    /\ (forall i, (i < k)%nat ->
                  retryable (answer env A (length (trace w) + i) c) = true)
    /\ ((k < 5)%nat -> retryable (answer env A (length (trace w) + k) c) = false).
Proof. apply withRetry_from_call. Qed.

(** ** Computations that only add to the record of calls *)

Lemma logs_ret {A} (a : A) : logs (ret a).
Proof. intros w. exists []. symmetry. apply app_nil_r. Qed.

Lemma logs_throw {A} (e : exn) : logs (@throw A e).
Proof. intros w. exists []. symmetry. apply app_nil_r. Qed.

Lemma logs_call {A} (c : ext A) : logs (call env c).
Proof. intros w. exists [Called c]. reflexivity. Qed.

Lemma logs_draw {A} (b : builtin A) : logs (draw env b).
Proof. intros w. exists [Drawn b]. reflexivity. Qed.

Lemma logs_bind {A B} (m : M A) (k : A -> M B) :
  logs m -> (forall a, logs (k a)) -> logs (bind m k).
Proof.
  intros Hm Hk w. unfold bind. destruct (Hm w) as (t1 & H1).
  destruct (m w) as [[a | e] w1]; cbn [snd] in *.
  - destruct (Hk a w1) as (t2 & H2). exists (t1 ++ t2)%list.
    rewrite H2, H1. symmetry. apply app_assoc.
  - exists t1. exact H1.
Qed.

Lemma logs_try_catch {A} (m : M A) (h : exn -> M A) :
  logs m -> (forall e, logs (h e)) -> logs (try_catch m h).
Proof.
  intros Hm Hh w. unfold try_catch. destruct (Hm w) as (t1 & H1).
  destruct (m w) as [[a | e] w1]; cbn [snd] in *.
  - exists t1. exact H1.
  - destruct (Hh e w1) as (t2 & H2). exists (t1 ++ t2)%list.
    rewrite H2, H1. symmetry. apply app_assoc.
Qed.

Lemma logs_withRetry_from {A} (fn : M A) (left : nat) :
  logs fn -> logs (withRetry_from fn left).
Proof.
  intros Hfn. induction left as [| left IH]; cbn [withRetry_from].
  - apply logs_try_catch; [assumption | intros e; apply logs_throw].
  - apply logs_try_catch; [assumption |].
    intros e. destruct (message_includes _ e); [exact IH | apply logs_throw].
Qed.

Lemma logs_length {A} (m : M A) (w : World) :
  logs m -> (length (trace w) <= length (trace (snd (m w))))%nat.
Proof. intros Hm. destruct (Hm w) as (t & ->). rewrite length_app. lia. Qed.

(** When [withRetry] returns, its last attempt returned. *)
Lemma withRetry_from_returned {A} (fn : M A) (left : nat) (w w' : World) (a : A) :
  logs fn ->
  withRetry_from fn left w = (Ok a, w') ->
  exists w0, fn w0 = (Ok a, w') /\ (length (trace w) <= length (trace w0))%nat.
Proof.
  intros Hfn. revert w. induction left as [| left IH]; intros w;
    cbn [withRetry_from]; unfold try_catch.
  - pose proof (logs_length fn w Hfn) as Hlen.
    destruct (fn w) as [[a1 | e] w1] eqn:Hrun; [| discriminate].
    intros H. injection H as -> ->. exists w. split; [exact Hrun | lia].
  - pose proof (logs_length fn w Hfn) as Hlen.
    destruct (fn w) as [[a1 | e] w1] eqn:Hrun.
    + intros H. injection H as -> ->. exists w. split; [exact Hrun | lia].
    + cbn [snd] in Hlen. destruct (message_includes _ e); [| discriminate].
      intros H. destruct (IH w1 H) as (w0 & H0 & Hlen0).
      exists w0. split; [exact H0 | lia].
Qed.

(** ** Computations that submit no transaction *)

Lemma quiet_call {A} (c : ext A) : is_send c = false -> quiet (call env c).
Proof.
  intros Hc w. unfold call. cbn [snd trace with_trace].
  rewrite submitted_app. destruct c; try discriminate; apply app_nil_r.
Qed.

Lemma quiet_draw {A} (b : builtin A) : quiet (draw env b).
Proof.
  intros w. unfold draw. cbn [snd trace with_trace].
  rewrite submitted_app. apply app_nil_r.
Qed.

Lemma quiet_confirm_attempt (sig : string) (lastValid : option float) :
  quiet (confirm_attempt env sig lastValid).
Proof.
  unfold confirm_attempt. apply quiet_bind.
  - apply quiet_withRetry. apply quiet_bind; [apply quiet_call; reflexivity |].
    intros _. apply quiet_bind.
    + destruct (truthy_height lastValid); [apply quiet_ret |].
      apply quiet_bind; [apply quiet_call; reflexivity | intros; apply quiet_ret].
    + intros _. apply quiet_call. reflexivity.
  - intros [err |]; [apply quiet_throw | apply quiet_ret].
Qed.

Lemma quiet_confirmTransaction (sig : string) (lastValid : option float) :
  quiet (confirmTransaction env sig lastValid).
Proof.
  unfold confirmTransaction. generalize 3%nat. intros left.
  induction left as [| left IH]; cbn [confirmTransaction_from].
  - apply quiet_throw.
  - apply quiet_try_catch; [apply quiet_confirm_attempt |].
    intros e. destruct (name_is _ e && negb (Nat.eqb left 0)); [exact IH | apply quiet_throw].
Qed.

(** ** [transferSol] *)

(** What [transferSol] submits. *)
Lemma transferSol_submitted (fromWallet : Keypair)
    (toPublicKey : string) (amountSol : float) (addPriorityFee : bool) (w : World) :
  exists recent k,
    (k <= 6)%nat
    /\ submitted (trace (snd (transferSol env fromWallet toPublicKey amountSol
                                addPriorityFee w)))
       = (submitted (trace w)
          ++ repeat (transfer_transaction fromWallet toPublicKey amountSol
                       addPriorityFee recent) k)%list
    /\ (forall signature,
          fst (transferSol env fromWallet toPublicKey amountSol addPriorityFee w)
          = Ok signature -> (1 <= k)%nat).
Proof.
  remember (transferSol env fromWallet toPublicKey amountSol addPriorityFee w)
    as run eqn:Hrun.
  unfold transferSol in Hrun. unfold bind at 1 in Hrun. unfold withRetry at 1 in Hrun.
  destruct (withRetry_from_call GetLatestBlockhash 5 w) as (k1 & _ & Hrun1 & _).
  rewrite Hrun1 in Hrun.
  destruct (answer env Blockhash (length (trace w) + k1) GetLatestBlockhash) as [bh | e].
  - unfold bind at 1 in Hrun. unfold withRetry at 1 in Hrun.
    match type of Hrun with
    | context [withRetry_from (call env (SendTransaction ?tx ?s)) 5 ?w1] =>
        destruct (withRetry_from_call (SendTransaction tx s) 5 w1)
          as (k2 & Hk2 & Hrun2 & _)
    end.
    rewrite Hrun2 in Hrun. exists (blockhash bh), (S k2). split; [lia |].
    split; [| intros; lia].
    assert (Hsent : forall w2,
               submitted (trace w2)
               = submitted
                   (trace w
                    ++ repeat (Called GetLatestBlockhash) (S k1)
                    ++ repeat (Called (SendTransaction
                                 (transfer_transaction fromWallet toPublicKey amountSol
                                    addPriorityFee (blockhash bh))
                                 [publicKey fromWallet])) (S k2))%list ->
               submitted (trace w2)
               = (submitted (trace w)
                  ++ repeat (transfer_transaction fromWallet toPublicKey amountSol
                               addPriorityFee (blockhash bh)) (S k2))%list).
    { intros w2 ->. rewrite !submitted_app.
      rewrite submitted_repeat_call by reflexivity.
      rewrite submitted_repeat_send. reflexivity. }
    match type of Hrun with
    | context [answer env string ?n ?c] => destruct (answer env string n c) as [sig | e]
    end.
    + unfold bind in Hrun.
      match type of Hrun with
      | context [confirmTransaction env sig ?lv ?w2] =>
          pose proof (quiet_confirmTransaction sig lv w2) as Hq;
          destruct (confirmTransaction env sig lv w2) as [[[] | e] w3]
      end; unfold ret in Hrun; subst run; cbn [snd] in *; apply Hsent; rewrite Hq;
        cbn [trace with_trace]; rewrite <- app_assoc; reflexivity.
    + subst run. cbn [snd]. apply Hsent. cbn [trace with_trace].
      rewrite <- app_assoc. reflexivity.
  - exists "", 0%nat. split; [lia |]. subst run.
    split; [| intros sig H; cbn [fst] in H; discriminate H].
    cbn [snd trace with_trace]. rewrite submitted_app.
    rewrite submitted_repeat_call by reflexivity. reflexivity.
Qed.

(** X3. Whatever the ledger answers, [transferSol] submits one
    transaction and nothing else: the transfer of
    [Math.floor(amountSol * LAMPORTS_PER_SOL)] lamports from the wallet
    to the recipient, paid by the wallet, after the priority-fee
    instruction when one is asked for.  It is submitted at most six
    times, each time the same, on one blockhash, and at least once
    when [transferSol] returns. *)
Theorem X3_transferSol_submits_only_the_requested_transfer (fromWallet : Keypair)
    (toPublicKey : string) (amountSol : float) (addPriorityFee : bool) (w : World) :
  exists recent k,
    (k <= 6)%nat
    /\ submitted (trace (snd (transferSol env fromWallet toPublicKey amountSol
                                addPriorityFee w)))
       = (submitted (trace w)
          ++ repeat (transfer_transaction fromWallet toPublicKey amountSol
                       addPriorityFee recent) k)%list
    /\ (forall signature,
          fst (transferSol env fromWallet toPublicKey amountSol addPriorityFee w)
          = Ok signature -> (1 <= k)%nat).
Proof. apply transferSol_submitted. Qed.

(** ** [confirmTransaction] *)

Lemma logs_confirm_attempt (sig : string) (lastValid : option float) :
  logs (confirm_attempt env sig lastValid).
Proof.
  unfold confirm_attempt. apply logs_bind.
  - apply logs_withRetry_from. apply logs_bind; [apply logs_call |].
    intros _. apply logs_bind; [| intros _; apply logs_call].
    destruct (truthy_height lastValid); [apply logs_ret |].
    apply logs_bind; [apply logs_call | intros; apply logs_ret].
  - intros [err |]; [apply logs_throw | apply logs_ret].
Qed.

(** An attempt returns only on a confirmation without error. *)
Lemma confirm_attempt_returned (sig : string) (lastValid : option float) (w w' : World) :
  confirm_attempt env sig lastValid w = (Ok tt, w') ->
  exists t,
    trace w' = (t ++ [Called (ConfirmTransaction sig)])%list
    /\ answer env (option string) (length t) (ConfirmTransaction sig) = Ok None
    /\ (length (trace w) <= length t)%nat.
Proof.
  unfold confirm_attempt. unfold bind at 1.
  destruct (withRetry _ w) as [[result | e] w1] eqn:Hretry; [| discriminate].
  destruct result as [err |]; [discriminate |].
  unfold ret. intros H. injection H as <-.
  apply withRetry_from_returned in Hretry.
  - destruct Hretry as (w0 & Hblock & Hlen).
    unfold bind at 1 in Hblock. unfold call at 1 in Hblock.
    destruct (answer env Blockhash (length (trace w0)) GetLatestBlockhash) as [bh | e];
      [| discriminate].
    unfold bind at 1 in Hblock.
    destruct (truthy_height lastValid).
    + unfold ret, call in Hblock. cbn [trace with_trace] in Hblock.
      injection Hblock as Hans <-. eexists. cbn [trace with_trace].
      split; [reflexivity |]. split; [exact Hans |]. rewrite length_app. lia.
    + unfold bind at 1 in Hblock. unfold call at 1 in Hblock.
      cbn [trace with_trace] in Hblock.
      match type of Hblock with
      | context [answer env Blockhash ?n GetLatestBlockhash] =>
          destruct (answer env Blockhash n GetLatestBlockhash) as [bh2 | e];
            [| discriminate]
      end.
      unfold ret, call in Hblock. cbn [trace with_trace] in Hblock.
      injection Hblock as Hans <-. eexists. cbn [trace with_trace].
      split; [reflexivity |]. split; [exact Hans |]. rewrite !length_app. lia.
  - apply logs_bind; [apply logs_call |].
    intros _. apply logs_bind; [| intros _; apply logs_call].
    destruct (truthy_height lastValid); [apply logs_ret |].
    apply logs_bind; [apply logs_call | intros; apply logs_ret].
Qed.

Lemma confirmTransaction_from_returned (sig : string) (lastValid : option float)
    (left : nat) (w w' : World) :
  confirmTransaction_from env sig lastValid left w = (Ok tt, w') ->
  exists t,
    trace w' = (t ++ [Called (ConfirmTransaction sig)])%list
    /\ answer env (option string) (length t) (ConfirmTransaction sig) = Ok None
    /\ (length (trace w) <= length t)%nat.
Proof.
  revert w. induction left as [| left IH]; intros w; cbn [confirmTransaction_from].
  - discriminate.
  - unfold try_catch.
    pose proof (logs_length _ w (logs_confirm_attempt sig lastValid)) as Hlen.
    destruct (confirm_attempt env sig lastValid w) as [[[] | e] w1] eqn:Hattempt.
    + intros H. injection H as <-. eapply confirm_attempt_returned. exact Hattempt.
    + cbn [snd] in Hlen.
      destruct (name_is _ e && negb (Nat.eqb left 0)); [| discriminate].
      intros H. destruct (IH w1 H) as (t & Ht & Hans & Hlen1).
      exists t. split; [exact Ht |]. split; [exact Hans | lia].
Qed.

(** X2. [confirmTransaction] returns only after the ledger has
    confirmed the transaction without an error: the last call of a run
    that returns is [connection.confirmTransaction] for that signature,
    made during the run and answered with [err] null. *)
Theorem X2_confirmTransaction_returns_only_when_confirmed (txSignature : string)
    (lastValidBlockHeight : option float) (w w' : World) :
  confirmTransaction env txSignature lastValidBlockHeight w = (Ok tt, w') ->
  exists t,
    trace w' = (t ++ [Called (ConfirmTransaction txSignature)])%list
    /\ answer env (option string) (length t) (ConfirmTransaction txSignature) = Ok None
    /\ (length (trace w) <= length t)%nat.
Proof. apply confirmTransaction_from_returned. Qed.

(** ** [verifySolPayment] *)

Lemma verify_attempt_not_found sig sender receiver amount required (w : World) :
  answer env (option ParsedTx) (length (trace w)) (GetParsedTransaction sig) = Ok None ->
  try_catch (verify_attempt env toString sig sender receiver amount required false)
    (fun error => if false then throw error else ret None) w
  = (Ok None, with_trace (trace w ++ [Called (GetParsedTransaction sig)]) w).
Proof.
  intros Hans. unfold try_catch, verify_attempt. unfold bind at 1.
  rewrite (withRetry_returns env _ _ _ Hans). reflexivity.
Qed.

(** The loop waits for the transaction: lookups answered with null are
    repeated, and the first transaction found decides. *)
Lemma verify_from_waits sig sender receiver amount (tx : ParsedTx) (p : ParsedInstruction)
    (k left : nat) (w : World) :
  (k < left)%nat ->
  (forall i, (i < k)%nat ->
             answer env (option ParsedTx) (length (trace w) + i) (GetParsedTransaction sig)
             = Ok None) ->
  answer env (option ParsedTx) (length (trace w) + k) (GetParsedTransaction sig)
  = Ok (Some tx) ->
  Num.strict_eq (slot tx) 0 = false ->
  find (is_transfer sender receiver) (instructions tx) = Some (Parsed p) ->
  PrimFloat.ltb (lamports p) (Num.Math_floor (amount * Num.LAMPORTS_PER_SOL)) = false ->
  verify_from env toString sig sender receiver amount
    (Num.Math_floor (amount * Num.LAMPORTS_PER_SOL)) left w
  = (Ok true, with_trace (trace w ++ repeat (Called (GetParsedTransaction sig)) (S k)) w).
Proof.
  intros Hk Hnull Hfound Hslot Hfind Hamount.
  revert left w Hk Hnull Hfound. induction k as [| k IH]; intros left w Hk Hnull Hfound.
  - destruct left as [| left]; [lia |]. cbn [verify_from].
    rewrite Nat.add_0_r in Hfound.
    unfold bind at 1. unfold try_catch, verify_attempt. unfold bind at 1.
    rewrite (withRetry_returns env _ _ _ Hfound).
    rewrite Hslot, Hfind, Hamount. reflexivity.
  - destruct left as [| left]; [lia |]. cbn [verify_from].
    destruct left as [| left]; [lia |]. cbn [Nat.eqb].
    unfold bind at 1. rewrite verify_attempt_not_found.
    + rewrite (IH (S left) (with_trace (trace w ++ [Called (GetParsedTransaction sig)]) w)).
      * rewrite with_trace_with_trace. cbn [trace with_trace].
        rewrite <- app_assoc. reflexivity.
      * lia.
      * intros i Hi. cbn [trace with_trace]. rewrite length_app. cbn [length].
        replace (length (trace w) + 1 + i)%nat with (length (trace w) + S i)%nat by lia.
        apply Hnull. lia.
      * cbn [trace with_trace]. rewrite length_app. cbn [length].
        replace (length (trace w) + 1 + k)%nat with (length (trace w) + S k)%nat by lia.
        exact Hfound.
    + specialize (Hnull 0%nat). rewrite Nat.add_0_r in Hnull. apply Hnull. lia.
Qed.

(** X4. [verifySolPayment] waits for the transaction and accepts a
    sufficient transfer: when fewer than ten lookups are answered with
    null and the next one finds a transaction (slot not 0) whose first
    system transfer from the sender to the receiver carries at least
    [Math.floor(requiredAmount * LAMPORTS_PER_SOL)] lamports, it
    returns true, having looked the transaction up once more than it
    was missing. *)
Theorem X4_verifySolPayment_accepts_once_the_transfer_is_found
    (txSignature senderWallet receiverWallet : string) (requiredAmount : float)
    (w : World) (sender receiver : string) (tx : ParsedTx) (p : ParsedInstruction)
    (k : nat) :
  answer env string (length (trace w)) (NewPublicKey senderWallet) = Ok sender ->
  answer env string (S (length (trace w))) (NewPublicKey receiverWallet) = Ok receiver ->
  (k < 10)%nat ->
  (forall i, (i < k)%nat ->
             answer env (option ParsedTx) (length (trace w) + 2 + i)
               (GetParsedTransaction txSignature) = Ok None) ->
  answer env (option ParsedTx) (length (trace w) + 2 + k) (GetParsedTransaction txSignature)
  = Ok (Some tx) ->
  Num.strict_eq (slot tx) 0 = false ->
  find (is_transfer sender receiver) (instructions tx) = Some (Parsed p) ->
  PrimFloat.ltb (lamports p) (Num.Math_floor (requiredAmount * Num.LAMPORTS_PER_SOL))
  = false ->
  verifySolPayment env toString txSignature senderWallet receiverWallet requiredAmount w
  = (Ok true,
     with_trace (trace w
                 ++ [Called (NewPublicKey senderWallet); Called (NewPublicKey receiverWallet)]
                 ++ repeat (Called (GetParsedTransaction txSignature)) (S k)) w).
Proof.
  intros Hs Hr Hk Hnull Hfound Hslot Hfind Hamount.
  unfold verifySolPayment. unfold bind at 1. unfold call at 1. rewrite Hs.
  unfold bind at 1. unfold call at 1. cbn [trace with_trace].
  rewrite length_app. cbn [length]. rewrite Nat.add_1_r, Hr.
  rewrite (verify_from_waits txSignature sender receiver requiredAmount tx p k 10).
  - rewrite with_trace_with_trace. cbn [trace with_trace].
    rewrite <- !app_assoc. reflexivity.
  - exact Hk.
  - intros i Hi. cbn [trace with_trace]. rewrite !length_app. cbn [length].
    replace (length (trace w) + 1 + 1 + i)%nat with (length (trace w) + 2 + i)%nat by lia.
    apply Hnull. exact Hi.
  - cbn [trace with_trace]. rewrite !length_app. cbn [length].
    replace (length (trace w) + 1 + 1 + k)%nat with (length (trace w) + 2 + k)%nat by lia.
    exact Hfound.
  - exact Hslot.
  - exact Hfind.
  - exact Hamount.
Qed.

Lemma verify_from_gives_up sig sender receiver amount required (left : nat) (w : World) :
  (forall n, answer env (option ParsedTx) n (GetParsedTransaction sig) = Ok None) ->
  verify_from env toString sig sender receiver amount required (S left) w
  = (Throw (Error ("Transaction " ++ sig ++ " not found or not confirmed after 10 attempts")),
     with_trace (trace w ++ repeat (Called (GetParsedTransaction sig)) (S left)) w).
Proof.
  intros Hnull. revert w. induction left as [| left IH]; intros w.
  - cbn [verify_from Nat.eqb]. unfold bind at 1. unfold try_catch, verify_attempt.
    unfold bind at 1. rewrite (withRetry_returns env _ _ _ (Hnull _)). reflexivity.
  - change (verify_from env toString sig sender receiver amount required (S (S left)) w)
      with (bind (try_catch
                    (verify_attempt env toString sig sender receiver amount required false)
                    (fun error => if false then throw error else ret None))
              (fun r => match r with
                        | Some b => ret b
                        | None => verify_from env toString sig sender receiver amount
                                    required (S left)
                        end) w).
    unfold bind at 1. rewrite verify_attempt_not_found by apply Hnull.
    rewrite IH. rewrite with_trace_with_trace. cbn [trace with_trace].
    rewrite <- app_assoc. reflexivity.
Qed.

(** X5. A transaction that the ledger never shows is looked up ten
    times, no more, and [verifySolPayment] then throws the Error
    "Transaction ... not found or not confirmed after 10 attempts". *)
Theorem X5_verifySolPayment_gives_up_after_ten_lookups
    (txSignature senderWallet receiverWallet : string) (requiredAmount : float)
    (w : World) (sender receiver : string) :
  answer env string (length (trace w)) (NewPublicKey senderWallet) = Ok sender ->
  answer env string (S (length (trace w))) (NewPublicKey receiverWallet) = Ok receiver ->
  (forall n, answer env (option ParsedTx) n (GetParsedTransaction txSignature) = Ok None) ->
  verifySolPayment env toString txSignature senderWallet receiverWallet requiredAmount w
  = (Throw (Error ("Transaction " ++ txSignature
                   ++ " not found or not confirmed after 10 attempts")),
     with_trace (trace w
                 ++ [Called (NewPublicKey senderWallet); Called (NewPublicKey receiverWallet)]
                 ++ repeat (Called (GetParsedTransaction txSignature)) 10) w).
Proof.
  intros Hs Hr Hnull.
  unfold verifySolPayment. unfold bind at 1. unfold call at 1. rewrite Hs.
  unfold bind at 1. unfold call at 1. cbn [trace with_trace].
  rewrite length_app. cbn [length]. rewrite Nat.add_1_r, Hr.
  rewrite verify_from_gives_up by exact Hnull.
  rewrite with_trace_with_trace. cbn [trace with_trace].
  rewrite <- !app_assoc. reflexivity.
Qed.

(** ** [waitWithRetries] and [fetchWithRetry] *)

Lemma waitWithRetries_from_returns {T} (action : M T) (condition : T -> bool)
    (msg : string) (left : nat) :
  returns (waitWithRetries_from action condition msg left) (fun r => condition r = true).
Proof.
  induction left as [| left IH]; intros w a; cbn [waitWithRetries_from].
  - discriminate.
  - unfold bind at 1. unfold try_catch. unfold bind at 1.
    destruct (action w) as [[r | e] w1].
    + destruct (condition r) eqn:Hcond.
      * unfold ret. cbn [fst]. intros H. injection H as <-. exact Hcond.
      * unfold throw. destruct (Nat.eqb left 0); [discriminate |].
        unfold ret. apply IH.
    + destruct (Nat.eqb left 0); [discriminate |]. unfold ret. apply IH.
Qed.

Lemma waitWithRetries_from_gives_up {T} (action : M T) (condition : T -> bool)
    (msg : string) (left : nat) (w : World) :
  (forall w, exists r w', action w = (Ok r, w') /\ condition r = false) ->
  fst (waitWithRetries_from action condition msg (S left) w)
  = Throw (Error (msg ++ " condition not met")).
Proof.
  intros Hnever. revert w. induction left as [| left IH]; intros w.
  - cbn [waitWithRetries_from Nat.eqb]. unfold bind at 1. unfold try_catch.
    unfold bind at 1. destruct (Hnever w) as (r & w1 & -> & ->). reflexivity.
  - change (waitWithRetries_from action condition msg (S (S left)) w)
      with (bind (try_catch
                    (bind action (fun result =>
                       if condition result then ret (Some result)
                       else throw (Error (msg ++ " condition not met"))))
                    (fun error => if false then throw error else ret None))
              (fun r => match r with
                        | Some result => ret result
                        | None => waitWithRetries_from action condition msg (S left)
                        end) w).
    unfold bind at 1. unfold try_catch. unfold bind at 1.
    destruct (Hnever w) as (r & w1 & -> & ->). unfold throw, ret. apply IH.
Qed.

(** X6. [waitWithRetries] never returns a result that fails its
    condition; and when the action returns every time with a result
    that fails it, the eighth failure ends the wait with the Error
    "<errorMessage> condition not met". *)
Theorem X6_waitWithRetries_returns_only_what_meets_the_condition {T} (action : M T)
    (condition : T -> bool) (errorMessage : string) :
  returns (waitWithRetries action condition errorMessage) (fun r => condition r = true)
  /\ ((forall w, exists r w', action w = (Ok r, w') /\ condition r = false) ->
      forall w, fst (waitWithRetries action condition errorMessage w)
                = Throw (Error (errorMessage ++ " condition not met"))).
Proof.
  split.
  - apply waitWithRetries_from_returns.
  - intros Hnever w. apply waitWithRetries_from_gives_up. exact Hnever.
Qed.

Lemma fetchWithRetry_from_requests {B} (request : ext (Response B)) (left : nat) (w : World) :
  exists k,
    (k <= left)%nat
    /\ snd (fetchWithRetry_from env request left w)
       = with_trace (trace w ++ repeat (Called request) k) w
    /\ match fst (fetchWithRetry_from env request left w) with
       | Ok response =>
           response_ok response = true
           /\ http_status response <> 429%nat
           /\ exists i, k = S i
                         /\ answer env (Response B) (length (trace w) + i) request
                            = Ok response
       | Throw _ => k = left
       end.
Proof.
  revert w. induction left as [| left IH]; intros w; cbn [fetchWithRetry_from].
  - exists 0%nat. split; [lia |]. unfold throw. cbn [fst snd repeat].
    split; [| reflexivity]. rewrite app_nil_r. destruct w; reflexivity.
  - assert (Hnext : forall w1,
               w1 = with_trace (trace w ++ [Called request]) w ->
               exists k,
                 (k <= S left)%nat
                 /\ snd (fetchWithRetry_from env request left w1)
                    = with_trace (trace w ++ repeat (Called request) k) w
                 /\ match fst (fetchWithRetry_from env request left w1) with
                    | Ok response =>
                        response_ok response = true
                        /\ http_status response <> 429%nat
                        /\ exists i, k = S i
                                      /\ answer env (Response B) (length (trace w) + i) request
                                         = Ok response
                    | Throw _ => k = S left
                    end).
    { intros w1 ->. destruct (IH (with_trace (trace w ++ [Called request]) w))
        as (k & Hk & Hsnd & Hfst).
      exists (S k). split; [lia |]. split.
      - rewrite Hsnd. rewrite with_trace_with_trace. cbn [trace with_trace repeat].
        rewrite <- app_assoc. reflexivity.
      - destruct (fst (fetchWithRetry_from env request left _)) as [response | e].
        + destruct Hfst as (Hok & H429 & i & -> & Hans).
          split; [exact Hok |]. split; [exact H429 |].
          exists (S i). split; [reflexivity |].
          cbn [trace with_trace] in Hans. rewrite length_app in Hans. cbn [length] in Hans.
          replace (length (trace w) + S i)%nat with (length (trace w) + 1 + i)%nat by lia.
          exact Hans.
        + lia. }
    match goal with
    | |- context [snd ?r] => remember r as run eqn:Hrun
    end.
    unfold bind at 1 in Hrun. unfold try_catch in Hrun. unfold bind at 1 in Hrun.
    unfold call at 1 in Hrun.
    destruct (answer env (Response B) (length (trace w)) request) as [response | e] eqn:Hans.
    + destruct (Nat.eqb (http_status response) 429) eqn:H429.
      * unfold ret in Hrun. rewrite Hrun. apply Hnext. reflexivity.
      * destruct (response_ok response) eqn:Hok; cbn [negb] in Hrun.
        -- unfold ret in Hrun. rewrite Hrun. exists 1%nat. split; [lia |].
           cbn [fst snd repeat].
           split; [reflexivity |]. split; [exact Hok |].
           split; [apply Nat.eqb_neq; exact H429 |].
           exists 0%nat. split; [reflexivity |]. rewrite Nat.add_0_r. exact Hans.
        -- unfold throw in Hrun. destruct (Nat.eqb left 0) eqn:Hleft.
           ++ apply Nat.eqb_eq in Hleft. subst left. rewrite Hrun. exists 1%nat.
              split; [lia |]. cbn [fst snd repeat]. split; reflexivity.
           ++ unfold ret in Hrun. rewrite Hrun. apply Hnext. reflexivity.
    + destruct (Nat.eqb left 0) eqn:Hleft.
      * apply Nat.eqb_eq in Hleft. subst left. unfold throw in Hrun. rewrite Hrun.
        exists 1%nat. split; [lia |]. cbn [fst snd repeat]. split; reflexivity.
      * unfold ret in Hrun. rewrite Hrun. apply Hnext. reflexivity.
Qed.

(** X7. [fetchWithRetry] sends its request at most three times and
    nothing else.  What it returns is the answer to its last request,
    a response with [ok] true whose status is not 429; when it throws,
    all three requests have been sent. *)
Theorem X7_fetchWithRetry_sends_at_most_three_requests {B} (request : ext (Response B))
    (w : World) :
  exists k,
    (k <= 3)%nat
    /\ snd (fetchWithRetry env request w)
       = with_trace (trace w ++ repeat (Called request) k) w
    /\ match fst (fetchWithRetry env request w) with
       | Ok response =>
           response_ok response = true
           /\ http_status response <> 429%nat
           /\ exists i, k = S i
                         /\ answer env (Response B) (length (trace w) + i) request
                            = Ok response
       | Throw _ => k = 3%nat
       end.
Proof. apply fetchWithRetry_from_requests. Qed.

(** ** The order of binary64 numbers *)

Lemma SFcompare_swap (x y : spec_float) :
  SFcompare y x = option_map CompOpp (SFcompare x y).
Proof.
  destruct x as [sx | sx | | sx mx ex], y as [sy | sy | | sy my ey]; cbn;
    try destruct sx; try destruct sy; try reflexivity.
  - rewrite (Z.compare_antisym ex ey). destruct (Z.compare ex ey); cbn; try reflexivity.
    rewrite (Pos.compare_cont_antisym mx my Eq). reflexivity.
  - rewrite (Z.compare_antisym ex ey). destruct (Z.compare ex ey); cbn; try reflexivity.
    rewrite (Pos.compare_cont_antisym mx my Eq). reflexivity.
Qed.

Lemma not_nan_compare (x : float) :
  PrimFloat.is_nan x = false -> SFcompare (Prim2SF x) (Prim2SF x) = Some Eq.
Proof.
  unfold PrimFloat.is_nan. rewrite FloatAxioms.eqb_spec. unfold SFeqb.
  destruct (SFcompare (Prim2SF x) (Prim2SF x)) as [[| |] |]; cbn; congruence.
Qed.

Lemma not_nan_comparable (x y : float) :
  PrimFloat.is_nan x = false -> PrimFloat.is_nan y = false ->
  exists c, SFcompare (Prim2SF x) (Prim2SF y) = Some c.
Proof.
  intros Hx Hy. apply not_nan_compare in Hx. apply not_nan_compare in Hy.
  destruct (Prim2SF x) as [sx | sx | | sx mx ex], (Prim2SF y) as [sy | sy | | sy my ey];
    cbn in *; try discriminate; eauto.
Qed.

Lemma ltb_leb (x y : float) : PrimFloat.ltb x y = true -> PrimFloat.leb x y = true.
Proof.
  rewrite ltb_spec, leb_spec. unfold SFltb, SFleb.
  destruct (SFcompare (Prim2SF x) (Prim2SF y)) as [[| |] |]; congruence.
Qed.

Lemma leb_refl (x : float) : PrimFloat.is_nan x = false -> PrimFloat.leb x x = true.
Proof.
  intros Hx. rewrite leb_spec. unfold SFleb. rewrite (not_nan_compare x Hx). reflexivity.
Qed.

Lemma not_ltb_leb (x y : float) :
  PrimFloat.is_nan x = false -> PrimFloat.is_nan y = false ->
  PrimFloat.ltb x y = false -> PrimFloat.leb y x = true.
Proof.
  intros Hx Hy. rewrite ltb_spec, leb_spec. unfold SFltb, SFleb.
  rewrite (SFcompare_swap (Prim2SF x) (Prim2SF y)).
  destruct (not_nan_comparable x y Hx Hy) as (c & ->). destruct c; cbn; congruence.
Qed.

(** [Math.min] of two numbers is below both. *)
Lemma Math_min_below (a b : float) :
  PrimFloat.is_nan a = false -> PrimFloat.is_nan b = false ->
  PrimFloat.leb (Num.Math_min a b) a = true /\ PrimFloat.leb (Num.Math_min a b) b = true.
Proof.
  intros Ha Hb. unfold Num.Math_min. rewrite Ha, Hb. cbn [orb].
  destruct (PrimFloat.ltb a b) eqn:Hab.
  - split; [apply leb_refl; exact Ha | apply ltb_leb; exact Hab].
  - destruct (PrimFloat.ltb b a) eqn:Hba.
    + split; [apply ltb_leb; exact Hba | apply leb_refl; exact Hb].
    + destruct (PrimFloat.is_zero a && PrimFloat.get_sign a).
      * split; [apply leb_refl; exact Ha | apply not_ltb_leb; assumption].
      * split; [apply not_ltb_leb; assumption | apply leb_refl; exact Hb].
Qed.

(** ** The amounts of a launch *)

(** X8. [calculateSolForPump] changes nothing and throws exactly when
    [donatedSol < 0], [initialFeePaid < 0], [targetSol <= 0] or the
    total it computes is negative.  What it returns is
    [Math.min(donatedSol, targetSol)] for the creation, which exceeds
    neither the donations nor the target, 30% of the fee to stay in the
    fund wallet, and the creation amount plus the rest of the fee as
    the total. *)
Theorem X8_calculateSolForPump_amounts (donatedSol initialFeePaid targetSol : float)
    (w : World) :
  let rejected :=
    PrimFloat.ltb donatedSol 0 || PrimFloat.ltb initialFeePaid 0
    || PrimFloat.leb targetSol 0 in
  let total :=
    Num.Math_min donatedSol targetSol + (initialFeePaid - initialFeePaid * 0.3) in
  snd (calculateSolForPump toString donatedSol initialFeePaid targetSol w) = w
  /\ match fst (calculateSolForPump toString donatedSol initialFeePaid targetSol w) with
     | Ok sols =>
         rejected = false
         /\ PrimFloat.ltb total 0 = false
         /\ solForCreation sols = Num.Math_min donatedSol targetSol
         /\ feeRaiseWallet sols = initialFeePaid * 0.3
         /\ totalSolForPump sols = total
         /\ (PrimFloat.is_nan donatedSol = false -> PrimFloat.is_nan targetSol = false ->
             PrimFloat.leb (solForCreation sols) donatedSol = true
             /\ PrimFloat.leb (solForCreation sols) targetSol = true)
     | Throw _ => rejected = true \/ PrimFloat.ltb total 0 = true
     end.
Proof.
  intros rejected total. unfold calculateSolForPump. fold rejected.
  destruct rejected.
  - split; [reflexivity |]. left. reflexivity.
  - fold total. destruct (PrimFloat.ltb total 0) eqn:Htotal.
    + split; [reflexivity |]. right. reflexivity.
    + split; [reflexivity |]. cbn [fst ret solForCreation feeRaiseWallet totalSolForPump].
      repeat (split; [reflexivity |]). apply Math_min_below.
Qed.

(** X9. [calculateGasFeeReserve] never throws and writes nothing: it
    asks for a blockhash and, when it gets one, for the fee of an
    empty message on it, and no more.  When the ledger names a fee
    that is not 0 (nor NaN) it returns ten times that fee, in SOL; in
    every other case (no blockhash, no fee, a fee of 0, a failing
    call) it returns 0.05. *)
Theorem X9_calculateGasFeeReserve_is_ten_fees_or_the_fallback (w : World) :
  let n := length (trace w) in
  let asked :=
    match answer env Blockhash n GetLatestBlockhash with
    | Ok bh => Some (bh, answer env (option float) (S n) (GetFeeForMessage (blockhash bh)))
    | Throw _ => None
    end in
  let G :=
    match asked with
    | Some (_, Ok (Some value)) =>
        if Num.truthy value then (value * 10) / Num.LAMPORTS_PER_SOL else 0.05
    | _ => 0.05
    end in
  let calls :=
    Called GetLatestBlockhash
    :: match asked with
       | Some (bh, _) => [Called (GetFeeForMessage (blockhash bh))]
       | None => []
       end in
  calculateGasFeeReserve env w = (Ok G, with_trace (trace w ++ calls) w).
Proof.
  intros n asked G calls. subst n asked G calls.
  unfold calculateGasFeeReserve, try_catch. unfold bind at 1. unfold call at 1.
  destruct (answer env Blockhash (length (trace w)) GetLatestBlockhash) as [bh | e];
    [| reflexivity].
  unfold bind at 1. unfold call at 1. cbn [trace with_trace].
  rewrite length_app. cbn [length]. rewrite Nat.add_1_r.
  destruct (answer env (option float) (S (length (trace w)))
              (GetFeeForMessage (blockhash bh))) as [[value |] | e];
    [destruct (Num.truthy value) | |];
    unfold ret, throw; rewrite with_trace_with_trace, <- app_assoc; reflexivity.
Qed.

(** ** Saving a document *)

Lemma Fund_save_returned (d d' : FundDoc) (w w' : World) :
  modified d <> [] ->
  Fund_save env d w = (Ok d', w') ->
  let now := value env Date (length (trace w)) Now in
  exists stored,
    funds w !! _id (fields d) = Some stored
    /\ d' = {| fields := apply_set (Set_updatedAt now) (fields d); modified := [];
               launchStatus := launchStatus d |}
    /\ funds w' !! _id (fields d)
       = Some (apply_sets (modified d ++ [Set_updatedAt now]) stored)
    /\ users w' = users w
    /\ trace w' = (trace w ++ [Drawn Now])%list.
Proof.
  intros Hmod Hsave now.
  destruct (funds w !! _id (fields d)) as [stored |] eqn:Hstored.
  - destruct (Fund_save_writes env d stored w Hmod Hstored) as (w1 & Hrun & Hlook & Husers).
    fold now in Hrun, Hlook. rewrite Hrun in Hsave. injection Hsave as <- <-.
    exists stored. split; [reflexivity |]. split; [reflexivity |].
    split; [exact Hlook |]. split; [exact Husers |].
    unfold Fund_save in Hrun. destruct (modified d) as [| p ps]; [contradiction |].
    unfold bind at 1 in Hrun. rewrite draw_eq in Hrun.
    unfold bind at 1 in Hrun. unfold get at 1 in Hrun. cbn [funds with_trace] in Hrun.
    rewrite Hstored in Hrun. unfold bind, modify, ret in Hrun.
    injection Hrun as <-. reflexivity.
  - exfalso. unfold Fund_save in Hsave. destruct (modified d) as [| p ps]; [contradiction |].
    unfold bind at 1 in Hsave. rewrite draw_eq in Hsave.
    unfold bind at 1 in Hsave. unfold get at 1 in Hsave. cbn [funds with_trace] in Hsave.
    rewrite Hstored in Hsave. discriminate Hsave.
Qed.

Lemma quiet_Fund_save (d : FundDoc) : quiet (Fund_save env d).
Proof.
  intros w. unfold Fund_save. destruct (modified d) as [| p ps]; [reflexivity |].
  unfold bind at 1. rewrite draw_eq. unfold bind at 1. unfold get at 1.
  cbn [funds with_trace].
  destruct (funds w !! _id (fields d)); unfold bind, modify, ret, throw;
    cbn [snd trace with_trace with_funds]; rewrite submitted_app; apply app_nil_r.
Qed.

Lemma quiet_waitWithRetries {T} (action : M T) (condition : T -> bool) (msg : string) :
  quiet action -> quiet (waitWithRetries action condition msg).
Proof.
  intros Haction. unfold waitWithRetries. generalize 8%nat. intros left.
  induction left as [| left IH]; cbn [waitWithRetries_from].
  - apply quiet_throw.
  - apply quiet_bind.
    + apply quiet_try_catch.
      * apply quiet_bind; [exact Haction |].
        intros r. destruct (condition r); [apply quiet_ret | apply quiet_throw].
      * intros e. destruct (Nat.eqb left 0); [apply quiet_throw | apply quiet_ret].
    + intros [r |]; [apply quiet_ret | exact IH].
Qed.

Lemma transferCompleted_saved (ps : list FundSet) (now : Date) (f : Fund) :
  pumpPortalTransferCompleted
    (apply_sets ((ps ++ [Set_pumpPortalTransferCompleted true]) ++ [Set_updatedAt now]) f)
  = true.
Proof.
  rewrite !apply_sets_app. cbn [apply_sets fold_left].
  destruct (apply_sets ps f). reflexivity.
Qed.

(** ** The funding step of a launch *)

(** X10. When the funding step of the orchestrator runs its transfer
    and returns, the document and the stored record have
    [pumpPortalTransferCompleted] true, the one transaction submitted
    is the transfer of the fund wallet's balance less the retained fee
    to the pump wallet (handed to the ledger between one and six
    times, each time the same), and the step run again on the returned
    document, with any balances, does nothing. *)
Theorem X10_funding_step_transfers_once_and_marks_the_fund (fundWallet pumpWalletKeypair : Keypair)
    (fund fund' : FundDoc)
    (pumpWalletBalance fundWalletBalance totalSolForPump feeRaiseWallet : float)
    (w w' : World) :
  pumpPortalTransferCompleted (fields fund) = false ->
  PrimFloat.ltb pumpWalletBalance (totalSolForPump - 0.09) = true ->
  fundPumpWallet env toString fundWallet pumpWalletKeypair fund pumpWalletBalance
    fundWalletBalance totalSolForPump feeRaiseWallet w = (Ok fund', w') ->
  pumpPortalTransferCompleted (fields fund') = true
  /\ stored pumpPortalTransferCompleted (_id (fields fund)) w' = Some true
  /\ (exists recent k,
        (1 <= k <= 6)%nat
        /\ submitted (trace w')
           = (submitted (trace w)
              ++ repeat (transfer_transaction fundWallet (publicKey pumpWalletKeypair)
                           (fundWalletBalance - feeRaiseWallet) false recent) k)%list)
  /\ (forall pumpWalletBalance2 fundWalletBalance2 totalSolForPump2 feeRaiseWallet2 w2,
        fundPumpWallet env toString fundWallet pumpWalletKeypair fund' pumpWalletBalance2
          fundWalletBalance2 totalSolForPump2 feeRaiseWallet2 w2 = (Ok fund', w2)).
Proof.
  intros Hflag Hbelow Hrun.
  unfold fundPumpWallet in Hrun. rewrite Hflag, Hbelow in Hrun. cbn [negb andb] in Hrun.
  destruct (PrimFloat.leb (fundWalletBalance - feeRaiseWallet) 0
            || PrimFloat.ltb fundWalletBalance (fundWalletBalance - feeRaiseWallet));
    [discriminate |].
  unfold bind at 1 in Hrun.
  destruct (transferSol_submitted fundWallet (publicKey pumpWalletKeypair)
              (fundWalletBalance - feeRaiseWallet) false w) as (recent & k & Hk & Hsent & Hone).
  destruct (transferSol env fundWallet (publicKey pumpWalletKeypair)
              (fundWalletBalance - feeRaiseWallet) false w) as [[sig | e] w1];
    [| discriminate].
  specialize (Hone sig eq_refl). cbn [snd] in Hsent.
  unfold bind at 1 in Hrun.
  pose proof (quiet_confirmTransaction sig None w1) as Hq1.
  destruct (confirmTransaction env sig None w1) as [[[] | e] w2]; [| discriminate].
  cbn [snd] in Hq1. unfold bind at 1 in Hrun.
  match type of Hrun with
  | context [waitWithRetries ?a ?c ?m w2] =>
      pose proof (quiet_waitWithRetries a c m (quiet_getBalance env _) w2) as Hq2;
      destruct (waitWithRetries a c m w2) as [[b | e] w3]; [| discriminate]
  end.
  cbn [snd] in Hq2.
  match type of Hrun with
  | Fund_save env ?d w3 = _ =>
      pose proof (quiet_Fund_save d w3) as Hq3;
      destruct (Fund_save_returned d fund' w3 w' (assign_modified _ _) Hrun)
        as (stored0 & Hstored & Hdoc & Hlook & _ & _)
  end.
  rewrite Hrun in Hq3. cbn [snd] in Hq3.
  assert (Hflag' : pumpPortalTransferCompleted (fields fund') = true).
  { rewrite Hdoc. cbn [fields assign]. destruct (fields fund). reflexivity. }
  split; [exact Hflag' |]. split.
  - unfold stored. cbn [assign fields modified] in Hlook.
    rewrite id_kept in Hlook. rewrite Hlook. cbn [fmap option_fmap option_map].
    rewrite transferCompleted_saved. reflexivity.
  - split.
    + exists recent, k. split; [lia |]. rewrite Hq3, Hq2, Hq1. exact Hsent.
    + intros. apply fundPumpWallet_completed. exact Hflag'.
Qed.

(** ** The wallet of the issuance service *)

Lemma truthy_str_Some (o : option string) :
  truthy_str o = true -> o = Some (default "" o).
Proof. destruct o; [reflexivity | discriminate]. Qed.

(** X11. The wallet [createAndLaunchTokenWithLightning] works with is
    the one the fund's record holds when the step is over: a fund that
    has all three details stored keeps them, and only its key is
    decoded (no request is made to the service); otherwise the details
    the service returns are saved in the record before they are
    used. *)
Theorem X11_pump_wallet_in_use_is_the_stored_one (f : Fund) (w w' : World)
    (fund' : FundDoc) (walletData : WalletData) (pumpWalletKeypair : Keypair) :
  funds w !! _id f = Some f ->
  acquirePumpWallet env (hydrate f) w = (Ok (fund', walletData, pumpWalletKeypair), w') ->
  stored pumpPortalApiKey (_id f) w' = Some (Some (wd_apiKey walletData))
  /\ stored pumpPortalWalletPublicKey (_id f) w'
     = Some (Some (wd_walletPublicKey walletData))
  /\ stored pumpPortalPrivateKey (_id f) w' = Some (Some (wd_privateKey walletData))
  /\ (truthy_str (pumpPortalWalletPublicKey f) && truthy_str (pumpPortalPrivateKey f)
      && truthy_str (pumpPortalApiKey f) = true ->
      w' = with_trace
             (trace w ++ [Called (KeypairFromSecretKey (wd_privateKey walletData))]) w).
Proof.
  intros Hstored Hrun. unfold acquirePumpWallet in Hrun. cbn [hydrate fields] in Hrun.
  destruct (truthy_str (pumpPortalWalletPublicKey f) && truthy_str (pumpPortalPrivateKey f)
            && truthy_str (pumpPortalApiKey f)) eqn:Hhas; cbn [negb] in Hrun.
  - apply andb_prop in Hhas. destruct Hhas as [Hhas Hapi].
    apply andb_prop in Hhas. destruct Hhas as [Hpub Hpriv].
    unfold bind at 1 in Hrun. unfold call at 1 in Hrun.
    destruct (answer env Keypair (length (trace w)) _) as [kp | e]; [| discriminate].
    unfold ret in Hrun. injection Hrun as <- <- <- <-.
    unfold stored. cbn [funds with_trace wd_apiKey wd_walletPublicKey wd_privateKey].
    rewrite Hstored. cbn [fmap option_fmap option_map].
    rewrite <- (truthy_str_Some _ Hapi), <- (truthy_str_Some _ Hpub),
      <- (truthy_str_Some _ Hpriv).
    repeat split; reflexivity.
  - unfold bind at 1 in Hrun.
    pose proof (frame_fetchWithRetry env FetchCreateWallet w) as [Hf1 _].
    destruct (fetchWithRetry env FetchCreateWallet w) as [[response | e] w1];
      [| discriminate].
    cbn [snd] in Hf1. unfold bind at 1 in Hrun. unfold read_json in Hrun.
    destruct (http_json response) as [data | e]; [| discriminate].
    unfold ret at 1 in Hrun. unfold bind at 1 in Hrun. unfold call at 1 in Hrun.
    destruct (answer env Keypair (length (trace w1)) _) as [kp | e]; [| discriminate].
    unfold bind at 1 in Hrun.
    match type of Hrun with
    | context [Fund_save env ?d ?w3] =>
        destruct (Fund_save env d w3) as [[saved | e] w4] eqn:Hsave; [| discriminate];
        destruct (Fund_save_returned d saved w3 w4 (assign_modified _ _) Hsave)
          as (stored0 & _ & _ & Hlook & _ & _)
    end.
    unfold ret in Hrun. injection Hrun as <- <- <- <-.
    cbn [assign hydrate fields modified] in Hlook. rewrite !id_kept in Hlook.
    unfold stored. rewrite Hlook.
    cbn [fmap option_fmap option_map app apply_sets fold_left].
    destruct stored0. cbn. repeat split; try reflexivity. discriminate.
Qed.

(** ** The automatic launch of a fund without image *)

(** X12. The launch that follows a completing donation gives up at
    once for a fund without image: no call leaves the process, the
    orchestrator is not run, the record gets the launch error "Image is
    required for token creation on Pump.fun" and keeps its token
    address. *)
Theorem X12_automatic_launch_without_image_records_the_error (id : string)
    (totalSolToTransfer : float) (f : Fund) (w : World) :
  funds w !! id = Some f ->
  _id f = id ->
  truthy_str (image f) = false ->
  exists w',
    run_job env toString config (AutoLaunch id totalSolToTransfer) w = (Ok tt, w')
    /\ stored launchError id w'
       = Some (Some "Image is required for token creation on Pump.fun")
    /\ stored tokenAddress id w' = Some (tokenAddress f)
    /\ stored status id w' = Some (status f)
    /\ users w' = users w
    /\ trace w' = (trace w ++ [Drawn Now])%list.
Proof.
  intros Hstored Hid Himage. cbn [run_job]. unfold try_catch. unfold bind at 1.
  rewrite Fund_findById_eq, Hstored. cbn [fmap option_fmap option_map hydrate fields].
  rewrite Himage. cbn [negb]. unfold bind at 1.
  match goal with
  | |- context [Fund_save env ?d w] =>
      destruct (Fund_save env d w) as [[saved | e] w1] eqn:Hsave
  end.
  - match type of Hsave with
    | Fund_save env ?d w = _ =>
        assert (Hmod : modified d <> []) by (cbn; discriminate);
        destruct (Fund_save_returned d saved w w1 Hmod Hsave)
          as (stored0 & Hstored0 & _ & Hlook & Husers & Htrace)
    end.
    cbn [assign assign_launchStatus hydrate fields modified] in Hstored0, Hlook.
    rewrite id_kept, Hid in Hstored0, Hlook. rewrite Hstored in Hstored0.
    injection Hstored0 as <-.
    exists w1. unfold ret. split; [reflexivity |].
    unfold stored. rewrite Hlook. cbn [fmap option_fmap option_map app apply_sets fold_left].
    destruct f. cbn. repeat split; try reflexivity; assumption.
  - exfalso.
    match type of Hsave with
    | Fund_save env ?d w = _ =>
        assert (Hmod : modified d <> []) by (cbn; discriminate);
        assert (Hlook : funds w !! _id (fields d) = Some f)
          by (cbn [assign assign_launchStatus hydrate fields]; rewrite id_kept, Hid;
              exact Hstored);
        destruct (Fund_save_writes env d f w Hmod Hlook) as (w2 & Hrun & _)
    end.
    rewrite Hrun in Hsave. discriminate Hsave.
Qed.

(** ** The donor of a donation *)

Lemma same_users_bind {A B} (m : M A) (k : A -> M B) :
  same_users m -> (forall a, same_users (k a)) -> same_users (bind m k).
Proof.
  intros Hm Hk w. unfold bind. specialize (Hm w).
  destruct (m w) as [[a | e] w1]; cbn [snd] in *; [| exact Hm].
  rewrite (Hk a w1). exact Hm.
Qed.

Lemma same_users_Fund_save (d : FundDoc) : same_users (Fund_save env d).
Proof.
  intros w. unfold Fund_save. destruct (modified d) as [| p ps]; [reflexivity |].
  unfold bind at 1. rewrite draw_eq. unfold bind at 1. unfold get at 1.
  cbn [funds with_trace].
  destruct (funds w !! _id (fields d)); reflexivity.
Qed.

Lemma same_users_complete_fund (G balance : float) (id sig : string) (fund : FundDoc) :
  same_users (complete_fund env toString G balance id sig fund).
Proof.
  intros w. unfold complete_fund. unfold bind at 1. rewrite draw_eq.
  destruct (PrimFloat.ltb balance _); [reflexivity |].
  destruct (PrimFloat.leb _ 0); [reflexivity |].
  match goal with
  | |- users (snd (bind ?m ?k ?w1)) = _ =>
      rewrite (same_users_bind m k (same_users_Fund_save _) (fun saved w2 => eq_refl) w1)
  end.
  reflexivity.
Qed.

Lemma find_update_first (p : User -> bool) (g : User -> User) (us : list User) (u : User) :
  find p us = Some u -> p (g u) = true -> find p (update_first p g us) = Some (g u).
Proof.
  intros Hfind Hp. induction us as [| v us IH]; [discriminate |].
  cbn [find update_first] in *. destruct (p v) eqn:Hv.
  - injection Hfind as ->. cbn [find]. rewrite Hp. reflexivity.
  - cbn [find]. rewrite Hv. apply IH. exact Hfind.
Qed.

Lemma find_app_new (p : User -> bool) (us : list User) (u : User) :
  find p us = None -> p u = true -> find p (us ++ [u]) = Some u.
Proof.
  intros Hfind Hp. induction us as [| v us IH]; cbn [find app] in *.
  - rewrite Hp. reflexivity.
  - destruct (p v); [discriminate |]. apply IH. exact Hfind.
Qed.

Lemma find_walletAddress (wallet : string) (us : list User) (u : User) :
  User_findOne wallet us = Some u -> walletAddress u = wallet.
Proof.
  unfold User_findOne. intros H. apply find_some in H. destruct H as [_ H].
  apply String.eqb_eq. exact H.
Qed.

(** [findOneAndUpdate] with [upsert]: the donor found under the wallet
    afterwards is the one returned; it is the donor there was with the
    donation added, or a new one holding just the donation. *)
Lemma User_findOneAndUpdate_credits (wallet : string) (d : Donation) (w : World) :
  exists u w',
    User_findOneAndUpdate env wallet d w = (Ok u, w')
    /\ User_findOne wallet (users w') = Some u
    /\ match User_findOne wallet (users w) with
       | Some before => u = add_donation d before
       | None => donations u = [d] /\ totalDonatedSol u = amount d
       end.
Proof.
  unfold User_findOneAndUpdate. unfold bind at 1. unfold get at 1.
  destruct (User_findOne wallet (users w)) as [before |] eqn:Hfind.
  - unfold bind, modify, ret. eexists _, _. split; [reflexivity |].
    cbn [users with_users]. split; [| reflexivity].
    unfold User_findOne in *. apply find_update_first; [exact Hfind |].
    cbn [add_donation walletAddress]. apply find_some in Hfind. apply Hfind.
  - unfold bind at 1. rewrite draw_eq. unfold bind, modify, ret.
    eexists _, _. split; [reflexivity |].
    cbn [users with_users with_trace donations totalDonatedSol].
    split; [| split; reflexivity].
    unfold User_findOne in *. apply find_app_new; [exact Hfind |].
    cbn [walletAddress]. apply String.eqb_refl.
Qed.

Lemma settle_donation_users (G : float) (id : string) (amount : float)
    (donor sig : string) (fund : FundDoc) (balance : float) (w : World) :
  let d := {| fundId := _id (fields fund); amount := amount;
              donatedAt := value env Date (length (trace w)) Now |} in
  users (snd (settle_donation env toString G id amount donor sig fund balance w))
  = users (snd (User_findOneAndUpdate env donor d (with_trace (trace w ++ [Drawn Now]) w))).
Proof.
  intros d. unfold settle_donation. unfold bind at 1. rewrite draw_eq.
  cbn [assign fields]. rewrite id_kept. fold d.
  unfold bind at 1.
  destruct (User_findOneAndUpdate env donor d _) as [[u | e] w1]; [| reflexivity].
  cbn [snd].
  destruct (Num.geb _ _).
  - apply same_users_complete_fund.
  - match goal with
    | |- users (snd (bind ?m ?k ?w1)) = _ =>
        exact (same_users_bind m k (same_users_Fund_save _) (fun saved w2 => eq_refl) w1)
    end.
Qed.

(** X13. Every admitted donation whose payment verifies is credited to
    its donor, whatever happens to the campaign afterwards: the user
    found under the donor's wallet after the task has the donation
    appended and [totalDonatedSol] raised by the amount, and a donor
    that was unknown is created with just this donation. *)
Theorem X13_verified_donation_is_credited_to_the_donor (G : float) (req : DonateRequest)
    (w w0 : World) (f : Fund) (balance : float) :
  funds w !! req_id req = Some f ->
  _id f = req_id req ->
  admitted config req f ->
  verified_then_read env toString req f w balance w0 ->
  let donorWallet := default "" (req_donorWallet req) in
  let donation := {| fundId := _id f; amount := req_amount req;
                     donatedAt := value env Date (length (trace w0)) Now |} in
  exists t w' donor,
    donation_body env toString config G req w = (Ok t, w')
    /\ User_findOne donorWallet (users w') = Some donor
    /\ match User_findOne donorWallet (users w) with
       | Some before =>
           donations donor = (donations before ++ [donation])%list
           /\ totalDonatedSol donor = totalDonatedSol before + req_amount req
       | None =>
           donations donor = [donation] /\ totalDonatedSol donor = req_amount req
       end.
Proof.
  intros Hf Hid Hadmitted Hread donorWallet donation.
  destruct (donation_body_settles env toString config G req w w0 f balance Hf Hadmitted Hread)
    as (Hbody & Hfunds & Husers).
  destruct (settle_donation_outcome env toString G (req_id req) (req_amount req)
              donorWallet (default "" (req_txSignature req)) f balance w0)
    as (t & w' & Hrun & _).
  { rewrite Hid, Hfunds. exact Hf. }
  pose proof (settle_donation_users G (req_id req) (req_amount req) donorWallet
                (default "" (req_txSignature req)) (hydrate f) balance w0) as Hu.
  cbn [hydrate fields] in Hu. fold donation in Hu.
  fold donorWallet in Hbody. rewrite Hrun in Hu. cbn [snd] in Hu.
  destruct (User_findOneAndUpdate_credits donorWallet donation
              (with_trace (trace w0 ++ [Drawn Now]) w0)) as (u & w1 & Hupd & Hfound & Hcase).
  rewrite Hupd in Hu. cbn [snd] in Hu. cbn [users with_trace] in Hcase.
  exists t, w', u. split; [rewrite Hbody; exact Hrun |].
  split; [rewrite Hu; exact Hfound |].
  rewrite <- Husers.
  destruct (User_findOne donorWallet (users w0)) as [before |].
  - subst u. split; reflexivity.
  - exact Hcase.
Qed.

(** ** When a donation completes the campaign *)

(** The completion branch on a document whose record is stored: it
    gives up on either test and then writes nothing; otherwise it
    saves the document and hands the launch its amount. *)
Lemma complete_fund_result (G balance : float) (id sig : string) (fund1 : FundDoc)
    (stored0 : Fund) (w1 : World) :
  funds w1 !! _id (fields fund1) = Some stored0 ->
  let fee := initialFeePaid (fields fund1) in
  let donated := currentDonatedSol (fields fund1) in
  let handed := (donated - donated * 0.01) + (fee - fee * 0.3) in
  let now := value env Date (length (trace w1)) Now in
  exists t w',
    complete_fund env toString G balance id sig fund1 w1 = (Ok t, w')
    /\ if PrimFloat.ltb balance (fee + donated - G) || PrimFloat.leb handed 0
       then funds w' = funds w1 /\ scheduled t = None /\ responseData t = None
       else (exists now2,
               funds w' !! _id (fields fund1)
               = Some (apply_sets (modified fund1
                                   ++ [Set_status completed; Set_completedAt now;
                                       Set_updatedAt now2]) stored0))
            /\ scheduled t = Some (AutoLaunch id handed)
            /\ is_Some (responseData t).
Proof.
  intros Hstored fee donated handed now. unfold complete_fund.
  unfold bind at 1. rewrite draw_eq. fold now.
  cbn [assign assign_launchStatus fields].
  rewrite !initialFeePaid_kept.
  rewrite !(currentDonatedSol_kept _ _) by discriminate.
  fold fee. fold donated. fold handed.
  destruct (PrimFloat.ltb balance (fee + donated - G)).
  { unfold task_error, ret. eexists _, _. split; [reflexivity |].
    cbn [orb scheduled responseData funds with_trace]. auto. }
  destruct (PrimFloat.leb handed 0).
  { unfold task_error, ret. eexists _, _. split; [reflexivity |].
    cbn [orb scheduled responseData funds with_trace]. auto. }
  match goal with
  | |- context [bind (Fund_save env ?d) _ ?w0] =>
      destruct (Fund_save_writes env d stored0 w0) as (w2 & Hsave & Hlook & _)
  end.
  { cbn [modified assign assign_launchStatus]. destruct (modified fund1); cbn; discriminate. }
  { cbn [fields funds with_trace assign assign_launchStatus]. rewrite !id_kept. exact Hstored. }
  unfold bind. rewrite Hsave. unfold task_data, ret.
  eexists _, _. split; [reflexivity |].
  cbn [orb scheduled responseData].
  split; [| split; [reflexivity | eexists; reflexivity]].
  cbn [fields modified assign assign_launchStatus] in Hlook.
  rewrite !id_kept in Hlook. eexists. rewrite Hlook.
  rewrite <- !app_assoc. reflexivity.
Qed.

(** X14. A verified donation completes the campaign exactly when the
    total computed from the balance reaches the target and neither the
    balance test nor the test on the amount for the launch stops it.
    The stored fund then has a completion date, and the launch is
    scheduled with that total less 1%, plus 70% of the fee; a fund
    left active has no launch scheduled. *)
Theorem X14_donation_completes_the_fund_exactly_at_the_target (G : float)
    (req : DonateRequest) (w w0 : World) (f : Fund) (balance : float) :
  funds w !! req_id req = Some f ->
  _id f = req_id req ->
  admitted config req f ->
  verified_then_read env toString req f w balance w0 ->
  let total := Num.Math_max 0 (balance - initialFeePaid f) in
  let handed := (total - total * 0.01) + (initialFeePaid f - initialFeePaid f * 0.3) in
  exists t w',
    donation_body env toString config G req w = (Ok t, w')
    /\ (stored status (req_id req) w' = Some completed
        <-> Num.geb total (targetSolAmount f) = true
            /\ PrimFloat.ltb balance (initialFeePaid f + total - G) = false
            /\ PrimFloat.leb handed 0 = false)
    /\ (stored status (req_id req) w' = Some completed ->
        (exists date, stored completedAt (req_id req) w' = Some (Some date))
        /\ scheduled t = Some (AutoLaunch (req_id req) handed)
        /\ is_Some (responseData t))
    /\ (stored status (req_id req) w' = Some active -> scheduled t = None).
Proof.
  intros Hf Hid Hadmitted Hread total handed.
  destruct (donation_body_settles env toString config G req w w0 f balance Hf Hadmitted Hread)
    as (Hbody & Hfunds & _).
  destruct Hadmitted as (_ & _ & _ & _ & Hactive & _).
  rewrite Hbody.
  destruct (settle_donation_branches env toString G (req_id req) (req_amount req)
              (default "" (req_donorWallet req)) (default "" (req_txSignature req))
              (hydrate f) balance w0) as (w1 & Hfunds1 & Hsettle).
  rewrite Hsettle. cbn [hydrate fields]. fold total.
  assert (Hstored1 : funds w1 !! _id f = Some f) by (rewrite Hfunds1, Hfunds, Hid; exact Hf).
  destruct (Num.geb total (targetSolAmount f)) eqn:Hreached.
  - destruct (complete_fund_result G balance (req_id req) (default "" (req_txSignature req))
                (assign (Set_currentDonatedSol total) (hydrate f)) f w1)
      as (t & w' & Hrun & Hcase).
    { cbn [assign hydrate fields]. rewrite id_kept. exact Hstored1. }
    cbn [assign hydrate fields modified app] in Hcase.
    rewrite initialFeePaid_kept, currentDonatedSol_set, id_kept in Hcase.
    fold total in Hcase. fold handed in Hcase.
    exists t, w'. split; [exact Hrun |].
    destruct (PrimFloat.ltb balance (initialFeePaid f + total - G)) eqn:Hmismatch;
      [| destruct (PrimFloat.leb handed 0) eqn:Hnone]; cbn [orb] in Hcase.
    + destruct Hcase as (Hsame & Hnojob & _).
      assert (Hst : stored status (req_id req) w' = Some active).
      { unfold stored. rewrite Hsame, <- Hid, Hstored1. cbn. rewrite Hactive. reflexivity. }
      rewrite Hst. split; [split; [discriminate | intros (_ & H & _); discriminate H] |].
      split; [discriminate | intros _; exact Hnojob].
    + destruct Hcase as (Hsame & Hnojob & _).
      assert (Hst : stored status (req_id req) w' = Some active).
      { unfold stored. rewrite Hsame, <- Hid, Hstored1. cbn. rewrite Hactive. reflexivity. }
      rewrite Hst. split; [split; [discriminate | intros (_ & _ & H); discriminate H] |].
      split; [discriminate | intros _; exact Hnojob].
    + destruct Hcase as ((now2 & Hlook) & Hjob & Hresponse).
      assert (Hst : stored status (req_id req) w' = Some completed).
      { unfold stored. rewrite <- Hid, Hlook. cbn [apply_sets fold_left].
        destruct f. reflexivity. }
      rewrite Hst. split; [split; [intros _; auto | reflexivity] |].
      split; [| discriminate]. intros _. split; [| split; assumption].
      eexists. unfold stored. rewrite <- Hid, Hlook. cbn [apply_sets fold_left].
      destruct f. reflexivity.
  - destruct (Fund_save_writes env (assign (Set_currentDonatedSol total) (hydrate f)) f w1)
      as (w2 & Hsave & Hlook & _).
    { apply assign_modified. }
    { cbn [assign hydrate fields]. rewrite id_kept. exact Hstored1. }
    unfold bind. rewrite Hsave. unfold task_data, ret.
    eexists _, _. split; [reflexivity |].
    cbn [assign hydrate fields modified app] in Hlook. rewrite id_kept in Hlook.
    assert (Hst : stored status (req_id req) w2 = Some active).
    { unfold stored. rewrite <- Hid, Hlook. cbn [apply_sets fold_left].
      rewrite <- Hactive. destruct f. reflexivity. }
    rewrite Hst. cbn [scheduled].
    split; [split; [discriminate | intros (H & _); discriminate H] |].
    split; [discriminate | reflexivity].
Qed.

(** ** Donations that are turned away *)


Lemma verifySolPayment_fails (sig donor receiver : string) (amount : float) (w : World)
    (s r : string) (tx : ParsedTx) :
  (forall n, answer env string n (NewPublicKey donor) = Ok s) ->
  (forall n, answer env string n (NewPublicKey receiver) = Ok r) ->
  (forall n, answer env (option ParsedTx) n (GetParsedTransaction sig) = Ok (Some tx)) ->
  logically_fails s r (Num.Math_floor (amount * Num.LAMPORTS_PER_SOL)) tx ->
  fst (verifySolPayment env toString sig donor receiver amount w)
  = Throw (Error (failure_message toString s r amount tx)).
Proof.
  intros Hs Hr Htx Hfails. unfold verifySolPayment.
  unfold bind at 1. unfold call at 1. rewrite Hs.
  unfold bind at 1. unfold call at 1. rewrite Hr.
  apply verify_from_throws; assumption.
Qed.

(** X16. A donation whose transaction is on the ledger but does not
    hold the transfer (no system transfer from the donor to the fund
    wallet, or too few lamports) is not answered 400: the handler
    throws the verifier's Error, which goes to the error middleware.
    Nothing is written. *)
Theorem X16_unverified_donation_throws_and_writes_nothing (req : DonateRequest)
    (w : World) (f : Fund) (s r : string) (tx : ParsedTx) :
  funds w !! req_id req = Some f ->
  admitted config req f ->
  (forall n, answer env string n (NewPublicKey (default "" (req_donorWallet req))) = Ok s) ->
  (forall n, answer env string n (NewPublicKey (fundWalletAddress f)) = Ok r) ->
  (forall n, answer env (option ParsedTx) n
               (GetParsedTransaction (default "" (req_txSignature req))) = Ok (Some tx)) ->
  logically_fails s r (Num.Math_floor (req_amount req * Num.LAMPORTS_PER_SOL)) tx ->
  exists w',
    donate env toString config req w
    = (Throw (Error (failure_message toString s r (req_amount req) tx)), w')
    /\ funds w' = funds w /\ users w' = users w.
Proof.
  intros Hf (Hdonor & Hsig & Hmin & Hmax & Hst & Hfee) Hs Hr Htx Hfails.
  destruct (calculateGasFeeReserve_returns env w) as (G & w1 & HG & Hf1 & Hu1).
  pose proof (verifySolPayment_fails (default "" (req_txSignature req))
                (default "" (req_donorWallet req)) (fundWalletAddress f) (req_amount req)
                w1 s r tx Hs Hr Htx Hfails) as Hthrows.
  pose proof (frame_verifySolPayment env toString (default "" (req_txSignature req))
                (default "" (req_donorWallet req)) (fundWalletAddress f)
                (req_amount req) w1) as [Hf2 Hu2].
  destruct (verifySolPayment env toString (default "" (req_txSignature req))
              (default "" (req_donorWallet req)) (fundWalletAddress f) (req_amount req) w1)
    as [result w2] eqn:Hverify.
  cbn [fst snd] in *. subst result.
  exists w2. split; [| split; congruence].
  unfold donate, donation_task. unfold bind at 1. unfold bind at 1. rewrite HG.
  unfold donation_body. rewrite Hdonor, Hsig, Hmin, Hmax. cbn [negb orb].
  unfold bind at 1. rewrite Fund_findById_eq, Hf1, Hf.
  cbn [fmap option_fmap option_map hydrate fields].
  rewrite Hst, Hfee. cbn [FundStatus_eqb].
  unfold bind at 1. rewrite Hverify. reflexivity.
Qed.

(** ** The list of funds and the detail of a fund *)

(** X17. The list handler answers 400 without any query or call when
    [status] is given and is neither empty, "active" nor "completed",
    or when [page] or [limit] is not a number or is below 1. *)
Theorem X17_list_rejects_bad_status_and_pagination (req : ListRequest) (w : World) :
  (exists s, lq_status req = Some s /\ s <> "" /\ s <> "active" /\ s <> "completed")
  \/ PrimFloat.is_nan (lq_pageNum req) = true
  \/ PrimFloat.is_nan (lq_limitNum req) = true
  \/ PrimFloat.ltb (lq_pageNum req) 1 = true
  \/ PrimFloat.ltb (lq_limitNum req) 1 = true ->
  exists msg, list_funds env req w = (Ok (error_reply 400 msg), w).
Proof.
  intros Hbad. unfold list_funds.
  destruct (negb (String.eqb (match lq_status req with Some s => s | None => "active" end) "")
            && negb (String.eqb (match lq_status req with Some s => s | None => "active" end)
                       "active"
                     || String.eqb (match lq_status req with Some s => s | None => "active" end)
                          "completed")) eqn:Hstatus.
  - unfold ret. eauto.
  - destruct Hbad as [(s & Hs & Hne & Hna & Hnc) | Hbad].
    + exfalso. rewrite Hs in Hstatus.
      apply String.eqb_neq in Hne, Hna, Hnc. rewrite Hne, Hna, Hnc in Hstatus.
      discriminate Hstatus.
    + replace (PrimFloat.is_nan (lq_pageNum req) || PrimFloat.is_nan (lq_limitNum req)
               || PrimFloat.ltb (lq_pageNum req) 1 || PrimFloat.ltb (lq_limitNum req) 1)
        with true.
      * unfold ret. eauto.
      * symmetry. destruct Hbad as [H | [H | [H | H]]]; rewrite H;
          repeat (rewrite ?orb_true_r, ?orb_true_l); reflexivity.
Qed.

Lemma fund_with_balance_item (us : list User) (fund : Fund) (w : World) :
  exists o w', fund_with_balance env us fund w = (Ok o, w') /\ has_balance o.
Proof.
  unfold fund_with_balance, try_catch.
  match goal with
  | |- context [bind ?m ?k w] => destruct (bind m k w) as [[o | e] w1] eqn:Hrun
  end.
  - exists o, w1. split; [reflexivity |].
    unfold bind at 1 in Hrun.
    destruct (call env (NewPublicKey (fundWalletAddress fund)) w) as [[pk | e] w2];
      [| discriminate].
    unfold bind at 1 in Hrun.
    destruct (getBalance env pk w2) as [[balance | e] w3]; [| discriminate].
    unfold ret in Hrun. injection Hrun as <- <-.
    right. exists balance. apply lookup_insert_eq.
  - unfold ret. eexists _, _. split; [reflexivity |]. left. apply lookup_insert_eq.
Qed.

Lemma mapM_fund_with_balance_items (us : list User) (found : list Fund) (w : World) :
  exists items w',
    mapM (fund_with_balance env us) found w = (Ok items, w')
    /\ length items = length found
    /\ Forall has_balance items.
Proof.
  revert w. induction found as [| fund found IH]; intros w; cbn [mapM].
  - unfold ret. exists [], w. repeat split. constructor.
  - destruct (fund_with_balance_item us fund w) as (o & w1 & Hrun & Ho).
    destruct (IH w1) as (items & w2 & Hrest & Hlen & Hall).
    unfold bind. rewrite Hrun, Hrest. unfold ret.
    exists (o :: items), w2. split; [reflexivity |].
    split; [cbn [length]; congruence | constructor; assumption].
Qed.

(** X18. A balance that cannot be read never fails the list: for a
    request the handler lets through, whenever the count, the query
    and the second count are answered, the reply is 200 with one item
    for each fund found, each with a [currentBalance] that is a number
    or null, the second count as [total], the page, and
    [Math.ceil(total / limit)] pages. *)
Theorem X18_list_replies_whatever_the_balances (req : ListRequest) (w : World)
    (count : float) (found : list Fund) (totalFunds : float) :
  status_accepted req ->
  PrimFloat.is_nan (lq_pageNum req) = false ->
  PrimFloat.is_nan (lq_limitNum req) = false ->
  PrimFloat.ltb (lq_pageNum req) 1 = false ->
  PrimFloat.ltb (lq_limitNum req) 1 = false ->
  answer env float (length (trace w)) (FundCount (list_query req)) = Ok count ->
  answer env (list Fund) (S (length (trace w))) (FundFind (list_query req)) = Ok found ->
  answer env float (S (S (length (trace w)))) (FundCount (list_query req)) = Ok totalFunds ->
  exists items w',
    list_funds env req w
    = (Ok {| code := 200;
             body := {[ "funds" := JArr (JObj <$> items);
                        "total" := JNum totalFunds;
                        "page" := JNum (lq_pageNum req);
                        "pages" := JNum (Num.Math_ceil (totalFunds / lq_limitNum req)) ]} |},
       w')
    /\ length items = length found
    /\ Forall has_balance items.
Proof.
  intros Hstatus Hp Hl Hp1 Hl1 Hcount Hfound Htotal. unfold list_funds.
  replace (negb (String.eqb (match lq_status req with Some s => s | None => "active" end) "")
           && negb (String.eqb (match lq_status req with Some s => s | None => "active" end)
                      "active"
                    || String.eqb (match lq_status req with Some s => s | None => "active" end)
                         "completed")) with false.
  2:{ unfold status_accepted in Hstatus. destruct (lq_status req) as [s |]; [| reflexivity].
      destruct Hstatus as [-> | [-> | ->]]; reflexivity. }
  rewrite Hp, Hl, Hp1, Hl1. cbn [orb].
  fold (list_query req).
  unfold bind at 1. unfold call at 1. rewrite Hcount.
  unfold bind at 1. unfold call at 1. cbn [trace with_trace].
  rewrite length_app. cbn [length]. rewrite Nat.add_1_r, Hfound.
  unfold bind at 1. unfold call at 1. cbn [trace with_trace].
  rewrite !length_app. cbn [length]. rewrite !Nat.add_1_r, Htotal.
  unfold bind at 1. unfold get at 1. cbn [users with_trace].
  match goal with
  | |- context [bind (mapM (fund_with_balance env ?us) found) _ ?w3] =>
      destruct (mapM_fund_with_balance_items us found w3) as (items & w4 & Hrun & Hlen & Hall)
  end.
  unfold bind. rewrite Hrun. unfold ret.
  exists items, w4. split; [reflexivity | split; assumption].
Qed.



(** ** Who may launch *)

(** X20. A launch request from a wallet that is not the creator's is
    answered 403 before the fund's key is touched: no call is made,
    nothing is written and no launch is scheduled, whatever the state
    of the fund. *)
Theorem X20_only_the_creator_may_launch (req : LaunchRequest) (w : World) (f : Fund)
    (creator : User) :
  truthy_str (lreq_userWallet req) = true ->
  funds w !! lreq_id req = Some f ->
  User_findById (userId f) (users w) = Some creator ->
  walletAddress creator <> default "" (lreq_userWallet req) ->
  launch_handler env req w
  = (Ok (error_reply 403 "Only the fund creator can launch the token", None), w).
Proof.
  intros Hwallet Hf Hcreator Hother. unfold launch_handler.
  rewrite Hwallet. cbn [negb]. unfold bind at 1. rewrite Fund_findById_eq, Hf.
  cbn [fmap option_fmap option_map hydrate fields].
  unfold bind at 1. unfold get at 1. rewrite Hcreator.
  apply String.eqb_neq in Hother. rewrite Hother. reflexivity.
Qed.

(** ** The check before a donation *)



(** ** Users *)

Variable toISOString : Date -> string.

(** X24. Registration is idempotent.  A wallet that is registered is
    answered with its user's id and nothing changes, no id is even
    drawn; a new wallet gets one user without donations, added after
    the others; either way a second registration finds that user,
    answers the same and changes nothing. *)
Theorem X24_register_is_idempotent (wallet : string) (w : World) :
  wallet <> "" ->
  exists user w1,
    register env (Some wallet) w
    = (Ok {| code := 200;
             body := {[ "userId" := JStr (user_id user);
                        "walletAddress" := JStr wallet ]} |}, w1)
    /\ funds w1 = funds w
    /\ User_findOne wallet (users w1) = Some user
    /\ match User_findOne wallet (users w) with
       | Some _ => w1 = w
       | None =>
           users w1 = (users w ++ [user])%list
           /\ donations user = [] /\ totalDonatedSol user = 0
       end
    /\ register env (Some wallet) w1
       = (Ok {| code := 200;
                body := {[ "userId" := JStr (user_id user);
                           "walletAddress" := JStr wallet ]} |}, w1).
Proof.
  intros Hwallet. apply String.eqb_neq in Hwallet.
  assert (Hknown : forall w0 user,
             User_findOne wallet (users w0) = Some user ->
             register env (Some wallet) w0
             = (Ok {| code := 200;
                      body := {[ "userId" := JStr (user_id user);
                                 "walletAddress" := JStr wallet ]} |}, w0)).
  { intros w0 user Hfind. unfold register. cbn [truthy_str]. rewrite Hwallet. cbn [negb].
    change (default "" (Some wallet)) with wallet.
    unfold bind at 1. unfold get at 1. rewrite Hfind.
    unfold bind, ret. rewrite (find_walletAddress _ _ _ Hfind). reflexivity. }
  destruct (User_findOne wallet (users w)) as [user |] eqn:Hfind.
  - exists user, w. rewrite (Hknown w user Hfind). repeat split; assumption.
  - set (user := {| user_id := value env string (length (trace w)) NewObjectId;
                    walletAddress := wallet; user_name := None; email := None;
                    donations := []; totalDonatedSol := 0 |}).
    assert (Hnew : User_findOne wallet (users w ++ [user]) = Some user).
    { unfold User_findOne in *. apply find_app_new; [exact Hfind |].
      cbn [user walletAddress]. apply String.eqb_refl. }
    exists user, (with_users (users w ++ [user])
                    (with_trace (trace w ++ [Drawn NewObjectId]) w)).
    split; [| split; [| split; [| split]]].
    + unfold register. cbn [truthy_str]. rewrite Hwallet. cbn [negb].
      change (default "" (Some wallet)) with wallet.
      unfold bind at 1. unfold get at 1. rewrite Hfind.
      unfold User_create. unfold bind at 1. unfold bind at 1. rewrite draw_eq.
      unfold bind, modify, ret. reflexivity.
    + reflexivity.
    + exact Hnew.
    + repeat split.
    + apply Hknown. exact Hnew.
Qed.

Lemma update_first_length (p : User -> bool) (g : User -> User) (us : list User) :
  length (update_first p g us) = length us.
Proof.
  induction us as [| u us IH]; cbn [update_first length]; [reflexivity |].
  destruct (p u); cbn [length]; congruence.
Qed.

(** X25. The profile update changes a name and an e-mail address and
    nothing else.  It makes no call; a reply other than 200 leaves
    every record as it was, and a wallet without a user is not given
    one.  After a reply of 200 the same users are stored, the one of
    the wallet with its donations and its total untouched, with the
    trimmed name when a name was sent (never an empty one, and only
    for a string), and likewise the e-mail address, which must contain
    an "@". *)
Theorem X25_profile_update_touches_name_and_email_only (wallet : string)
    (body_name body_email : option jsval) (w : World) :
  exists r w',
    update_profile toISOString wallet body_name body_email w = (Ok r, w')
    /\ funds w' = funds w /\ trace w' = trace w
    /\ (code r <> 200%nat -> w' = w)
    /\ (code r = 200%nat ->
        exists before after,
          User_findOne wallet (users w) = Some before
          /\ User_findOne wallet (users w') = Some after
          /\ length (users w') = length (users w)
          /\ user_id after = user_id before
          /\ walletAddress after = wallet
          /\ donations after = donations before
          /\ totalDonatedSol after = totalDonatedSol before
          /\ match body_name with
             | None => user_name after = user_name before
             | Some v => exists s, v = JStr s /\ user_name after = Some (trim s)
                                   /\ trim s <> ""
             end
          /\ match body_email with
             | None => email after = email before
             | Some v => exists s, v = JStr s /\ email after = Some (trim s)
                                   /\ trim s <> "" /\ includes "@" s = true
             end).
Proof.
  unfold update_profile.
  destruct (String.eqb wallet "").
  { unfold ret. eexists _, _. split; [reflexivity |]. cbn [code error_reply].
    repeat split; try reflexivity. discriminate. }
  destruct (checked_name body_name) as [updates_name |] eqn:Hname.
  2:{ unfold ret. eexists _, _. split; [reflexivity |]. cbn [code error_reply].
      repeat split; try reflexivity. discriminate. }
  destruct (checked_email body_email) as [updates_email |] eqn:Hemail.
  2:{ unfold ret. eexists _, _. split; [reflexivity |]. cbn [code error_reply].
      repeat split; try reflexivity. discriminate. }
  unfold bind at 1. unfold User_findOneAndSet. unfold bind at 1. unfold get at 1.
  destruct (User_findOne wallet (users w)) as [before |] eqn:Hfind.
  2:{ unfold ret. eexists _, _. split; [reflexivity |]. cbn [code error_reply].
      repeat split; try reflexivity. discriminate. }
  unfold bind, modify, ret. eexists _, _. split; [reflexivity |].
  cbn [code funds trace users with_users].
  split; [reflexivity |]. split; [reflexivity |].
  split; [intros H; contradiction H; reflexivity |]. intros _.
  exists before, (set_profile updates_name updates_email before).
  split; [reflexivity |]. split.
  { unfold User_findOne in *. apply find_update_first; [exact Hfind |].
    cbn [set_profile walletAddress]. apply find_some in Hfind. apply Hfind. }
  split; [apply update_first_length |].
  cbn [set_profile user_id walletAddress donations totalDonatedSol user_name email].
  split; [reflexivity |]. split; [apply (find_walletAddress _ _ _ Hfind) |].
  split; [reflexivity |]. split; [reflexivity |]. split.
  - unfold checked_name in Hname. destruct body_name as [v |].
    + destruct v; try discriminate.
      destruct (Nat.eqb (String.length (trim s)) 0) eqn:Hlen; [discriminate |].
      injection Hname as <-. exists s. repeat split.
      intros Hempty. rewrite Hempty in Hlen. discriminate Hlen.
    + injection Hname as <-. reflexivity.
  - unfold checked_email in Hemail. destruct body_email as [v |].
    + destruct v; try discriminate.
      destruct (includes "@" s) eqn:Hat; cbn [negb orb] in Hemail; [| discriminate].
      destruct (Nat.eqb (String.length (trim s)) 0) eqn:Hlen; [discriminate |].
      injection Hemail as <-. exists s. repeat split; [| exact Hat].
      intros Hempty. rewrite Hempty in Hlen. discriminate Hlen.
    + injection Hemail as <-. reflexivity.
Qed.

(** ** The creation of a fund *)

Variable websiteWalletKeypair : Keypair.

Lemma create_fund_malformed (req : CreateRequest) (w : World) :
  well_formed req = false ->
  exists msg,
    create_fund env toString config websiteWalletKeypair req w
    = (Ok (error_reply 400 msg), w).
Proof.
  unfold well_formed, link_accepted, create_fund. intros Hbad.
  destruct (truthy_str (cr_userWallet req)); cbn [negb orb andb] in *;
    [| unfold ret; eauto].
  destruct (truthy_str (cr_name req)); cbn [negb orb andb] in *; [| unfold ret; eauto].
  destruct (truthy_str (cr_tokenName req)); cbn [negb orb andb] in *; [| unfold ret; eauto].
  destruct (truthy_str (cr_tokenSymbol req)); cbn [negb orb andb] in *;
    [| unfold ret; eauto].
  destruct (truthy_str (cr_tokenDescription req)); cbn [negb orb andb] in *;
    [| unfold ret; eauto].
  destruct (truthy_number (cr_targetPercentage req)); cbn [negb orb andb] in *;
    [| unfold ret; eauto].
  destruct (truthy_str (cr_targetWallet req)); cbn [negb orb andb] in *;
    [| unfold ret; eauto].
  destruct (truthy_str (cr_txSignature req)); cbn [negb orb andb] in *;
    [| unfold ret; eauto].
  destruct (truthy_str (cr_tokenTwitter req)); cbn [negb orb andb] in *.
  { destruct (isValidUrl (default "" (cr_tokenTwitter req))); cbn [negb orb andb] in *;
      [| unfold ret; eauto].
    destruct (truthy_str (cr_tokenTelegram req)); cbn [negb orb andb] in *.
    { destruct (isValidUrl (default "" (cr_tokenTelegram req))); cbn [negb orb andb] in *;
        [| unfold ret; eauto].
      destruct (truthy_str (cr_tokenWebsite req)); cbn [negb orb andb] in *.
      { destruct (isValidUrl (default "" (cr_tokenWebsite req))); cbn [negb orb andb] in *;
          [| unfold ret; eauto].
        rewrite Hbad. unfold ret. eauto. }
      rewrite Hbad. unfold ret. eauto. }
    destruct (truthy_str (cr_tokenWebsite req)); cbn [negb orb andb] in *.
    { destruct (isValidUrl (default "" (cr_tokenWebsite req))); cbn [negb orb andb] in *;
        [| unfold ret; eauto].
      rewrite Hbad. unfold ret. eauto. }
    rewrite Hbad. unfold ret. eauto. }
  destruct (truthy_str (cr_tokenTelegram req)); cbn [negb orb andb] in *.
  { destruct (isValidUrl (default "" (cr_tokenTelegram req))); cbn [negb orb andb] in *;
      [| unfold ret; eauto].
    destruct (truthy_str (cr_tokenWebsite req)); cbn [negb orb andb] in *.
    { destruct (isValidUrl (default "" (cr_tokenWebsite req))); cbn [negb orb andb] in *;
        [| unfold ret; eauto].
      rewrite Hbad. unfold ret. eauto. }
    rewrite Hbad. unfold ret. eauto. }
  destruct (truthy_str (cr_tokenWebsite req)); cbn [negb orb andb] in *.
  { destruct (isValidUrl (default "" (cr_tokenWebsite req))); cbn [negb orb andb] in *;
      [| unfold ret; eauto].
    rewrite Hbad. unfold ret. eauto. }
  rewrite Hbad. unfold ret. eauto.
Qed.

(** X22. A creation request is refused with 400 before anything
    happens (no user is created, no call is made, nothing is written)
    when a required member is missing or empty, when
    [targetPercentage] is not one of 5, 10, 25, 50 and 75, or when a
    link that is given is not a URL for [isValidUrl]. *)
Theorem X22_malformed_creation_request_is_refused_untouched (req : CreateRequest)
    (w : World) :
  well_formed req = false ->
  exists msg,
    create_fund env toString config websiteWalletKeypair req w
    = (Ok (error_reply 400 msg), w).
Proof. apply create_fund_malformed. Qed.

Lemma quiet_verifySolPayment (sig sender receiver : string) (amount : float) :
  quiet (verifySolPayment env toString sig sender receiver amount).
Proof.
  unfold verifySolPayment.
  apply quiet_bind; [apply quiet_call; reflexivity |]. intros s.
  apply quiet_bind; [apply quiet_call; reflexivity |]. intros r.
  generalize 10%nat. intros left.
  induction left as [| left IH]; cbn [verify_from].
  - apply quiet_throw.
  - apply quiet_bind.
    + apply quiet_try_catch.
      * unfold verify_attempt. apply quiet_bind.
        -- apply quiet_withRetry. apply quiet_call. reflexivity.
        -- intros [tx |].
           ++ destruct (Num.strict_eq (slot tx) 0).
              ** destruct (Nat.eqb left 0); [apply quiet_throw | apply quiet_ret].
              ** destruct (find _ (instructions tx)) as [[| p] |]; try apply quiet_throw.
                 destruct (PrimFloat.ltb (lamports p) _);
                   [apply quiet_throw | apply quiet_ret].
           ++ destruct (Nat.eqb left 0); [apply quiet_throw | apply quiet_ret].
      * intros e. destruct (Nat.eqb left 0); [apply quiet_throw | apply quiet_ret].
    + intros [b |]; [apply quiet_ret | exact IH].
Qed.

Lemma quiet_calculateGasFeeReserve : quiet (calculateGasFeeReserve env).
Proof.
  unfold calculateGasFeeReserve. apply quiet_try_catch; [| intros; apply quiet_ret].
  apply quiet_bind; [apply quiet_call; reflexivity |]. intros bh.
  apply quiet_bind; [apply quiet_call; reflexivity |]. intros [value |].
  - destruct (Num.truthy value); [apply quiet_ret | apply quiet_throw].
  - apply quiet_throw.
Qed.

(** The creator of a new fund: the user of the wallet, created when
    there is none. *)
Lemma creator_found_or_created (wallet : string) (w : World) :
  exists user w1,
    match User_findOne wallet (users w) with
    | Some user => ret user
    | None => User_create env wallet
    end w = (Ok user, w1)
    /\ funds w1 = funds w
    /\ User_findOne wallet (users w1) = Some user
    /\ submitted (trace w1) = submitted (trace w).
Proof.
  destruct (User_findOne wallet (users w)) as [user |] eqn:Hfind.
  - exists user, w. unfold ret. repeat split. exact Hfind.
  - unfold User_create. unfold bind at 1. rewrite draw_eq. unfold bind, modify, ret.
    eexists _, _. split; [reflexivity |].
    cbn [funds users trace with_users with_trace]. split; [reflexivity |]. split.
    + unfold User_findOne in *. apply find_app_new; [exact Hfind |].
      cbn [walletAddress]. apply String.eqb_refl.
    + rewrite submitted_app. apply app_nil_r.
Qed.

(** The [catch] of the creation: it replies 500 and leaves no fund
    under the new id. *)
Lemma undo_the_new_fund_outcome (id userWallet : string) (G : float) (error : exn)
    (w : World) :
  exists r w',
    undo_the_new_fund env config websiteWalletKeypair id userWallet G error w = (Ok r, w')
    /\ code r = 500%nat
    /\ funds w' = delete id (funds w)
    /\ users w' = users w.
Proof.
  unfold undo_the_new_fund. unfold bind at 1.
  match goal with
  | |- context [try_catch ?m ?h w] =>
      assert (Hframe : frame (try_catch m h));
      [| destruct (try_catch_ret_returns m None w) as (refund & w1 & Hrun);
         destruct (Hframe w) as [Hf Hu]; rewrite Hrun in Hf, Hu |- *; cbn [snd] in Hf, Hu ]
  end.
  { apply frame_try_catch; [| intros; apply frame_ret].
    apply frame_bind; [apply frame_getBalance |]. intros balance.
    destruct (Num.geb balance _); [| apply frame_ret].
    apply frame_bind; [apply frame_call |]. intros to.
    apply frame_bind; [apply frame_transferSol |]. intros sig. apply frame_ret. }
  unfold bind, modify, ret. eexists _, _. split; [reflexivity |].
  cbn [code funds users with_funds]. rewrite Hf, Hu. repeat split.
Qed.

(** The [try] of the creation: when it returns, the fund was inserted
    under a fresh id and then updated with the amount passed on, and
    that amount was sent; when it throws, no fund is stored under
    another id than before. *)
Lemma fund_the_new_fund_outcome (missing : list string) (id uid : string)
    (req : CreateRequest) (fundWallet : Keypair) (p G : float) (w : World) :
  let doc := new_Fund config id uid req fundWallet p in
  let passed := CROWD_FUND_CREATION_FEE config * 0.99 in
  let run := fund_the_new_fund env toString config websiteWalletKeypair missing doc
               fundWallet G w in
  users (snd run) = users w
  /\ match fst run with
     | Ok r =>
         code r = 201%nat
         /\ missing = []
         /\ funds w !! id = None
         /\ exists now1 now2 recent k,
              funds (snd run) = <[id := with_initialFeePaid passed now2 (doc now1)]> (funds w)
              /\ (1 <= k <= 6)%nat
              /\ submitted (trace (snd run))
                 = (submitted (trace w)
                    ++ repeat (transfer_transaction websiteWalletKeypair
                                 (publicKey fundWallet) passed true recent) k)%list
     | Throw _ =>
         forall key v, funds (snd run) !! key = Some v -> key = id \/ funds w !! key = Some v
     end.
Proof.
  intros doc passed run.
  destruct run as [res w'] eqn:Hrun. subst run. cbn [fst snd].
  unfold fund_the_new_fund in Hrun. fold passed in Hrun.
  unfold bind at 1 in Hrun. unfold Fund_insert in Hrun.
  destruct missing as [| path missing].
  2:{ unfold throw in Hrun. cbv beta iota in Hrun. injection Hrun as <- <-.
      split; [reflexivity |]. intros key v H. right. exact H. }
  unfold bind at 1 in Hrun. rewrite draw_eq in Hrun.
  unfold bind at 1 in Hrun. unfold get at 1 in Hrun.
  cbn [funds with_trace] in Hrun. change (_id (doc ?n)) with id in Hrun.
  destruct (funds w !! id) as [old |] eqn:Hfresh.
  { unfold throw in Hrun. cbv beta iota in Hrun. injection Hrun as <- <-.
    split; [reflexivity |]. intros key v H. right. exact H. }
  unfold bind at 1 in Hrun. unfold modify at 1 in Hrun. unfold ret at 1 in Hrun.
  cbn [funds with_trace] in Hrun.
  set (now1 := value env Date (length (trace w)) Now) in Hrun.
  set (w1 := with_funds (<[id := doc now1]> (funds w))
               (with_trace (trace w ++ [Drawn Now]) w)) in Hrun.
  assert (Hinserted : forall w2, funds w2 = funds w1 ->
            forall key v, funds w2 !! key = Some v -> key = id \/ funds w !! key = Some v).
  { intros w2 -> key v H. cbn [funds w1 with_funds] in H.
    apply lookup_insert_Some in H. destruct H as [[<- _] | [_ H]]; auto. }
  unfold bind at 1 in Hrun.
  pose proof (frame_getBalance env (publicKey websiteWalletKeypair) w1) as [Hf2 Hu2].
  pose proof (quiet_getBalance env (publicKey websiteWalletKeypair) w1) as Hq2.
  destruct (getBalance env (publicKey websiteWalletKeypair) w1) as [[balance | e] w2];
    cbn [snd] in Hf2, Hu2, Hq2.
  2:{ cbv beta iota in Hrun. injection Hrun as <- <-. split; [exact Hu2 |]. apply Hinserted. exact Hf2. }
  destruct (PrimFloat.ltb balance (passed + G)).
  { unfold throw in Hrun. cbv beta iota in Hrun. injection Hrun as <- <-.
    split; [exact Hu2 |]. apply Hinserted. exact Hf2. }
  unfold bind at 1 in Hrun.
  pose proof (frame_transferSol env websiteWalletKeypair (publicKey fundWallet) passed true w2)
    as [Hf3 Hu3].
  destruct (transferSol_submitted websiteWalletKeypair (publicKey fundWallet) passed true w2)
    as (recent & k & Hk & Hsent & Hone).
  destruct (transferSol env websiteWalletKeypair (publicKey fundWallet) passed true w2)
    as [[sig | e] w3]; cbn [fst snd] in Hf3, Hu3, Hsent, Hone.
  2:{ cbv beta iota in Hrun. injection Hrun as <- <-.
      split; [rewrite Hu3, Hu2; reflexivity |]. apply Hinserted. rewrite Hf3. exact Hf2. }
  specialize (Hone sig eq_refl).
  unfold bind at 1 in Hrun. unfold Fund_save_initialFeePaid in Hrun.
  unfold bind at 1 in Hrun. rewrite draw_eq in Hrun.
  unfold bind at 1 in Hrun. unfold get at 1 in Hrun.
  cbn [funds with_trace hydrate fields modified launchStatus] in Hrun.
  change (_id (doc now1)) with id in Hrun.
  assert (Hlook : funds w3 !! id = Some (doc now1)).
  { rewrite Hf3, Hf2. cbn [funds w1 with_funds]. apply lookup_insert_eq. }
  rewrite Hlook in Hrun. unfold bind, modify, ret in Hrun. cbv beta iota in Hrun. injection Hrun as <- <-.
  cbn [code].
  split; [cbn [users with_funds with_trace]; rewrite Hu3, Hu2; reflexivity |].
  split; [reflexivity |]. split; [reflexivity |]. split; [reflexivity |].
  exists now1, (value env Date (length (trace w3)) Now), recent, k.
  split; [| split; [lia |]].
  - cbn [funds with_funds with_trace]. rewrite Hf3, Hf2. cbn [funds w1 with_funds].
    rewrite alter_insert_eq. reflexivity.
  - cbn [trace with_funds with_trace]. rewrite submitted_app, app_nil_r.
    rewrite Hsent, Hq2. cbn [trace w1 with_funds with_trace].
    rewrite submitted_app, app_nil_r. reflexivity.
Qed.

Lemma missing_paths_none (fundWallet : Keypair) (p : float) :
  missing_paths fundWallet p = [] -> exists target, targetSolMap p = Some target.
Proof.
  unfold missing_paths. intros H.
  apply app_eq_nil in H. destruct H as [_ H].
  apply app_eq_nil in H. destruct H as [_ H].
  destruct (targetSolMap p) as [target |]; [eauto | discriminate].
Qed.

Lemma link_accepted_passes (o : option string) :
  link_accepted o = true -> truthy_str o && negb (isValidUrl (default "" o)) = false.
Proof.
  unfold link_accepted. destruct (truthy_str o); cbn [negb orb andb]; [| reflexivity].
  intros ->. reflexivity.
Qed.

(** X23. Whatever the ledger and the clock answer, the creation
    handler adds a fund only with its reply 201, and then exactly one:
    stored under a fresh id, active, with no donation, owned by the
    user of the wallet in the request, with the target of its
    percentage in [targetSolMap] and 99% of the creation fee as
    [initialFeePaid], the transfer of that amount from the website
    wallet to the wallet of the fund, with the priority fee, being the
    one transaction submitted (handed to the ledger between one and
    six times, each time the same).  With any other
    reply no fund is stored that was not there before (the fund saved
    before a failure is deleted), and when the handler throws, the
    funds are as they were. *)
Theorem X23_creation_adds_one_funded_fund_or_none (req : CreateRequest) (w : World) :
  let run := create_fund env toString config websiteWalletKeypair req w in
  let passed := CROWD_FUND_CREATION_FEE config * 0.99 in
  match fst run with
  | Ok r =>
      if Nat.eqb (code r) 201 then
        exists f owner recent k,
          funds w !! _id f = None
          /\ funds (snd run) = <[_id f := f]> (funds w)
          /\ status f = active
          /\ currentDonatedSol f = 0
          /\ initialFeePaid f = passed
          /\ cr_targetPercentage req = Some (targetPercentage f)
          /\ targetSolMap (targetPercentage f) = Some (targetSolAmount f)
          /\ User_findOne (default "" (cr_userWallet req)) (users (snd run)) = Some owner
          /\ userId f = user_id owner
          /\ (1 <= k <= 6)%nat
          /\ submitted (trace (snd run))
             = (submitted (trace w)
                ++ repeat (transfer_transaction websiteWalletKeypair (fundWalletAddress f)
                             passed true recent) k)%list
      else no_new_fund w (snd run)
  | Throw _ => funds (snd run) = funds w
  end.
Proof.
  intros run passed. destruct run as [res w'] eqn:Hrun. subst run. cbn [fst snd].
  destruct (well_formed req) eqn:Hwf.
  2:{ destruct (create_fund_malformed req w Hwf) as (msg & Hmal).
      rewrite Hmal in Hrun. injection Hrun as <- <-. cbn. intros id f H. exact H. }
  unfold well_formed in Hwf.
  repeat match type of Hwf with
         | _ && _ = true => apply andb_prop in Hwf; destruct Hwf as [Hwf ?]
         end.
  unfold create_fund in Hrun.
  repeat match goal with
         | H : truthy_str _ = true |- _ => rewrite H in Hrun; clear H
         | H : truthy_number _ = true |- _ =>
             pose proof H as Hpercentage; rewrite H in Hrun; clear H
         | H : link_accepted _ = true |- _ =>
             rewrite (link_accepted_passes _ H) in Hrun; clear H
         | H : existsb _ _ = true |- _ => rewrite H in Hrun; clear H
         end.
  cbn [negb orb] in Hrun.
  set (userWallet := default "" (cr_userWallet req)) in *.
  set (txSignature := default "" (cr_txSignature req)) in *.
  set (p := default 0 (cr_targetPercentage req)) in *.
  assert (Hp : cr_targetPercentage req = Some p).
  { unfold p. destruct (cr_targetPercentage req); [reflexivity | discriminate]. }
  unfold bind at 1 in Hrun. unfold get at 1 in Hrun. unfold bind at 1 in Hrun.
  destruct (creator_found_or_created userWallet w) as (user & w1 & Hstep & Hf1 & Huser & Hq1).
  rewrite Hstep in Hrun.
  unfold bind at 1 in Hrun. rewrite draw_eq in Hrun.
  set (fundWallet := value env Keypair (length (trace w1)) KeypairGenerate) in Hrun.
  set (w2 := with_trace (trace w1 ++ [Drawn KeypairGenerate]) w1) in Hrun.
  assert (Hf2 : funds w2 = funds w) by exact Hf1.
  assert (Hu2 : users w2 = users w1) by reflexivity.
  assert (Hq2 : submitted (trace w2) = submitted (trace w)).
  { unfold w2. cbn [trace with_trace]. rewrite submitted_app, app_nil_r. exact Hq1. }
  clearbody w2.
  unfold bind at 1 in Hrun.
  pose proof (frame_verifySolPayment env toString txSignature userWallet
                (publicKey websiteWalletKeypair) (CROWD_FUND_CREATION_FEE config) w2)
    as [Hf3 Hu3].
  pose proof (quiet_verifySolPayment txSignature userWallet
                (publicKey websiteWalletKeypair) (CROWD_FUND_CREATION_FEE config) w2) as Hq3.
  destruct (verifySolPayment env toString txSignature userWallet
              (publicKey websiteWalletKeypair) (CROWD_FUND_CREATION_FEE config) w2)
    as [[valid | e] w3]; cbn [snd] in Hf3, Hu3, Hq3.
  2:{ injection Hrun as <- <-. congruence. }
  rewrite Hf2 in Hf3. rewrite Hu2 in Hu3. rewrite Hq2 in Hq3.
  destruct valid; cbn [negb] in Hrun.
  2:{ unfold ret in Hrun. injection Hrun as <- <-. cbn [code error_reply Nat.eqb].
      intros id f H. rewrite <- Hf3. exact H. }
  unfold bind at 1 in Hrun. unfold call at 1 in Hrun.
  destruct (answer env Blockhash (length (trace w3)) GetLatestBlockhash) as [bh | e].
  2:{ injection Hrun as <- <-. exact Hf3. }
  set (w4 := with_trace (trace w3 ++ [Called GetLatestBlockhash]) w3) in Hrun.
  assert (Hf4 : funds w4 = funds w) by exact Hf3.
  assert (Hu4 : users w4 = users w1) by exact Hu3.
  assert (Hq4 : submitted (trace w4) = submitted (trace w)).
  { unfold w4. cbn [trace with_trace]. rewrite submitted_app, app_nil_r. exact Hq3. }
  clearbody w4.
  unfold bind at 1 in Hrun.
  match type of Hrun with
  | context [try_catch ?m ?h w4] =>
      assert (Hframe : frame (try_catch m h))
        by (apply frame_try_catch; [| intros; apply frame_ret];
            apply frame_bind; [apply frame_confirmTransaction | intros; apply frame_ret]);
      assert (Hquiet : quiet (try_catch m h))
        by (apply quiet_try_catch; [| intros; apply quiet_ret];
            apply quiet_bind; [apply quiet_confirmTransaction | intros; apply quiet_ret]);
      destruct (try_catch_ret_returns m false w4) as (confirmed & w5 & Hconfirm);
      destruct (Hframe w4) as [Hf5 Hu5]; pose proof (Hquiet w4) as Hq5;
      rewrite Hconfirm in Hf5, Hu5, Hq5, Hrun; cbn [snd] in Hf5, Hu5, Hq5
  end.
  rewrite Hf4 in Hf5. rewrite Hu4 in Hu5. rewrite Hq4 in Hq5.
  destruct confirmed; cbn [negb] in Hrun.
  2:{ unfold ret in Hrun. injection Hrun as <- <-. cbn [code error_reply Nat.eqb].
      intros id f H. rewrite <- Hf5. exact H. }
  unfold bind at 1 in Hrun. rewrite draw_eq in Hrun.
  set (id := value env string (length (trace w5)) NewObjectId) in Hrun.
  set (w6 := with_trace (trace w5 ++ [Drawn NewObjectId]) w5) in Hrun.
  assert (Hf6 : funds w6 = funds w) by exact Hf5.
  assert (Hu6 : users w6 = users w1) by exact Hu5.
  assert (Hq6 : submitted (trace w6) = submitted (trace w)).
  { unfold w6. cbn [trace with_trace]. rewrite submitted_app, app_nil_r. exact Hq5. }
  clearbody w6.
  unfold bind at 1 in Hrun.
  destruct (calculateGasFeeReserve_returns env w6) as (G & w7 & HG & Hf7 & Hu7).
  pose proof (quiet_calculateGasFeeReserve w6) as Hq7. rewrite HG in Hq7, Hrun.
  cbn [snd] in Hq7. rewrite Hf6 in Hf7. rewrite Hu6 in Hu7. rewrite Hq6 in Hq7.
  unfold try_catch in Hrun.
  pose proof (fund_the_new_fund_outcome (missing_paths fundWallet p) id (user_id user) req
                fundWallet p G w7) as [Hu8 Hcase].
  fold passed in Hcase.
  destruct (fund_the_new_fund env toString config websiteWalletKeypair
              (missing_paths fundWallet p)
              (new_Fund config id (user_id user) req fundWallet p) fundWallet G w7)
    as [[r | e] w8]; cbn [fst snd] in Hu8, Hcase.
  - injection Hrun as <- <-.
    destruct Hcase as (Hcode & Hmissing & Hfresh & now1 & now2 & recent & k & Hf8 & Hk & Hsent).
    rewrite Hcode. cbn [Nat.eqb].
    destruct (missing_paths_none fundWallet p Hmissing) as (target & Htarget).
    exists (with_initialFeePaid passed now2
              (new_Fund config id (user_id user) req fundWallet p now1)), user, recent, k.
    cbn [with_initialFeePaid new_Fund _id status currentDonatedSol initialFeePaid
           targetPercentage targetSolAmount userId fundWalletAddress].
    split; [rewrite <- Hf7; exact Hfresh |].
    split; [rewrite Hf8, Hf7; reflexivity |].
    split; [reflexivity |]. split; [reflexivity |]. split; [reflexivity |].
    split; [exact Hp |].
    split; [rewrite Htarget; reflexivity |].
    split; [rewrite Hu8, Hu7; exact Huser |].
    split; [reflexivity |]. split; [exact Hk |].
    rewrite Hsent, Hq7. reflexivity.
  - destruct (undo_the_new_fund_outcome id userWallet G e w8)
      as (r & w9 & Hundo & Hcode & Hf9 & _).
    rewrite Hundo in Hrun. injection Hrun as <- <-.
    rewrite Hcode. cbn [Nat.eqb].
    intros key v H. rewrite Hf9 in H. apply lookup_delete_Some in H.
    destruct H as [Hne H]. destruct (Hcase key v H) as [-> | Hold].
    + contradiction Hne. reflexivity.
    + rewrite <- Hf7. exact Hold.
Qed.

End Coverage.

(** ** The connection to the database *)

(** X26. From the variables the module starts with, the connection is
    attempted until it first succeeds and at most six times: every
    attempt before the last one failed; the run ends connected, with
    the retry count back at 0, when the last attempt succeeded, and
    with the process exited exactly when six attempts failed.  No
    attempt is skipped. *)
Theorem X26_connectDB_tries_six_times_then_exits (connect : nat -> bool) :
  exists outcome st n,
    Db.connectDB connect 6 0 Db.start = Some (outcome, st, n)
    /\ (1 <= n <= 6)%nat
    /\ (forall i, (i < n - 1)%nat -> connect i = false)
    /\ match outcome with
       | Db.Connected =>
           connect (n - 1)%nat = true
           /\ Db.retryCount st = 0%nat /\ Db.isConnecting st = false
       | Db.Exited => n = 6%nat /\ connect 5%nat = false
       | Db.Skipped => False
       end.
Proof.
  assert (Hbelow : forall n i, (i < S n)%nat -> i = n \/ (i < n)%nat).
  { intros n i H. apply (proj1 (Nat.lt_succ_r i n)) in H.
    apply (proj1 (Nat.le_lteq i n)) in H.
    destruct H as [H | H]; [right | left]; exact H. }
  cbn.
  destruct (connect 0%nat) eqn:H0;
    [| destruct (connect 1%nat) eqn:H1;
       [| destruct (connect 2%nat) eqn:H2;
          [| destruct (connect 3%nat) eqn:H3;
             [| destruct (connect 4%nat) eqn:H4;
                [| destruct (connect 5%nat) eqn:H5]]]]];
    do 3 eexists; (split; [reflexivity |]); cbn;
    (split; [split; repeat constructor |]);
    (split; [| auto]);
    intros i Hi;
    repeat (apply Hbelow in Hi; destruct Hi as [-> | Hi]; [assumption |]);
    inversion Hi.
Qed.

(** ** The profile *)

Section Profile.

Variable toISOString : Date -> string.

Local Ltac member :=
  repeat (rewrite lookup_insert_eq || (rewrite lookup_insert_ne by discriminate));
  reflexivity.

Lemma or_null_trimmed (s : string) :
  Nat.eqb (String.length (trim s)) 0 = false -> or_null (Some (trim s)) = JStr (trim s).
Proof.
  unfold or_null, truthy_str. destruct (trim s); [discriminate | reflexivity].
Qed.

(** X27. The profile shows what the update stored: after an update
    answered 200, the profile of that wallet is answered 200 without
    any change, with the same wallet address, name, e-mail address and
    total as the reply of the update, the name and the e-mail address
    being the trimmed texts that were sent. *)
Theorem X27_profile_shows_what_the_update_stored (wallet : string)
    (body_name body_email : option jsval) (w w' : World) (r : Reply) :
  update_profile toISOString wallet body_name body_email w = (Ok r, w') ->
  code r = 200%nat ->
  exists r',
    profile toISOString wallet w' = (Ok r', w')
    /\ code r' = 200%nat
    /\ body r' !! "walletAddress" = Some (JStr wallet)
    /\ body r' !! "walletAddress" = body r !! "walletAddress"
    /\ body r' !! "name" = body r !! "name"
    /\ body r' !! "email" = body r !! "email"
    /\ body r' !! "totalDonatedSol" = body r !! "totalDonatedSol"
    /\ (forall s, body_name = Some (JStr s) -> body r' !! "name" = Some (JStr (trim s)))
    /\ (forall s, body_email = Some (JStr s) -> body r' !! "email" = Some (JStr (trim s))).
Proof.
  unfold update_profile.
  destruct (String.eqb wallet "");
    [intros H; injection H as <- <-; discriminate |].
  destruct (checked_name body_name) as [updates_name |] eqn:Hname;
    [| intros H; injection H as <- <-; discriminate].
  destruct (checked_email body_email) as [updates_email |] eqn:Hemail;
    [| intros H; injection H as <- <-; discriminate].
  unfold bind at 1. unfold User_findOneAndSet. unfold bind at 1. unfold get at 1.
  destruct (User_findOne wallet (users w)) as [before |] eqn:Hfind;
    [| intros H; injection H as <- <-; discriminate].
  unfold bind, modify, ret. intros H _. injection H as <- <-.
  assert (Hwallet : walletAddress before = wallet)
    by (apply (find_walletAddress _ _ _ Hfind)).
  assert (Hafter : User_findOne wallet
                     (update_first (fun v => String.eqb (walletAddress v) wallet)
                        (set_profile updates_name updates_email) (users w))
                   = Some (set_profile updates_name updates_email before)).
  { unfold User_findOne in *. apply find_update_first; [exact Hfind |].
    cbn [set_profile walletAddress]. apply find_some in Hfind. apply Hfind. }
  unfold profile, bind, get. cbn [users with_users]. rewrite Hafter. unfold ret.
  eexists. split; [reflexivity |]. cbn [code body].
  split; [reflexivity |].
  split; [rewrite <- Hwallet; member |].
  split; [member |]. split; [member |].
  split; [member |]. split; [member |].
  split.
  - intros s ->. unfold checked_name in Hname.
    destruct (Nat.eqb (String.length (trim s)) 0) eqn:Hlen; [discriminate |].
    injection Hname as <-.
    transitivity (Some (or_null (Some (trim s)))); [member |].
    rewrite (or_null_trimmed s Hlen). reflexivity.
  - intros s ->. unfold checked_email in Hemail.
    destruct (includes "@" s); cbn [negb orb] in Hemail; [| discriminate].
    destruct (Nat.eqb (String.length (trim s)) 0) eqn:Hlen; [discriminate |].
    injection Hemail as <-.
    transitivity (Some (or_null (Some (trim s)))); [member |].
    rewrite (or_null_trimmed s Hlen). reflexivity.
Qed.

End Profile.

(** ** Links *)

Lemma match_prefix_i_cons (p : ascii) (pat s rest : string) :
  match_prefix_i (String p pat) s = Some rest ->
  exists c s', s = String c s' /\ (c = p \/ c = upper p)
               /\ match_prefix_i pat s' = Some rest.
Proof.
  cbn [match_prefix_i]. destruct s as [| c s']; [discriminate |].
  destruct (Ascii.eqb c p) eqn:H1; cbn [orb].
  - apply Ascii.eqb_eq in H1. eauto 6.
  - destruct (Ascii.eqb c (upper p)) eqn:H2; [| discriminate].
    apply Ascii.eqb_eq in H2. eauto 6.
Qed.

(** X28. [isValidUrl] accepts only a text made of the scheme http or
    https, in letters of either case, then "://", then at least two
    characters, the first of which is not white space and after the
    second of which there is no white space. *)
Theorem X28_isValidUrl_accepts_only_http_addresses (url : string) :
  isValidUrl url = true ->
  exists scheme c1 c2 tail,
    url = scheme ++ "://" ++ String c1 (String c2 tail)
    /\ (upper_case scheme = "HTTP" \/ upper_case scheme = "HTTPS")
    /\ is_white_space c1 = false
    /\ string_forallb (fun c => negb (is_white_space c)) tail = true.
Proof.
  unfold isValidUrl. intros H.
  destruct (match_prefix_i "http" url) as [rest |] eqn:Hp; [| discriminate].
  apply match_prefix_i_cons in Hp. destruct Hp as (a & s1 & -> & Ha & Hp).
  apply match_prefix_i_cons in Hp. destruct Hp as (b & s2 & -> & Hb & Hp).
  apply match_prefix_i_cons in Hp. destruct Hp as (c & s3 & -> & Hc & Hp).
  apply match_prefix_i_cons in Hp. destruct Hp as (d & s4 & -> & Hd & Hp).
  cbn [match_prefix_i] in Hp. injection Hp as ->.
  assert (Hscheme : upper_case (String a (String b (String c (String d "")))) = "HTTP")
    by (destruct Ha as [-> | ->], Hb as [-> | ->], Hc as [-> | ->], Hd as [-> | ->];
        reflexivity).
  match type of H with
  | match match_prefix_i "://" ?r with _ => _ end = true =>
      destruct (match_prefix_i "://" r) as [[| c1 [| c2 tail]] |] eqn:Hq;
        try discriminate
  end.
  apply andb_prop in H. destruct H as [H Htail].
  apply andb_prop in H. destruct H as [H _].
  apply negb_true_iff, orb_false_elim in H. destruct H as [Hspace _].
  apply match_prefix_i_cons in Hq. destruct Hq as (x & t1 & Hrest & Hx & Hq).
  apply match_prefix_i_cons in Hq. destruct Hq as (y & t2 & -> & Hy & Hq).
  apply match_prefix_i_cons in Hq. destruct Hq as (z & t3 & -> & Hz & Hq).
  cbn [match_prefix_i] in Hq. injection Hq as ->.
  assert (Hsep : String x (String y (String z "")) = "://")
    by (destruct Hx as [-> | ->], Hy as [-> | ->], Hz as [-> | ->]; reflexivity).
  injection Hsep as -> -> ->. clear Hx Hy Hz.
  destruct rest as [| e rest']; [discriminate Hrest |].
  destruct (Ascii.eqb e "s" || Ascii.eqb e "S") eqn:Hs.
  - subst rest'.
    exists (String a (String b (String c (String d (String e ""))))), c1, c2, tail.
    split; [reflexivity |]. split; [| split; assumption].
    right. cbn [upper_case] in *. injection Hscheme as -> -> -> ->.
    apply orb_prop in Hs.
    destruct Hs as [Hs | Hs]; apply Ascii.eqb_eq in Hs; subst e; reflexivity.
  - injection Hrest as -> ->.
    exists (String a (String b (String c (String d "")))), c1, c2, tail.
    split; [reflexivity |]. split; [left; exact Hscheme | split; assumption].
Qed.

(** ** The further statements at concrete runs *)

(** A creation whose fee has been paid: the reply is 201, the new user
    "id0" owns the one fund "id8", which holds 99% of the fee of 0.1,
    sent once from the website wallet.  When the website wallet cannot
    pay, the reply is 500, the fund is gone and its creator stays. *)
Example creation_runs :
  (code <$> returned (fst created)) = Some 201%nat
  /\ (initialFeePaid <$> funds (snd created) !! "id8") = Some 0.099000000000000005
  /\ (userId <$> funds (snd created) !! "id8") = Some "id0"
  /\ (user_id <$> users (snd created)) = ["id0"]
  /\ submitted (trace (snd created))
     = [transfer_transaction website "Mint" (0.1 * 0.99) true "hash"]
  /\ (code <$> returned (fst not_funded)) = Some 500%nat
  /\ funds (snd not_funded) = ∅
  /\ (user_id <$> users (snd not_funded)) = ["id0"]
  /\ submitted (trace (snd not_funded)) = [].
Proof. vm_compute. repeat split. Qed.

(** The reserve on a ledger that names a fee of 5000 lamports, a fee of
    0, no fee, and on one that gives no blockhash. *)
Example gas_fee_reserves :
  fst (calculateGasFeeReserve launch_ledger funded) = Ok 0.00005
  /\ fst (calculateGasFeeReserve (ledger (Some 0) (fun _ _ => 0) (fun _ => None)) funded)
     = Ok 0.05
  /\ fst (calculateGasFeeReserve (ledger None (fun _ _ => 0) (fun _ => None)) funded)
     = Ok 0.05
  /\ calculateGasFeeReserve (no_blockhash launch_ledger) funded
     = (Ok 0.05, with_trace [Called GetLatestBlockhash] funded).
Proof. vm_compute. repeat split. Qed.

Lemma X2_witness :
  let w' := snd (confirmTransaction launch_ledger "sent" (Some 100) funded) in
  confirmTransaction launch_ledger "sent" (Some 100) funded = (Ok tt, w')
  /\ exists t,
       trace w' = (t ++ [Called (ConfirmTransaction "sent")])%list
       /\ answer launch_ledger (option string) (length t) (ConfirmTransaction "sent")
          = Ok None
       /\ (length (trace funded) <= length t)%nat.
Proof.
  intros w'.
  assert (H : confirmTransaction launch_ledger "sent" (Some 100) funded = (Ok tt, w'))
    by (vm_compute; reflexivity).
  split; [exact H |].
  exact (X2_confirmTransaction_returns_only_when_confirmed launch_ledger "sent" (Some 100)
           funded w' H).
Defined.

Lemma X4_witness :
  let o := delayed 4 two_donations in
  let tx := payment "Alice" 6000000000 in
  let p := {| program := "system"; parsed_type := "transfer"; source := "Alice";
              destination := "FundWallet"; lamports := 6000000000 |} in
  (answer o string (length (trace funded)) (NewPublicKey "Alice") = Ok "Alice"
   /\ answer o string (S (length (trace funded))) (NewPublicKey "FundWallet")
      = Ok "FundWallet"
   /\ (2 < 10)%nat
   /\ (forall i, (i < 2)%nat ->
                 answer o (option ParsedTx) (length (trace funded) + 2 + i)
                   (GetParsedTransaction "sig1") = Ok None)
   /\ answer o (option ParsedTx) (length (trace funded) + 2 + 2)
        (GetParsedTransaction "sig1") = Ok (Some tx)
   /\ Num.strict_eq (slot tx) 0 = false
   /\ find (is_transfer "Alice" "FundWallet") (instructions tx) = Some (Parsed p)
   /\ PrimFloat.ltb (lamports p) (Num.Math_floor (6 * Num.LAMPORTS_PER_SOL)) = false)
  /\ verifySolPayment o show "sig1" "Alice" "FundWallet" 6 funded
     = (Ok true,
        with_trace (trace funded
                    ++ [Called (NewPublicKey "Alice"); Called (NewPublicKey "FundWallet")]
                    ++ repeat (Called (GetParsedTransaction "sig1")) 3) funded).
Proof.
  intros o tx p.
  assert (H1 : answer o string (length (trace funded)) (NewPublicKey "Alice") = Ok "Alice")
    by reflexivity.
  assert (H2 : answer o string (S (length (trace funded))) (NewPublicKey "FundWallet")
               = Ok "FundWallet") by reflexivity.
  assert (H3 : (2 < 10)%nat) by lia.
  assert (H4 : forall i, (i < 2)%nat ->
                         answer o (option ParsedTx) (length (trace funded) + 2 + i)
                           (GetParsedTransaction "sig1") = Ok None).
  { intros i Hi. destruct i as [| [| i]]; [reflexivity | reflexivity | lia]. }
  assert (H5 : answer o (option ParsedTx) (length (trace funded) + 2 + 2)
                 (GetParsedTransaction "sig1") = Ok (Some tx)) by reflexivity.
  assert (H6 : Num.strict_eq (slot tx) 0 = false) by (vm_compute; reflexivity).
  assert (H7 : find (is_transfer "Alice" "FundWallet") (instructions tx) = Some (Parsed p))
    by (vm_compute; reflexivity).
  assert (H8 : PrimFloat.ltb (lamports p) (Num.Math_floor (6 * Num.LAMPORTS_PER_SOL))
               = false) by (vm_compute; reflexivity).
  split; [repeat split; assumption |].
  exact (X4_verifySolPayment_accepts_once_the_transfer_is_found o show "sig1" "Alice"
           "FundWallet" 6 funded "Alice" "FundWallet" tx p 2 H1 H2 H3 H4 H5 H6 H7 H8).
Defined.

Lemma X5_witness :
  (answer launch_ledger string (length (trace funded)) (NewPublicKey "Alice") = Ok "Alice"
   /\ answer launch_ledger string (S (length (trace funded))) (NewPublicKey "FundWallet")
      = Ok "FundWallet"
   /\ (forall n, answer launch_ledger (option ParsedTx) n (GetParsedTransaction "sig1")
                 = Ok None))
  /\ verifySolPayment launch_ledger show "sig1" "Alice" "FundWallet" 6 funded
     = (Throw (Error ("Transaction " ++ "sig1"
                      ++ " not found or not confirmed after 10 attempts")),
        with_trace (trace funded
                    ++ [Called (NewPublicKey "Alice"); Called (NewPublicKey "FundWallet")]
                    ++ repeat (Called (GetParsedTransaction "sig1")) 10) funded).
Proof.
  assert (H1 : answer launch_ledger string (length (trace funded)) (NewPublicKey "Alice")
               = Ok "Alice") by reflexivity.
  assert (H2 : answer launch_ledger string (S (length (trace funded)))
                 (NewPublicKey "FundWallet") = Ok "FundWallet") by reflexivity.
  assert (H3 : forall n, answer launch_ledger (option ParsedTx) n
                           (GetParsedTransaction "sig1") = Ok None)
    by (intros n; reflexivity).
  split; [repeat split; assumption |].
  exact (X5_verifySolPayment_gives_up_after_ten_lookups launch_ledger show "sig1" "Alice"
           "FundWallet" 6 funded "Alice" "FundWallet" H1 H2 H3).
Defined.

Lemma X6_witness :
  let action := getBalance eleven "PumpWallet" in
  let condition := fun b : float => PrimFloat.ltb b 0 in
  (forall w, exists r w', action w = (Ok r, w') /\ condition r = false)
  /\ returns (waitWithRetries action condition "Balance") (fun r => condition r = true)
  /\ forall w, fst (waitWithRetries action condition "Balance" w)
               = Throw (Error ("Balance" ++ " condition not met")).
Proof.
  intros action condition.
  assert (H : forall w, exists r w', action w = (Ok r, w') /\ condition r = false).
  { intros w. eexists _, _. split; [reflexivity | vm_compute; reflexivity]. }
  split; [exact H |].
  destruct (X6_waitWithRetries_returns_only_what_meets_the_condition action condition
              "Balance") as [Hreturns Hthrows].
  split; [exact Hreturns | exact (Hthrows H)].
Defined.

Lemma X10_witness :
  let fund := hydrate (campaign 10 1 10 completed) in
  let run := fundPumpWallet eleven show fund_keys pump_keys fund 0 11 10.7 0.3 funded in
  let fund' := default fund (returned (fst run)) in
  (pumpPortalTransferCompleted (fields fund) = false
   /\ PrimFloat.ltb 0 (10.7 - 0.09) = true
   /\ run = (Ok fund', snd run))
  /\ pumpPortalTransferCompleted (fields fund') = true
  /\ stored pumpPortalTransferCompleted "fund1" (snd run) = Some true
  /\ (exists recent k,
        (1 <= k <= 6)%nat
        /\ submitted (trace (snd run))
           = (submitted (trace funded)
              ++ repeat (transfer_transaction fund_keys "PumpWallet" (11 - 0.3) false
                           recent) k)%list)
  /\ (forall pumpWalletBalance2 fundWalletBalance2 totalSolForPump2 feeRaiseWallet2 w2,
        fundPumpWallet eleven show fund_keys pump_keys fund' pumpWalletBalance2
          fundWalletBalance2 totalSolForPump2 feeRaiseWallet2 w2 = (Ok fund', w2)).
Proof.
  intros fund run fund'.
  assert (H1 : pumpPortalTransferCompleted (fields fund) = false) by reflexivity.
  assert (H2 : PrimFloat.ltb 0 (10.7 - 0.09) = true) by (vm_compute; reflexivity).
  assert (H3 : run = (Ok fund', snd run)) by (vm_compute; reflexivity).
  split; [repeat split; assumption |].
  exact (X10_funding_step_transfers_once_and_marks_the_fund eleven show fund_keys pump_keys
           fund fund' 0 11 10.7 0.3 funded (snd run) H1 H2 H3).
Defined.

Lemma X11_witness :
  let f := campaign 10 1 10 completed in
  let run := acquirePumpWallet launch_ledger (hydrate f) funded in
  let walletData := {| wd_apiKey := "key"; wd_walletPublicKey := "PumpWallet";
                       wd_privateKey := "PumpSecret" |} in
  let fund' := hydrate (apply_sets [Set_pumpPortalApiKey (Some "key");
                                    Set_pumpPortalWalletPublicKey (Some "PumpWallet");
                                    Set_pumpPortalPrivateKey (Some "PumpSecret");
                                    Set_updatedAt 2002%Z] f) in
  (funds funded !! _id f = Some f
   /\ run = (Ok (fund', walletData, pump_keys), snd run))
  /\ stored pumpPortalApiKey (_id f) (snd run) = Some (Some (wd_apiKey walletData))
  /\ stored pumpPortalWalletPublicKey (_id f) (snd run)
     = Some (Some (wd_walletPublicKey walletData))
  /\ stored pumpPortalPrivateKey (_id f) (snd run) = Some (Some (wd_privateKey walletData))
  /\ (truthy_str (pumpPortalWalletPublicKey f) && truthy_str (pumpPortalPrivateKey f)
      && truthy_str (pumpPortalApiKey f) = true ->
      snd run = with_trace
                  (trace funded ++ [Called (KeypairFromSecretKey (wd_privateKey walletData))])
                  funded).
Proof.
  intros f run walletData fund'.
  assert (H1 : funds funded !! _id f = Some f) by (vm_compute; reflexivity).
  assert (H2 : run = (Ok (fund', walletData, pump_keys), snd run))
    by (vm_compute; reflexivity).
  split; [split; assumption |].
  exact (X11_pump_wallet_in_use_is_the_stored_one launch_ledger f funded (snd run) fund'
           walletData pump_keys H1 H2).
Defined.

Lemma X12_witness :
  let w := world_of no_image in
  (funds w !! "fund1" = Some no_image
   /\ _id no_image = "fund1"
   /\ truthy_str (image no_image) = false)
  /\ exists w',
       run_job launch_ledger show cfg (AutoLaunch "fund1" 10.6) w = (Ok tt, w')
       /\ stored launchError "fund1" w'
          = Some (Some "Image is required for token creation on Pump.fun")
       /\ stored tokenAddress "fund1" w' = Some (tokenAddress no_image)
       /\ stored status "fund1" w' = Some (status no_image)
       /\ users w' = users w
       /\ trace w' = (trace w ++ [Drawn Now])%list.
Proof.
  intros w.
  assert (H1 : funds w !! "fund1" = Some no_image) by (vm_compute; reflexivity).
  assert (H2 : _id no_image = "fund1") by reflexivity.
  assert (H3 : truthy_str (image no_image) = false) by reflexivity.
  split; [repeat split; assumption |].
  exact (X12_automatic_launch_without_image_records_the_error launch_ledger show cfg
           "fund1" 10.6 no_image w H1 H2 H3).
Defined.

Lemma X13_witness :
  let camp := campaign 10 1 0 active in
  let w := world_of camp in
  let donation := {| fundId := "fund1"; amount := 6;
                     donatedAt := value two_donations Date (length (trace (snd first_read)))
                                    Now |} in
  (funds w !! req_id first_request = Some camp
   /\ _id camp = req_id first_request
   /\ admitted cfg first_request camp
   /\ verified_then_read two_donations show first_request camp w 7 (snd first_read))
  /\ exists t w' donor,
       donation_body two_donations show cfg 0.00005 first_request w = (Ok t, w')
       /\ User_findOne "Alice" (users w') = Some donor
       /\ match User_findOne "Alice" (users w) with
          | Some before =>
              donations donor = (donations before ++ [donation])%list
              /\ totalDonatedSol donor = totalDonatedSol before + 6
          | None => donations donor = [donation] /\ totalDonatedSol donor = 6
          end.
Proof.
  intros camp w donation.
  assert (H1 : funds w !! req_id first_request = Some camp) by (vm_compute; reflexivity).
  assert (H2 : _id camp = req_id first_request) by reflexivity.
  assert (H3 : admitted cfg first_request camp) by (vm_compute; repeat split).
  assert (H4 : verified_then_read two_donations show first_request camp w 7 (snd first_read)).
  { exists (snd first_verified), None,
      (snd (call two_donations (ConfirmTransaction "sig1") (snd first_verified))),
      "FundWallet",
      (snd (call two_donations (NewPublicKey "FundWallet")
              (snd (call two_donations (ConfirmTransaction "sig1") (snd first_verified))))).
    vm_compute. repeat split. }
  split; [repeat split; assumption |].
  exact (X13_verified_donation_is_credited_to_the_donor two_donations show cfg 0.00005
           first_request w (snd first_read) camp 7 H1 H2 H3 H4).
Defined.

Lemma X14_witness :
  let camp := campaign 10 1 6 active in
  let w := world_of camp in
  let total := Num.Math_max 0 (11 - initialFeePaid camp) in
  let handed := (total - total * 0.01) + (initialFeePaid camp - initialFeePaid camp * 0.3) in
  (funds w !! req_id second_request = Some camp
   /\ _id camp = req_id second_request
   /\ admitted cfg second_request camp
   /\ verified_then_read eleven show second_request camp w 11 (snd completing_read))
  /\ exists t w',
       donation_body eleven show cfg 0.00005 second_request w = (Ok t, w')
       /\ (stored status (req_id second_request) w' = Some completed
           <-> Num.geb total (targetSolAmount camp) = true
               /\ PrimFloat.ltb 11 (initialFeePaid camp + total - 0.00005) = false
               /\ PrimFloat.leb handed 0 = false)
       /\ (stored status (req_id second_request) w' = Some completed ->
           (exists date, stored completedAt (req_id second_request) w' = Some (Some date))
           /\ scheduled t = Some (AutoLaunch (req_id second_request) handed)
           /\ is_Some (responseData t))
       /\ (stored status (req_id second_request) w' = Some active -> scheduled t = None).
Proof.
  intros camp w total handed.
  assert (H1 : funds w !! req_id second_request = Some camp) by (vm_compute; reflexivity).
  assert (H2 : _id camp = req_id second_request) by reflexivity.
  assert (H3 : admitted cfg second_request camp) by (vm_compute; repeat split).
  assert (H4 : verified_then_read eleven show second_request camp w 11 (snd completing_read)).
  { exists (snd (verifySolPayment eleven show "sig2" "Bob" "FundWallet" 5 w)), None,
      (snd (call eleven (ConfirmTransaction "sig2")
              (snd (verifySolPayment eleven show "sig2" "Bob" "FundWallet" 5 w)))),
      "FundWallet",
      (snd (call eleven (NewPublicKey "FundWallet")
              (snd (call eleven (ConfirmTransaction "sig2")
                      (snd (verifySolPayment eleven show "sig2" "Bob" "FundWallet" 5 w)))))).
    vm_compute. repeat split. }
  split; [repeat split; assumption |].
  exact (X14_donation_completes_the_fund_exactly_at_the_target eleven show cfg 0.00005
           second_request w (snd completing_read) camp 11 H1 H2 H3 H4).
Defined.

(** Ids that are not stored, on the ledger of the two donations.  A
    donation to the completed fund and one to an id that casts but is
    not stored are answered 400; for a text that is no ObjectId the
    handler throws the CastError.  The detail answers 404 for the
    first kind of id and throws for the second; for the stored fund it
    shows the balance of 11 SOL, and null on a ledger that refuses to
    tell a balance. *)
Example ids_that_are_not_stored :
  replied (donate two_donations show cfg second_request funded) = Some (400%nat, None)
  /\ reply_member "error" (donate two_donations show cfg (donation_to well_formed_id) funded)
     = Some (JStr "Invalid fund")
  /\ fst (donate two_donations show cfg (donation_to malformed_id) funded)
     = Throw (CastError malformed_id)
  /\ fst (fund_detail two_donations well_formed_id funded)
     = Ok (error_reply 404 "Fund with ID 0123456789abcdef01234567 not found")
  /\ fst (fund_detail two_donations malformed_id funded) = Throw (CastError malformed_id)
  /\ (returned (fst (fund_detail launch_ledger "fund1" funded))
      ≫= fun r => body r !! "currentBalance") = Some (JNum 11)
  /\ (returned (fst (fund_detail (no_balance launch_ledger) "fund1" funded))
      ≫= fun r => body r !! "currentBalance") = Some JNull.
Proof. vm_compute. repeat split. Qed.


Lemma X16_witness :
  let camp := campaign 10 1 0 active in
  let w := world_of camp in
  let tx := payment "Mallory" 6000000000 in
  (funds w !! req_id first_request = Some camp
   /\ admitted cfg first_request camp
   /\ (forall n, answer wrong_sender string n (NewPublicKey "Alice") = Ok "Alice")
   /\ (forall n, answer wrong_sender string n (NewPublicKey "FundWallet") = Ok "FundWallet")
   /\ (forall n, answer wrong_sender (option ParsedTx) n (GetParsedTransaction "sig1")
                 = Ok (Some tx))
   /\ logically_fails "Alice" "FundWallet" (Num.Math_floor (6 * Num.LAMPORTS_PER_SOL)) tx)
  /\ exists w',
       donate wrong_sender show cfg first_request w
       = (Throw (Error (failure_message show "Alice" "FundWallet" 6 tx)), w')
       /\ funds w' = funds w /\ users w' = users w.
Proof.
  intros camp w tx.
  assert (H1 : funds w !! req_id first_request = Some camp) by (vm_compute; reflexivity).
  assert (H2 : admitted cfg first_request camp) by (vm_compute; repeat split).
  assert (H3 : forall n, answer wrong_sender string n (NewPublicKey "Alice") = Ok "Alice")
    by (intros n; reflexivity).
  assert (H4 : forall n, answer wrong_sender string n (NewPublicKey "FundWallet")
                         = Ok "FundWallet") by (intros n; reflexivity).
  assert (H5 : forall n, answer wrong_sender (option ParsedTx) n
                           (GetParsedTransaction "sig1") = Ok (Some tx))
    by (intros n; reflexivity).
  assert (H6 : logically_fails "Alice" "FundWallet"
                 (Num.Math_floor (6 * Num.LAMPORTS_PER_SOL)) tx)
    by (vm_compute; split; [reflexivity | exact I]).
  split; [repeat split; assumption |].
  exact (X16_unverified_donation_throws_and_writes_nothing wrong_sender show cfg
           first_request w camp "Alice" "FundWallet" tx H1 H2 H3 H4 H5 H6).
Defined.

Lemma X17_witness :
  ((exists s, lq_status bad_status = Some s /\ s <> "" /\ s <> "active" /\ s <> "completed")
   \/ PrimFloat.is_nan (lq_pageNum bad_status) = true
   \/ PrimFloat.is_nan (lq_limitNum bad_status) = true
   \/ PrimFloat.ltb (lq_pageNum bad_status) 1 = true
   \/ PrimFloat.ltb (lq_limitNum bad_status) 1 = true)
  /\ exists msg, list_funds launch_ledger bad_status funded = (Ok (error_reply 400 msg), funded).
Proof.
  assert (H : (exists s, lq_status bad_status = Some s
                         /\ s <> "" /\ s <> "active" /\ s <> "completed")
              \/ PrimFloat.is_nan (lq_pageNum bad_status) = true
              \/ PrimFloat.is_nan (lq_limitNum bad_status) = true
              \/ PrimFloat.ltb (lq_pageNum bad_status) 1 = true
              \/ PrimFloat.ltb (lq_limitNum bad_status) 1 = true).
  { left. exists "closed". repeat split; discriminate. }
  split; [exact H |].
  exact (X17_list_rejects_bad_status_and_pagination launch_ledger bad_status funded H).
Defined.

Lemma X18_witness :
  let o := listing [with_keys] launch_ledger in
  let w := world_of with_keys in
  (status_accepted first_page
   /\ PrimFloat.is_nan (lq_pageNum first_page) = false
   /\ PrimFloat.is_nan (lq_limitNum first_page) = false
   /\ PrimFloat.ltb (lq_pageNum first_page) 1 = false
   /\ PrimFloat.ltb (lq_limitNum first_page) 1 = false
   /\ answer o float (length (trace w)) (FundCount (list_query first_page)) = Ok 1
   /\ answer o (list Fund) (S (length (trace w))) (FundFind (list_query first_page))
      = Ok [with_keys]
   /\ answer o float (S (S (length (trace w)))) (FundCount (list_query first_page)) = Ok 1)
  /\ exists items w',
       list_funds o first_page w
       = (Ok {| code := 200;
                body := {[ "funds" := JArr (JObj <$> items);
                           "total" := JNum 1;
                           "page" := JNum (lq_pageNum first_page);
                           "pages" := JNum (Num.Math_ceil (1 / lq_limitNum first_page)) ]} |},
          w')
       /\ length items = length [with_keys]
       /\ Forall has_balance items.
Proof.
  intros o w.
  assert (H1 : status_accepted first_page) by (right; right; reflexivity).
  assert (H2 : PrimFloat.is_nan (lq_pageNum first_page) = false) by reflexivity.
  assert (H3 : PrimFloat.is_nan (lq_limitNum first_page) = false) by reflexivity.
  assert (H4 : PrimFloat.ltb (lq_pageNum first_page) 1 = false) by reflexivity.
  assert (H5 : PrimFloat.ltb (lq_limitNum first_page) 1 = false) by reflexivity.
  assert (H6 : answer o float (length (trace w)) (FundCount (list_query first_page)) = Ok 1)
    by reflexivity.
  assert (H7 : answer o (list Fund) (S (length (trace w))) (FundFind (list_query first_page))
               = Ok [with_keys]) by reflexivity.
  assert (H8 : answer o float (S (S (length (trace w)))) (FundCount (list_query first_page))
               = Ok 1) by reflexivity.
  split; [repeat split; assumption |].
  exact (X18_list_replies_whatever_the_balances o first_page w 1 [with_keys] 1
           H1 H2 H3 H4 H5 H6 H7 H8).
Defined.

Lemma X20_witness :
  let f := campaign 10 1 10 completed in
  (truthy_str (lreq_userWallet stranger) = true
   /\ funds funded !! lreq_id stranger = Some f
   /\ User_findById (userId f) (users funded) = Some creator
   /\ walletAddress creator <> default "" (lreq_userWallet stranger))
  /\ launch_handler launch_ledger stranger funded
     = (Ok (error_reply 403 "Only the fund creator can launch the token", None), funded).
Proof.
  intros f.
  assert (H1 : truthy_str (lreq_userWallet stranger) = true) by reflexivity.
  assert (H2 : funds funded !! lreq_id stranger = Some f) by (vm_compute; reflexivity).
  assert (H3 : User_findById (userId f) (users funded) = Some creator)
    by (vm_compute; reflexivity).
  assert (H4 : walletAddress creator <> default "" (lreq_userWallet stranger))
    by discriminate.
  split; [repeat split; assumption |].
  exact (X20_only_the_creator_may_launch launch_ledger stranger funded f creator
           H1 H2 H3 H4).
Defined.


(** The check before a donation on the same ledger: allowed for the
    active fund, 404 for an id that casts but is not stored, and the
    CastError for a text that is no ObjectId. *)
Example pre_donations :
  (code <$> returned (fst (pre_donate two_donations show cfg pre_request
                             (world_of (campaign 10 1 0 active))))) = Some 200%nat
  /\ (code <$> returned (fst (pre_donate two_donations show cfg
                                {| pre_id := well_formed_id; pre_amount := Some 6;
                                   pre_donorWallet := Some "Alice" |} funded)))
     = Some 404%nat
  /\ fst (pre_donate two_donations show cfg
            {| pre_id := malformed_id; pre_amount := Some 6;
               pre_donorWallet := Some "Alice" |} funded)
     = Throw (CastError malformed_id).
Proof. vm_compute. repeat split. Qed.

Lemma X24_witness :
  "Alice" <> ""
  /\ exists user w1,
       register launch_ledger (Some "Alice") funded
       = (Ok {| code := 200;
                body := {[ "userId" := JStr (user_id user);
                           "walletAddress" := JStr "Alice" ]} |}, w1)
       /\ funds w1 = funds funded
       /\ User_findOne "Alice" (users w1) = Some user
       /\ match User_findOne "Alice" (users funded) with
          | Some _ => w1 = funded
          | None =>
              users w1 = (users funded ++ [user])%list
              /\ donations user = [] /\ totalDonatedSol user = 0
          end
       /\ register launch_ledger (Some "Alice") w1
          = (Ok {| code := 200;
                   body := {[ "userId" := JStr (user_id user);
                              "walletAddress" := JStr "Alice" ]} |}, w1).
Proof.
  assert (H : "Alice" <> "") by discriminate.
  split; [exact H |].
  exact (X24_register_is_idempotent launch_ledger "Alice" funded H).
Defined.

Lemma X22_witness :
  well_formed bad_link = false
  /\ exists msg,
       create_fund (creation 5000000000) show cfg website bad_link empty_world
       = (Ok (error_reply 400 msg), empty_world).
Proof.
  assert (H : well_formed bad_link = false) by (vm_compute; reflexivity).
  split; [exact H |].
  exact (X22_malformed_creation_request_is_refused_untouched (creation 5000000000) show cfg
           website bad_link empty_world H).
Defined.

Lemma X27_witness :
  let name := Some (JStr " Ann ") in
  let email := Some (JStr "ann@example.org") in
  let run := update_profile iso "Creator" name email funded in
  let r := default (error_reply 0 "") (returned (fst run)) in
  (run = (Ok r, snd run) /\ code r = 200%nat)
  /\ exists r',
       profile iso "Creator" (snd run) = (Ok r', snd run)
       /\ code r' = 200%nat
       /\ body r' !! "walletAddress" = Some (JStr "Creator")
       /\ body r' !! "walletAddress" = body r !! "walletAddress"
       /\ body r' !! "name" = body r !! "name"
       /\ body r' !! "email" = body r !! "email"
       /\ body r' !! "totalDonatedSol" = body r !! "totalDonatedSol"
       /\ (forall s, name = Some (JStr s) -> body r' !! "name" = Some (JStr (trim s)))
       /\ (forall s, email = Some (JStr s) -> body r' !! "email" = Some (JStr (trim s))).
Proof.
  intros name email run r.
  assert (H1 : run = (Ok r, snd run)) by (vm_compute; reflexivity).
  assert (H2 : code r = 200%nat) by (vm_compute; reflexivity).
  split; [split; assumption |].
  exact (X27_profile_shows_what_the_update_stored iso "Creator" name email funded (snd run)
           r H1 H2).
Defined.

Example profile_after_update :
  let run := update_profile iso "Creator" (Some (JStr " Ann ")) (Some (JStr "ann@example.org"))
               funded in
  let shown := default ∅ (body <$> returned (fst (profile iso "Creator" (snd run)))) in
  shown !! "walletAddress" = Some (JStr "Creator")
  /\ shown !! "name" = Some (JStr "Ann")
  /\ shown !! "email" = Some (JStr "ann@example.org")
  /\ shown !! "totalDonatedSol" = Some (JNum 0)
  /\ shown !! "donations" = Some (JArr []).
Proof. vm_compute. repeat split. Qed.

(** [isValidUrl] on a few texts, as the regular expression decides. *)
Example isValidUrl_on_examples :
  isValidUrl "https://token.example" = true
  /\ isValidUrl "HTTP://ab" = true
  /\ isValidUrl "http://a b" = true
  /\ isValidUrl "http://a" = false
  /\ isValidUrl "http://ab c" = false
  /\ isValidUrl "https://.ab" = false
  /\ isValidUrl "ftp://abc" = false
  /\ isValidUrl "x.com/token" = false
  /\ isValidUrl "" = false.
Proof. vm_compute. repeat split. Qed.

Lemma X28_witness :
  isValidUrl "HTTPS://token.example" = true
  /\ exists scheme c1 c2 tail,
       "HTTPS://token.example" = scheme ++ "://" ++ String c1 (String c2 tail)
       /\ (upper_case scheme = "HTTP" \/ upper_case scheme = "HTTPS")
       /\ is_white_space c1 = false
       /\ string_forallb (fun c => negb (is_white_space c)) tail = true.
Proof.
  assert (H : isValidUrl "HTTPS://token.example" = true) by reflexivity.
  split; [exact H |].
  exact (X28_isValidUrl_accepts_only_http_addresses "HTTPS://token.example" H).
Defined.
